(** * github-analizer: bug_analytics.py and pr_analytics.py

    A shallow embedding of the two reporting pipelines
    ([src/bug_analytics.py], pipeline 1, and [src/pr_analytics.py],
    pipeline 2) and the properties their specification states about them.

    Modelling conventions.
    - A value decoded from a JSON response (what [resp.json()] returns) is a
      [json]; a Python [dict] keeps its insertion order, so an object is an
      association list read at its first binding of a key.
    - A Python [str] is a [string]; one [ascii] stands for one character, so
      the strings of the model are those of characters below 256. A JSON
      number is an integer.
    - A Python exception is a value of [exn]; [sys.exit(1)] is [SystemExit],
      tagged with the message the code prints before it exits.
    - The HTTP session is explicit state: an abstract server state, changed by
      every request, and the log of the requests sent so far.
    - [while True] loops take fuel; [OutOfFuel] is the outcome of a loop that
      had not stopped when the fuel ran out.
    - Console and progress-bar output is not modelled, and neither is the
      [verbose] flag, which only controls it. *)

From Stdlib Require Import ZArith Ascii String.
From stdpp Require Import gmap strings list.

Open Scope string_scope.
Open Scope Z_scope.
Open Scope list_scope.

Set Warnings "-register-all".

(** ** Python values *)

Inductive json : Type :=
| JNull
| JBool (b : bool)
| JNum (z : Z)
| JStr (s : string)
| JArr (l : list json)
| JObj (kvs : list (string * json)).

Inductive exit_reason : Type :=
| MissingToken
| RateLimited
| SearchFailed (status : Z).

Inductive exn : Type :=
| SystemExit (code : Z) (why : exit_reason)
| KeyError (k : string)
| AttributeError
| TypeError
| ValueError
| BadParameter (msg : string).

Inductive res (A : Type) : Type :=
| Ok (a : A)
| Raise (e : exn)
| OutOfFuel.

Arguments Ok {A} a.
Arguments Raise {A} e.
Arguments OutOfFuel {A}.

Module Py.

(** [bool(v)] *)
Definition truthy (v : json) : bool :=
  match v with
  | JNull => false
  | JBool b => b
  | JNum z => negb (z =? 0)
  | JStr s => negb (String.eqb s "")
  | JArr l => match l with [] => false | _ => true end
  | JObj kvs => match kvs with [] => false | _ => true end
  end.

Fixpoint assoc (k : string) (kvs : list (string * json)) : option json :=
  match kvs with
  | [] => None
  | (k', v) :: rest => if String.eqb k k' then Some v else assoc k rest
  end.

(** [d.get(k, default)] *)
Definition get (d : json) (k : string) (default : json) : res json :=
  match d with
  | JObj kvs => Ok (match assoc k kvs with Some v => v | None => default end)
  | _ => Raise AttributeError
  end.

(** [d[k]] with a string key *)
Definition subscript (d : json) (k : string) : res json :=
  match d with
  | JObj kvs => match assoc k kvs with Some v => Ok v | None => Raise (KeyError k) end
  | _ => Raise TypeError
  end.

Fixpoint keys (seen : list string) (kvs : list (string * json)) : list json :=
  match kvs with
  | [] => []
  | (k, _) :: rest =>
      if existsb (String.eqb k) seen then keys seen rest
      else JStr k :: keys (k :: seen) rest
  end.

Fixpoint chars (s : string) : list json :=
  match s with
  | EmptyString => []
  | String c s' => JStr (String c EmptyString) :: chars s'
  end.

(** the elements [for x in v] runs over *)
Definition iter (v : json) : res (list json) :=
  match v with
  | JArr l => Ok l
  | JObj kvs => Ok (keys [] kvs)
  | JStr s => Ok (chars s)
  | _ => Raise TypeError
  end.

(** [v == s] for a string literal [s] *)
Definition eq_str (v : json) (s : string) : bool :=
  match v with
  | JStr s' => String.eqb s' s
  | _ => false
  end.

(** [c.lower()] for a character below 256: the letters A-Z, and the
    accented capitals 192-222 other than the multiplication sign 215 *)
Definition lower_ascii (c : ascii) : ascii :=
  let n := nat_of_ascii c in
  if ((Nat.leb 65 n && Nat.leb n 90)
      || (Nat.leb 192 n && Nat.leb n 222 && negb (Nat.eqb n 215)))%bool
  then ascii_of_nat (n + 32) else c.

Fixpoint lower_string (s : string) : string :=
  match s with
  | EmptyString => EmptyString
  | String c s' => String (lower_ascii c) (lower_string s')
  end.

(** [v.lower()] *)
Definition lower (v : json) : res string :=
  match v with
  | JStr s => Ok (lower_string s)
  | _ => Raise AttributeError
  end.

(** [s.split(sep)] for a one-character separator *)
Fixpoint split_string (sep : ascii) (s : string) : list string :=
  match s with
  | EmptyString => [EmptyString]
  | String c s' =>
      if Ascii.eqb c sep then EmptyString :: split_string sep s'
      else match split_string sep s' with
           | h :: t => String c h :: t
           | [] => [String c EmptyString]
           end
  end.

Definition split (v : json) (sep : ascii) : res (list string) :=
  match v with
  | JStr s => Ok (split_string sep s)
  | _ => Raise AttributeError
  end.

(** [l[-1]] on the list a [split] returned, which is never empty *)
Definition last_elem (l : list string) : string := List.last l EmptyString.

(** [s.rstrip(c)] for a one-character set *)
Fixpoint rstrip_string (c : ascii) (s : string) : string :=
  match s with
  | EmptyString => EmptyString
  | String a s' =>
      match rstrip_string c s' with
      | EmptyString => if Ascii.eqb a c then EmptyString else String a EmptyString
      | r => String a r
      end
  end.

Definition rstrip (v : json) (c : ascii) : res string :=
  match v with
  | JStr s => Ok (rstrip_string c s)
  | _ => Raise AttributeError
  end.

(** [k in d] *)
Definition has_key (d : json) (k : string) : bool :=
  match d with
  | JObj kvs => bool_decide (is_Some (assoc k kvs))
  | _ => false
  end.

(** [len(l)] *)
Definition len {A} (l : list A) : Z := Z.of_nat (length l).

(** [sep.join(parts)] *)
Fixpoint join (sep : string) (parts : list string) : string :=
  match parts with
  | [] => EmptyString
  | [p] => p
  | p :: rest => p +:+ sep +:+ join sep rest
  end.

(** the value a [set] stores for a hashable element: [True == 1] and
    [False == 0] are one element each; lists and dicts are unhashable *)
Definition hashed (v : json) : res (option (Z + string)) :=
  match v with
  | JNull => Ok None
  | JBool b => Ok (Some (inl (if b then 1 else 0)))
  | JNum z => Ok (Some (inl z))
  | JStr s => Ok (Some (inr s))
  | JArr _ | JObj _ => Raise TypeError
  end.

End Py.

(** ** Computations that may raise *)

Definition res_bind {A B} (m : res A) (f : A -> res B) : res B :=
  match m with
  | Ok a => f a
  | Raise e => Raise e
  | OutOfFuel => OutOfFuel
  end.

Notation "'let*' x := m 'in' k" := (res_bind m (fun x => k))
  (at level 10, x name, m at level 100, k at level 200).

Fixpoint map_res {A B} (f : A -> res B) (l : list A) : res (list B) :=
  match l with
  | [] => Ok []
  | x :: rest =>
      let* y := f x in
      let* ys := map_res f rest in
      Ok (y :: ys)
  end.

(** ** Session builder (both files, lines 19-40) *)

Record Session : Type := { headers : gmap string string }.

Section SessionBuilder.

(** the headers a fresh [requests.Session()] carries, and the one
    difference between the two files *)
Variable default_headers : gmap string string.
Variable user_agent : string.

Definition str_truthy (o : option string) : bool :=
  match o with
  | Some s => negb (String.eqb s "")
  | None => false
  end.

Definition get_github_session (environ : gmap string string) (token : option string)
  : res Session :=
  let token := if negb (str_truthy token) then environ !! "GITHUB_TOKEN" else token in
  if negb (str_truthy token) then Raise (SystemExit 1 MissingToken)
  else
    let bearer := "Bearer " +:+ default "None" token in
    Ok {| headers :=
           <["User-Agent" := user_agent]>
           (<["X-GitHub-Api-Version" := "2022-11-28"]>
           (<["Accept" := "application/vnd.github+json"]>
           (<["Authorization" := bearer]> default_headers))) |}.

End SessionBuilder.

(** ** The HTTP session *)

Record Request : Type :=
  { req_headers : gmap string string;
    req_url : string;
    req_params : list (string * json) }.

(** [body] is what [resp.json()] returns; [None] when the body does not
    decode, in which case [resp.json()] raises a [ValueError]. *)
Record Response : Type :=
  { status_code : Z;
    text : string;
    body : option json }.

(** The service behind the session: it answers each request and may change
    its own state doing so. *)
Class Server : Type :=
  { World : Type;
    serve : Request -> World -> Response * World }.

Section Net.

Context `{Server}.

Record Net : Type := { world : World; sent : list Request }.

(** a computation that talks to the server and may raise *)
Definition M (A : Type) : Type := Net -> res A * Net.

Definition ret {A} (a : A) : M A := fun n => (Ok a, n).
Definition raise {A} (e : exn) : M A := fun n => (Raise e, n).
Definition out_of_fuel {A} : M A := fun n => (OutOfFuel, n).
Definition lift {A} (r : res A) : M A := fun n => (r, n).

Definition bind {A B} (m : M A) (f : A -> M B) : M B :=
  fun n =>
    match m n with
    | (Ok a, n') => f a n'
    | (Raise e, n') => (Raise e, n')
    | (OutOfFuel, n') => (OutOfFuel, n')
    end.

(** [session.get(url, params=params)] *)
Definition session_get (session : Session) (url : string)
    (params : list (string * json)) : M Response :=
  fun n =>
    let req := {| req_headers := headers session; req_url := url; req_params := params |} in
    let '(resp, w) := serve req (world n) in
    (Ok resp, {| world := w; sent := sent n ++ [req] |}).

(** the session after one more request: what [session_get] leaves *)
Definition after (req : Request) (n : Net) : Net :=
  {| world := (serve req (world n)).2; sent := sent n ++ [req] |}.

(** [resp.json()] *)
Definition resp_json (resp : Response) : res json :=
  match body resp with
  | Some v => Ok v
  | None => Raise ValueError
  end.

End Net.

Notation "'do' x <- m ; k" := (bind m (fun x => k))
  (at level 10, x name, m at level 100, k at level 200).

Definition GITHUB_API_URL : string := "https://api.github.com".

(** [per_page = 100] and the [params] of a search request, the same in the
    three fetchers *)
Definition per_page : Z := 100.

Definition search_params (query : string) (page : Z) : list (string * json) :=
  [("q", JStr query); ("per_page", JNum per_page); ("page", JNum page)].

Definition search_request (session : Session) (query : string) (page : Z) : Request :=
  {| req_headers := headers session;
     req_url := GITHUB_API_URL +:+ "/search/issues";
     req_params := search_params query page |}.

(** a response is a page of [items]: status 200 and a body whose "items" is
    that list *)
Definition page_of (resp : Response) (items : list json) : Prop :=
  status_code resp = 200
  ∧ ∃ data, body resp = Some data ∧ Py.get data "items" (JArr []) = Ok (JArr items).

Section Pages.

Context `{Server}.

(** asked for the pages [page], [page + 1], ... of a query in turn, the
    server in state [w] answers with the given pages and ends in [w'] *)
Inductive serves (session : Session) (query : string)
  : Z → World → list (list json) → World → Prop :=
| serves_nil page w : serves session query page w [] w
| serves_cons page w resp w' items rest w'' :
    serve (search_request session query page) w = (resp, w') →
    page_of resp items →
    serves session query (page + 1) w' rest w'' →
    serves session query page w (items :: rest) w''.

(** the requests for [k] pages from [page] on *)
Fixpoint page_requests (session : Session) (query : string) (page : Z) (k : nat)
  : list Request :=
  match k with
  | O => []
  | S k' => search_request session query page :: page_requests session query (page + 1) k'
  end.

End Pages.

(** a list comprehension with a condition that may raise *)
Fixpoint filter_res {A} (p : A -> res bool) (l : list A) : res (list A) :=
  match l with
  | [] => Ok []
  | x :: rest =>
      let* b := p x in
      let* ys := filter_res p rest in
      Ok (if b then x :: ys else ys)
  end.

(** ** Pipeline 1: [src/bug_analytics.py] *)

Module BugAnalytics.

(** [has_bug_label], lines 52-58: the loop returns at the first label
    named "bug", before it looks at the labels after it. *)
Fixpoint has_bug_label_loop (labels : list json) : res bool :=
  match labels with
  | [] => Ok false
  | label :: rest =>
      let* name := Py.get label "name" (JStr "") in
      let* lowered := Py.lower name in
      if String.eqb lowered "bug" then Ok true else has_bug_label_loop rest
  end.

Definition has_bug_label (item : json) : res bool :=
  let* labels := Py.get item "labels" (JArr []) in
  let* labels := Py.iter labels in
  has_bug_label_loop labels.

Record IssueRecord : Type :=
  { number : json;
    title : json;
    url : json;
    repo : string;
    state : json;
    created_at : json;
    closed_at : json;
    merged_at : json;
    labels : list json }.

(** [[label["name"] for label in item.get("labels", [])]] *)
Definition label_names (item : json) : res (list json) :=
  let* labels := Py.get item "labels" (JArr []) in
  let* labels := Py.iter labels in
  map_res (fun label => Py.subscript label "name") labels.

(** [item.get("repository_url", "").split("/")[-1] if item.get("repository_url") else ""] *)
Definition repo_name (item : json) : res string :=
  let* cond := Py.get item "repository_url" JNull in
  if Py.truthy cond then
    let* repository_url := Py.get item "repository_url" (JStr "") in
    let* parts := Py.split repository_url "/" in
    Ok (Py.last_elem parts)
  else Ok "".

(** [item.get("pull_request", {}).get("merged_at", "") if item.get("pull_request") else ""] *)
Definition merged_at_of (item : json) : res json :=
  let* cond := Py.get item "pull_request" JNull in
  if Py.truthy cond then
    let* pull_request := Py.get item "pull_request" (JObj []) in
    Py.get pull_request "merged_at" (JStr "")
  else Ok (JStr "").

(** [format_issue], lines 314-329 *)
Definition format_issue (item : json) : res IssueRecord :=
  let* labels := label_names item in
  let* repo := repo_name item in
  let* merged_at := merged_at_of item in
  let* number := Py.subscript item "number" in
  let* title := Py.subscript item "title" in
  let* url := Py.get item "html_url" (JStr "") in
  let* state := Py.subscript item "state" in
  let* created_at := Py.get item "created_at" (JStr "") in
  let* closed_at :=
    (if Py.truthy merged_at then Ok merged_at else Py.get item "closed_at" (JStr "")) in
  Ok {| number := number; title := title; url := url; repo := repo; state := state;
        created_at := created_at; closed_at := closed_at; merged_at := merged_at;
        labels := labels |}.

(** [format_pr], lines 331-346 *)
Definition format_pr (item : json) : res IssueRecord :=
  let* labels := label_names item in
  let* repo := repo_name item in
  let* merged_at := merged_at_of item in
  let* number := Py.subscript item "number" in
  let* title := Py.subscript item "title" in
  let* url := Py.get item "html_url" (JStr "") in
  let* state :=
    (if Py.truthy merged_at then Ok (JStr "closed") else Py.get item "state" (JStr "")) in
  let* created_at := Py.get item "created_at" (JStr "") in
  Ok {| number := number; title := title; url := url; repo := repo; state := state;
        created_at := created_at; closed_at := merged_at; merged_at := merged_at;
        labels := labels |}.

Record Category : Type :=
  { aperti : list IssueRecord;
    risolti : list IssueRecord;
    totale_aperti : Z;
    totale_risolti : Z }.

Record Results : Type :=
  { bug : Category;
    non_bug : Category;
    periodo : string * string }.

(** the [query] of [search_issues], lines 83-93 *)
Definition issues_query (org from_date to_date : string) (is_bug : option bool) : string :=
  let query_parts :=
    ["org:" +:+ org; "is:issue"; "created:" +:+ from_date +:+ ".." +:+ to_date] in
  let query_parts :=
    match is_bug with
    | Some true => query_parts ++ ["label:bug"]
    | _ => query_parts
    end in
  Py.join " " query_parts.

(** the [query] of [search_merged_prs], lines 180-193 *)
Definition merged_prs_query (org from_date to_date : string) (is_bug : option bool)
  : string :=
  let query_parts :=
    ["org:" +:+ org; "is:pr"; "is:merged";
     "merged:" +:+ from_date +:+ ".." +:+ to_date] in
  let query_parts :=
    match is_bug with
    | Some true => query_parts ++ ["label:bug"]
    | Some false => query_parts ++ ["-label:bug"]
    | None => query_parts
    end in
  Py.join " " query_parts.

Section Fetch.

Context `{Server}.

(** The [while True] loop of [search_issues], lines 111-152, and of
    [search_merged_prs], lines 211-252: the two loops are the same text
    up to the progress messages. *)
Fixpoint search_loop (fuel : nat) (session : Session) (query : string)
    (is_bug : option bool) (page : Z) (all_items : list json) : M (list json) :=
  match fuel with
  | O => out_of_fuel
  | S fuel' =>
      do resp <- session_get session (GITHUB_API_URL +:+ "/search/issues")
                   (search_params query page);
      if status_code resp =? 403 then raise (SystemExit 1 RateLimited)
      else if negb (status_code resp =? 200) then
        raise (SystemExit 1 (SearchFailed (status_code resp)))
      else
        do data <- lift (resp_json resp);
        do items <- lift (Py.get data "items" (JArr []));
        if negb (Py.truthy items) then ret all_items
        else
          do items <- lift (match is_bug with
                            | Some false =>
                                let* l := Py.iter items in
                                filter_res (fun item =>
                                              let* b := has_bug_label item in
                                              Ok (negb b)) l
                            | _ => Py.iter items
                            end);
          let all_items := all_items ++ items in
          if Py.len items <? per_page then ret all_items
          else search_loop fuel' session query is_bug (page + 1) all_items
  end.

(** [search_issues], lines 61-157 *)
Definition search_issues (fuel : nat) (session : Session) (org from_date to_date : string)
    (is_bug : option bool) : M (list json) :=
  let query := issues_query org from_date to_date is_bug in
  search_loop fuel session query is_bug 1 [].

(** [search_merged_prs], lines 160-258 *)
Definition search_merged_prs (fuel : nat) (session : Session)
    (org from_date to_date : string) (is_bug : option bool) : M (list json) :=
  let query := merged_prs_query org from_date to_date is_bug in
  search_loop fuel session query is_bug 1 [].

Definition state_is_open (item : json) : res bool :=
  let* st := Py.subscript item "state" in
  Ok (Py.eq_str st "open").

(** [analyze_issues], lines 261-365 *)
Definition analyze_issues (fuel : nat) (session : Session)
    (org from_date to_date : string) : M Results :=
  do bug_aperti <- search_issues fuel session org from_date to_date (Some true);
  do non_bug_aperti <- search_issues fuel session org from_date to_date (Some false);
  do bug_chiusi <- search_merged_prs fuel session org from_date to_date (Some true);
  do non_bug_chiusi <- search_merged_prs fuel session org from_date to_date (Some false);
  do bug_aperti_filtrati <- lift (filter_res state_is_open bug_aperti);
  do non_bug_aperti_filtrati <- lift (filter_res state_is_open non_bug_aperti);
  do bug_a <- lift (map_res format_issue bug_aperti_filtrati);
  do bug_r <- lift (map_res format_pr bug_chiusi);
  do non_bug_a <- lift (map_res format_issue non_bug_aperti_filtrati);
  do non_bug_r <- lift (map_res format_pr non_bug_chiusi);
  ret {| bug := {| aperti := bug_a; risolti := bug_r;
                   totale_aperti := Py.len bug_aperti_filtrati;
                   totale_risolti := Py.len bug_chiusi |};
         non_bug := {| aperti := non_bug_a; risolti := non_bug_r;
                       totale_aperti := Py.len non_bug_aperti_filtrati;
                       totale_risolti := Py.len non_bug_chiusi |};
         periodo := (from_date, to_date) |}.

End Fetch.

End BugAnalytics.

(** ** Pipeline 2: [src/pr_analytics.py] *)

Module PrAnalytics.

Record PrData : Type :=
  { number : json;
    title : json;
    url : json;
    repo : string;
    merged_at : json }.

Record Results : Type :=
  { senza_bocciature : list PrData;
    bocciate_poi_approvate : list PrData;
    totale : Z }.

(** [{r.get("state") for r in reviews}] *)
Definition review_states (reviews : json) : res (gset (option (Z + string))) :=
  let* reviews := Py.iter reviews in
  let* states := map_res (fun r => let* st := Py.get r "state" JNull in Py.hashed st) reviews in
  Ok (list_to_set states).

(** [item.get("repository_url", "").split("/")[-1] if item.get("repository_url") else ""] *)
Definition repo_name (item : json) : res string :=
  let* cond := Py.get item "repository_url" JNull in
  if Py.truthy cond then
    let* repository_url := Py.get item "repository_url" (JStr "") in
    let* parts := Py.split repository_url "/" in
    Ok (Py.last_elem parts)
  else Ok "".

(** What the body of the loop of [analyze_prs] reads from the item alone:
    nothing ([None]) for an item it skips, and otherwise the URL it asks the
    reviews of and the record it files. *)
Definition pr_fields (item : json) : res (option (json * PrData)) :=
  let* pr_info := Py.get item "pull_request" JNull in
  if negb (Py.truthy pr_info) then Ok None
  else
    let* pr_url := Py.subscript pr_info "url" in
    let* number := Py.subscript item "number" in
    let* title := Py.subscript item "title" in
    let* html_url := Py.get item "html_url" (JStr "") in
    let* repo := repo_name item in
    let* merged_at := (let* pr := Py.get item "pull_request" (JObj []) in
                       Py.get pr "merged_at" (JStr "")) in
    Ok (Some (pr_url,
              {| number := number; title := title; url := html_url; repo := repo;
                 merged_at := merged_at |})).

(** the records of the items of a list that are not skipped, in order *)
Fixpoint pr_records (items : list json) : res (list PrData) :=
  match items with
  | [] => Ok []
  | item :: rest =>
      let* f := pr_fields item in
      let* ds := pr_records rest in
      Ok (match f with Some (_, d) => d :: ds | None => ds end)
  end.

(** the request [get_reviews_for_pr] sends for a pull request URL *)
Definition reviews_request (session : Session) (pr_api_url : string) : Request :=
  {| req_headers := headers session;
     req_url := Py.rstrip_string "/" pr_api_url +:+ "/reviews";
     req_params := [] |}.

(** the [query] of [search_merged_prs], lines 57-63 *)
Definition merged_prs_query (org author from_date to_date : string) : string :=
  "org:" +:+ org +:+ " " +:+ "is:pr " +:+ "is:merged " +:+
  "author:" +:+ author +:+ " " +:+
  "merged:" +:+ from_date +:+ ".." +:+ to_date.

Section Fetch.

Context `{Server}.

(** the [while True] loop of [search_merged_prs], lines 80-114 *)
Fixpoint search_loop (fuel : nat) (session : Session) (query : string)
    (page : Z) (all_items : list json) : M (list json) :=
  match fuel with
  | O => out_of_fuel
  | S fuel' =>
      do resp <- session_get session (GITHUB_API_URL +:+ "/search/issues")
                   (search_params query page);
      if status_code resp =? 403 then raise (SystemExit 1 RateLimited)
      else if negb (status_code resp =? 200) then
        raise (SystemExit 1 (SearchFailed (status_code resp)))
      else
        do data <- lift (resp_json resp);
        do items <- lift (Py.get data "items" (JArr []));
        if negb (Py.truthy items) then ret all_items
        else
          do items <- lift (Py.iter items);
          let all_items := all_items ++ items in
          if Py.len items <? per_page then ret all_items
          else search_loop fuel' session query (page + 1) all_items
  end.

(** [search_merged_prs], lines 52-117 *)
Definition search_merged_prs (fuel : nat) (session : Session)
    (org author from_date to_date : string) : M (list json) :=
  let query := merged_prs_query org author from_date to_date in
  search_loop fuel session query 1 [].

(** [get_reviews_for_pr], lines 120-133 *)
Definition get_reviews_for_pr (session : Session) (pr_api_url : json) : M json :=
  do stripped <- lift (Py.rstrip pr_api_url "/");
  let reviews_url := stripped +:+ "/reviews" in
  do resp <- session_get session reviews_url [];
  if negb (status_code resp =? 200) then ret (JArr [])
  else lift (resp_json resp).

(** the body of [for item in items], lines 150-176, on the two lists it
    appends to *)
Definition analyze_item (session : Session) (item : json)
    (senza bocciate : list PrData) : M (list PrData * list PrData) :=
  do pr_info <- lift (Py.get item "pull_request" JNull);
  if negb (Py.truthy pr_info) then ret (senza, bocciate)
  else
    do pr_url <- lift (Py.subscript pr_info "url");
    do number <- lift (Py.subscript item "number");
    do title <- lift (Py.subscript item "title");
    do html_url <- lift (Py.get item "html_url" (JStr ""));
    do repo <- lift (repo_name item);
    do reviews <- get_reviews_for_pr session pr_url;
    do states <- lift (review_states reviews);
    let has_changes_requested :=
      bool_decide (Some (inr "CHANGES_REQUESTED") ∈ states) in
    do merged_at <- lift (let* pr := Py.get item "pull_request" (JObj []) in
                          Py.get pr "merged_at" (JStr ""));
    let pr_data :=
      {| number := number; title := title; url := html_url; repo := repo;
         merged_at := merged_at |} in
    if has_changes_requested then ret (senza, bocciate ++ [pr_data])
    else ret (senza ++ [pr_data], bocciate).

Fixpoint analyze_loop (session : Session) (items : list json)
    (senza bocciate : list PrData) : M (list PrData * list PrData) :=
  match items with
  | [] => ret (senza, bocciate)
  | item :: rest =>
      do acc <- analyze_item session item senza bocciate;
      analyze_loop session rest acc.1 acc.2
  end.

(** [analyze_prs], lines 136-185 *)
Definition analyze_prs (session : Session) (items : list json) : M Results :=
  do acc <- analyze_loop session items [] [];
  ret {| senza_bocciature := acc.1;
         bocciate_poi_approvate := acc.2;
         totale := Py.len acc.1 + Py.len acc.2 |}.

End Fetch.

End PrAnalytics.

(** ** Date validation (both files, lines 43-49) *)

(** [datetime.strptime(s, "%Y-%m-%d")] of the Python standard library, which
    [validate_date] calls: the format is turned into the regular expression
    [(?P<Y>\d\d\d\d)-(?P<m>1[0-2]|0[1-9]|[1-9])-(?P<d>3[0-1]|[1-2]\d|0[1-9]|[1-9]| [1-9])],
    the string is matched from its start, alternatives in the order written,
    text left after the match is an error, and the three numbers must make a
    date of [datetime.date] (years 1 to 9999). Digits are the ASCII digits. *)
Module Strptime.

Definition cls : Type := ascii -> bool.

Definition range (lo hi : ascii) : cls :=
  fun c => (Nat.leb (nat_of_ascii lo) (nat_of_ascii c)
            && Nat.leb (nat_of_ascii c) (nat_of_ascii hi))%bool.
Definition digit : cls := range "0" "9".
Definition lit (a : ascii) : cls := Ascii.eqb a.

(** one alternative: a sequence of character classes *)
Fixpoint match_alt (a : list cls) (s : string) : option (string * string) :=
  match a, s with
  | [], _ => Some (EmptyString, s)
  | p :: a', String c s' =>
      if p c then
        match match_alt a' s' with
        | Some (txt, rest) => Some (String c txt, rest)
        | None => None
        end
      else None
  | _ :: _, EmptyString => None
  end.

(** a sequence of groups, each an ordered choice of alternatives; a later
    alternative is tried when an earlier one, or what follows it, fails *)
Fixpoint match_seq (gs : list (list (list cls))) (s : string)
  : option (list string * string) :=
  match gs with
  | [] => Some ([], s)
  | g :: gs' =>
      (fix try (alts : list (list cls)) : option (list string * string) :=
         match alts with
         | [] => None
         | a :: alts' =>
             match match_alt a s with
             | Some (txt, rest) =>
                 match match_seq gs' rest with
                 | Some (txts, r) => Some (txt :: txts, r)
                 | None => try alts'
                 end
             | None => try alts'
             end
         end) g
  end.

Definition re_Y : list (list cls) := [[digit; digit; digit; digit]].
Definition re_m : list (list cls) :=
  [[lit "1"; range "0" "2"]; [lit "0"; range "1" "9"]; [range "1" "9"]].
Definition re_d : list (list cls) :=
  [[lit "3"; range "0" "1"]; [range "1" "2"; digit]; [lit "0"; range "1" "9"];
   [range "1" "9"]; [lit " "; range "1" "9"]].
Definition re_dash : list (list cls) := [[lit "-"]].

Definition format_regex : list (list (list cls)) := [re_Y; re_dash; re_m; re_dash; re_d].

(** [int(s)] on text the regular expression matched: digits, after an
    optional space *)
Fixpoint int_acc (acc : Z) (s : string) : Z :=
  match s with
  | EmptyString => acc
  | String c s' =>
      if digit c then int_acc (10 * acc + (Z.of_nat (nat_of_ascii c) - 48)) s'
      else int_acc acc s'
  end.
Definition int (s : string) : Z := int_acc 0 s.

Definition is_leap (year : Z) : bool :=
  ((year mod 4 =? 0) && (negb (year mod 100 =? 0) || (year mod 400 =? 0)))%bool.

Definition days_in_month (year month : Z) : Z :=
  if month =? 2 then (if is_leap year then 29 else 28)
  else if (month =? 4) || (month =? 6) || (month =? 9) || (month =? 11) then 30
  else 31.

(** the check [datetime.date(year, month, day)] makes *)
Definition date_ok (year month day : Z) : bool :=
  ((1 <=? year) && (year <=? 9999) && (1 <=? month) && (month <=? 12)
   && (1 <=? day) && (day <=? days_in_month year month))%bool.

Definition strptime (data_string : string) : res (Z * Z * Z) :=
  match match_seq format_regex data_string with
  | None => Raise ValueError
  | Some (found, rest) =>
      if negb (String.eqb rest "") then Raise ValueError
      else
        match found with
        | [Y; _; m; _; d] =>
            let year := int Y in
            let month := int m in
            let day := int d in
            if date_ok year month day then Ok (year, month, day) else Raise ValueError
        | _ => Raise ValueError
        end
  end.

End Strptime.

Definition validate_date (date_string : string) : res string :=
  match Strptime.strptime date_string with
  | Ok _ => Ok date_string
  | Raise ValueError =>
      Raise (BadParameter
               ("Data non valida: " +:+ date_string +:+ ". Usa il formato YYYY-MM-DD"))
  | Raise e => Raise e
  | OutOfFuel => OutOfFuel
  end.

(** ** Servers to run the pipelines against *)

(** a server that answers by a fixed function of the request *)
Definition fake_server (handler : Request -> Response) : Server :=
  {| World := unit; serve := fun req w => (handler req, w) |}.

(** a server that plays a script, one response a request, whatever is asked *)
Definition scripted_server (fallback : Response) : Server :=
  {| World := list Response;
     serve := fun _ w => match w with
                         | [] => (fallback, [])
                         | r :: rest => (r, rest)
                         end |}.

Definition json_response (status : Z) (v : json) : Response :=
  {| status_code := status; text := ""; body := Some v |}.

Definition items_page (items : list json) : Response :=
  json_response 200 (JObj [("total_count", JNum 0); ("items", JArr items)]).

Definition not_found : Response :=
  {| status_code := 404; text := "Not Found"; body := None |}.

Definition no_session : Session := {| headers := ∅ |}.

Definition label (name : string) : json :=
  JObj [("id", JNum 1); ("name", JStr name)].

Definition issue (n : Z) (st : string) (labels : list json) : json :=
  JObj [("number", JNum n); ("title", JStr "t"); ("state", JStr st);
        ("repository_url", JStr "https://api.github.com/repos/acme/widgets");
        ("labels", JArr labels)].

Definition pull (n : Z) (pr : json) : json :=
  JObj [("number", JNum n); ("title", JStr "t"); ("state", JStr "closed");
        ("repository_url", JStr "https://api.github.com/repos/acme/widgets");
        ("pull_request", pr)].

Definition review (st : string) : json := JObj [("id", JNum 7); ("state", JStr st)].

Definition start `{Server} (w : World) : Net := {| world := w; sent := [] |}.

Definition pulls_url (n : string) : string :=
  "https://api.github.com/repos/acme/widgets/pulls/" +:+ n.

Definition pr_info (n : string) : json :=
  JObj [("url", JStr (pulls_url n)); ("merged_at", JStr "2024-01-15T10:00:00Z")].

(** the reviews of four pull requests; any other request is not found *)
Definition reviews_handler (req : Request) : Response :=
  if String.eqb (req_url req) (pulls_url "1/reviews") then
    json_response 200 (JArr [review "APPROVED"])
  else if String.eqb (req_url req) (pulls_url "2/reviews") then
    json_response 200 (JArr [])
  else if String.eqb (req_url req) (pulls_url "3/reviews") then
    json_response 200 (JArr [review "CHANGES_REQUESTED"; review "APPROVED"])
  else if String.eqb (req_url req) (pulls_url "4/reviews") then
    json_response 200 (JArr [review "APPROVED"; review "CHANGES_REQUESTED"])
  else not_found.

Definition reviews_server : Server := fake_server reviews_handler.

Definition reviews_start : @Net reviews_server := @start reviews_server tt.

Definition pr_record (n : Z) : PrAnalytics.PrData :=
  {| PrAnalytics.number := JNum n; PrAnalytics.title := JStr "t";
     PrAnalytics.url := JStr ""; PrAnalytics.repo := "widgets";
     PrAnalytics.merged_at := JStr "2024-01-15T10:00:00Z" |}.

(** [k] open issues without labels, numbered from [first] *)
Fixpoint issues_from (first : Z) (k : nat) : list json :=
  match k with
  | O => []
  | S k' => issue first "open" [] :: issues_from (first + 1) k'
  end.

(** a search endpoint that serves the given pages by the "page" parameter,
    and an empty page after the last *)
Definition paged_handler (pages : list (list json)) (req : Request) : Response :=
  match Py.assoc "page" (req_params req) with
  | Some (JNum k) => items_page (nth (Z.to_nat (k - 1)) pages [])
  | _ => not_found
  end.

Definition paged_server (pages : list (list json)) : Server :=
  fake_server (paged_handler pages).

(** the spellings of "bug" in upper and lower case letters *)
Definition bug_casings : list string :=
  ["bug"; "buG"; "bUg"; "bUG"; "Bug"; "BuG"; "BUg"; "BUG"].

(** [t] is the last path segment of [u]: what follows the last "/" of [u],
    or all of [u] when it has none *)
Definition is_last_segment (u t : string) : Prop :=
  (u = t ∨ ∃ p, u = p +:+ "/" +:+ t) ∧ "/"%char ∉ list_ascii_of_string t.

(** a pull request closed on 10 January without having been merged *)
Definition unmerged_pull : json :=
  JObj [("number", JNum 7); ("title", JStr "t"); ("state", JStr "closed");
        ("repository_url", JStr "https://api.github.com/repos/acme/widgets");
        ("closed_at", JStr "2024-01-10T09:00:00Z");
        ("pull_request",
         JObj [("url", JStr (pulls_url "7")); ("merged_at", JNull)])].

(** a pull request merged on 15 January *)
Definition merged_pull : json :=
  JObj [("number", JNum 8); ("title", JStr "t"); ("state", JStr "closed");
        ("repository_url", JStr "https://api.github.com/repos/acme/widgets");
        ("closed_at", JStr "2024-01-15T10:00:01Z");
        ("pull_request", pr_info "8")].

(** ** Date formats, as the specification words them *)

Module DateFormat.

Definition digit_chars : list ascii :=
  ["0"; "1"; "2"; "3"; "4"; "5"; "6"; "7"; "8"; "9"]%char.

Definition is_digit (c : ascii) : bool := bool_decide (c ∈ digit_chars).

(** the number a sequence of digits denotes *)
Definition number (digits : list ascii) : Z :=
  fold_left (λ acc c, 10 * acc + (Z.of_nat (nat_of_ascii c) - 48)) digits 0.

(** the lengths of the twelve months *)
Definition month_lengths (year : Z) : list Z :=
  let leap :=
    bool_decide (year mod 4 = 0 ∧ (year mod 100 ≠ 0 ∨ year mod 400 = 0)) in
  [31; if leap then 29 else 28; 31; 30; 31; 30; 31; 31; 30; 31; 30; 31].

(** a date of the calendar, in the years 1 to 9999 of [datetime.date] *)
Definition calendar_date (year month day : Z) : Prop :=
  1 ≤ year ≤ 9999 ∧ 1 ≤ month ≤ 12
  ∧ ∃ len, month_lengths year !! Z.to_nat (month - 1) = Some len ∧ 1 ≤ day ≤ len.

(** [YYYY-MM-DD]: four digits, two digits, two digits, hyphens between
    them, denoting a date of the calendar *)
Definition iso_date (s : string) : Prop :=
  ∃ y1 y2 y3 y4 m1 m2 d1 d2 : ascii,
    s = string_of_list_ascii [y1; y2; y3; y4; "-"; m1; m2; "-"; d1; d2]%char
    ∧ Forall (λ c, c ∈ digit_chars) [y1; y2; y3; y4; m1; m2; d1; d2]
    ∧ calendar_date (number [y1; y2; y3; y4]) (number [m1; m2]) (number [d1; d2]).

(** the ways [strptime] lets a month and a day be written *)
Definition month_spellings : list string :=
  ["1"; "2"; "3"; "4"; "5"; "6"; "7"; "8"; "9";
   "01"; "02"; "03"; "04"; "05"; "06"; "07"; "08"; "09"; "10"; "11"; "12"].

Definition day_spellings : list string :=
  ["1"; "2"; "3"; "4"; "5"; "6"; "7"; "8"; "9";
   " 1"; " 2"; " 3"; " 4"; " 5"; " 6"; " 7"; " 8"; " 9";
   "01"; "02"; "03"; "04"; "05"; "06"; "07"; "08"; "09"; "10";
   "11"; "12"; "13"; "14"; "15"; "16"; "17"; "18"; "19"; "20";
   "21"; "22"; "23"; "24"; "25"; "26"; "27"; "28"; "29"; "30"; "31"].

(** the number a spelling denotes: its digits, the padding space skipped *)
Definition spelled (t : string) : Z :=
  number (filter (λ c, c ∈ digit_chars) (list_ascii_of_string t)).

(** a four-digit year, a month and a day in one of their spellings,
    hyphens between them, denoting a date of the calendar *)
Definition lenient_date (s : string) : Prop :=
  ∃ (y1 y2 y3 y4 : ascii) (M D : string),
    s = string_of_list_ascii [y1; y2; y3; y4] +:+ "-" +:+ M +:+ "-" +:+ D
    ∧ Forall (λ c, c ∈ digit_chars) [y1; y2; y3; y4]
    ∧ M ∈ month_spellings ∧ D ∈ day_spellings
    ∧ calendar_date (number [y1; y2; y3; y4]) (spelled M) (spelled D).

(** every character, and the strings a sequence of character classes of
    [Strptime] matches, listed *)
Definition all_ascii : list ascii := map ascii_of_nat (seq 0 256).

Fixpoint expand_alt (a : list Strptime.cls) : list string :=
  match a with
  | [] => [EmptyString]
  | p :: a' =>
      flat_map (λ c, map (String c) (expand_alt a')) (List.filter p all_ascii)
  end.

(** the characters of [txt] are in the classes of [a], one for one *)
Definition matches (a : list Strptime.cls) (txt : string) : Prop :=
  Forall2 (λ (p : Strptime.cls) c, p c = true) a (list_ascii_of_string txt).

(** the part of the regular expression after the year *)
Definition tail_regex : list (list (list Strptime.cls)) :=
  [Strptime.re_dash; Strptime.re_m; Strptime.re_dash; Strptime.re_d].

End DateFormat.

(** ** Further vocabulary *)

(** the exception a search response with a status other than 200 ends in *)
Definition search_failure (status : Z) : exn :=
  SystemExit 1 (if status =? 403 then RateLimited else SearchFailed status).

(** the items of a page the loop of pipeline 1 keeps: all of them, or for
    the non-bug fetch those [has_bug_label] answers false for *)
Definition kept_items (is_bug : option bool) (items : list json) : res (list json) :=
  match is_bug with
  | Some false =>
      filter_res (λ item, let* b := BugAnalytics.has_bug_label item in Ok (negb b)) items
  | _ => Ok items
  end.

Definition rate_limited : Response :=
  {| status_code := 403; text := "API rate limit exceeded"; body := None |}.

Definition server_error : Response :=
  {| status_code := 502; text := "Bad Gateway"; body := None |}.

(** a server that has a full page of a hundred items for every request *)
Definition endless_server : Server :=
  fake_server (λ _, items_page (issues_from 1 100)).

(** ** Presenters: the rows of the CSV exports *)

(** [sep.join(l)] for a list of values: a [TypeError] unless all are strings *)
Fixpoint strings_of (l : list json) : res (list string) :=
  match l with
  | [] => Ok []
  | JStr s :: rest => let* ss := strings_of rest in Ok (s :: ss)
  | _ :: _ => Raise TypeError
  end.

Definition join_values (sep : string) (l : list json) : res string :=
  let* ss := strings_of l in
  Ok (Py.join sep ss).

(** [s.endswith(suffix)] *)
Definition endswith (s suffix : string) : bool :=
  let n := String.length s in
  let k := String.length suffix in
  (Nat.leb k n && String.eqb (String.substring (n - k) k s) suffix)%bool.

(** The file an export writes is the list of the rows handed to
    [writer.writerow], in order; how [csv.writer] quotes a row is not
    modelled, nor is a failure to open the file. *)
Module BugReport.

Import BugAnalytics.

Definition csv_header : list json :=
  [JStr "Tipo"; JStr "Stato"; JStr "Numero"; JStr "Titolo"; JStr "Repository"; JStr "URL";
   JStr "Data Creazione"; JStr "Data Chiusura"; JStr "Labels"].

(** the list one [writer.writerow] of [export_csv] is given, lines 469-479 *)
Definition csv_row (tipo stato : string) (issue : IssueRecord) : res (list json) :=
  let* joined := join_values ", " (labels issue) in
  Ok [JStr tipo; JStr stato; number issue; title issue; JStr (repo issue); url issue;
      created_at issue; closed_at issue; JStr joined].

(** one [for issue in ...] loop of [export_csv] on the rows written so far *)
Fixpoint write_rows (tipo stato : string) (issues : list IssueRecord)
    (written : list (list json)) : res unit * list (list json) :=
  match issues with
  | [] => (Ok tt, written)
  | issue :: rest =>
      match csv_row tipo stato issue with
      | Ok row => write_rows tipo stato rest (written ++ [row])
      | Raise e => (Raise e, written)
      | OutOfFuel => (OutOfFuel, written)
      end
  end.

Definition and_then (step : list (list json) → res unit * list (list json))
    (before : res unit * list (list json)) : res unit * list (list json) :=
  match before with
  | (Ok _, written) => step written
  | failed => failed
  end.

(** [export_csv], lines 461-521: the outcome and the rows in the file *)
Definition export_csv (results : Results) : res unit * list (list json) :=
  and_then (write_rows "Non-Bug" "Risolto" (risolti (non_bug results)))
    (and_then (write_rows "Non-Bug" "Aperto" (aperti (non_bug results)))
       (and_then (write_rows "Bug" "Risolto" (risolti (bug results)))
          (write_rows "Bug" "Aperto" (aperti (bug results)) [csv_header]))).

(** the records of a result in the order [export_csv] goes through them,
    each with the two cells that tell its bucket *)
Definition records (results : Results) : list (string * string * IssueRecord) :=
  map (pair ("Bug", "Aperto")) (aperti (bug results))
  ++ map (pair ("Bug", "Risolto")) (risolti (bug results))
  ++ map (pair ("Non-Bug", "Aperto")) (aperti (non_bug results))
  ++ map (pair ("Non-Bug", "Risolto")) (risolti (non_bug results)).

(** every label of the record is a string *)
Definition string_labels (issue : IssueRecord) : Prop :=
  Forall (λ l, ∃ name, l = JStr name) (labels issue).

(** [row] is the row of a record of a bucket *)
Definition row_of (tagged : string * string * IssueRecord) (row : list json) : Prop :=
  csv_row tagged.1.1 tagged.1.2 tagged.2 = Ok row.

(** the state of an export over the records [done]: the header and then
    the rows of the records, all of them, or those before the first record
    with a label that is not a string *)
Definition exported (done : list (string * string * IssueRecord))
    (st : res unit * list (list json)) : Prop :=
  ∃ rows, st.2 = csv_header :: rows
          ∧ ((st.1 = Ok tt ∧ Forall2 row_of done rows)
             ∨ (st.1 = Raise TypeError
                ∧ ∃ pre stopped post,
                    done = pre ++ stopped :: post
                    ∧ Forall2 row_of pre rows
                    ∧ ¬ string_labels stopped.2)).

End BugReport.

Module PrReport.

Import PrAnalytics.

Definition csv_header : list json :=
  [JStr "Categoria"; JStr "Numero PR"; JStr "Titolo"; JStr "Repository"; JStr "URL";
   JStr "Data Merge"].

(** the list one [writer.writerow] of [export_csv] is given, lines 243-250 *)
Definition csv_row (categoria : string) (pr : PrData) : list json :=
  [JStr categoria; number pr; title pr; JStr (repo pr); url pr; merged_at pr].

(** [export_csv], lines 236-262: the rows in the file *)
Definition export_csv (results : Results) : list (list json) :=
  csv_header
  :: map (csv_row "Approvata senza bocciature") (senza_bocciature results)
  ++ map (csv_row "Bocciata e poi approvata") (bocciate_poi_approvate results).

(** ** The command of pipeline 2 *)

Inductive OutputFormat : Type := Table | Json | Csv.

(** [results["statistiche"]], lines 299-303 *)
Record Statistiche : Type :=
  { stat_senza_bocciature : Z;
    stat_bocciate_poi_approvate : Z;
    stat_totale : Z }.

(** What a run of [main] puts out: which presenter it calls and on what.
    The text a presenter renders and the confirmation lines are not
    modelled. *)
Inductive Output : Type :=
| NoPrFound
| PrintJson (results : Results) (stats : Statistiche)
| PrintTable (results : Results) (stats : Statistiche) (show_details : bool)
| WriteJson (filename : string) (results : Results) (stats : Statistiche)
| WriteCsv (filename : string) (rows : list (list json))
| UnknownFormat.

(** how an f-string shows a date option: its text, or [None] *)
Definition shown (date : option string) : string := default "None" date.

(** the callback of [--from-date] and [--to-date], lines 268-269 *)
Definition date_callback (value : string) : res (option string) :=
  if negb (String.eqb value "") then
    let* date := validate_date value in Ok (Some date)
  else Ok None.

Section Main.

Context `{Server}.

(** [main], lines 275-322 *)
Definition main (fuel : nat) (default_headers environ : gmap string string)
    (org author : string) (from_date to_date token : option string)
    (output : OutputFormat) (export : option string) (no_details : bool)
  : M (list Output) :=
  do session <- lift (get_github_session default_headers "pr-review-stats-script"
                        environ token);
  do items <- search_merged_prs fuel session org author (shown from_date) (shown to_date);
  match items with
  | [] => ret [NoPrFound]
  | _ :: _ =>
      do results <- analyze_prs session items;
      let stats :=
        {| stat_senza_bocciature := Py.len (senza_bocciature results);
           stat_bocciate_poi_approvate := Py.len (bocciate_poi_approvate results);
           stat_totale := totale results |} in
      match output with
      | Json =>
          if str_truthy export then ret [WriteJson (default "" export) results stats]
          else ret [PrintJson results stats]
      | Csv =>
          let export := if negb (str_truthy export) then Some "pr_results.csv" else export in
          ret [WriteCsv (default "" export) (export_csv results)]
      | Table =>
          let printed := PrintTable results stats (negb no_details) in
          if str_truthy export then
            let export := default "" export in
            if endswith export ".json" then ret [printed; WriteJson export results stats]
            else if endswith export ".csv" then
              ret [printed; WriteCsv export (export_csv results)]
            else ret [printed; UnknownFormat]
          else ret [printed]
      end
  end.

End Main.

(** the names of the files an output writes *)
Definition files (outputs : list Output) : list string :=
  omap (λ o, match o with
             | WriteJson f _ _ | WriteCsv f _ => Some f
             | _ => None
             end) outputs.

End PrReport.

(** a server with a search endpoint of one page of three items, two of them
    pull requests, and the reviews of [reviews_handler] *)
Definition github_handler (req : Request) : Response :=
  if String.eqb (req_url req) (GITHUB_API_URL +:+ "/search/issues") then
    paged_handler [[pull 3 (pr_info "3"); issue 2 "closed" []; pull 1 (pr_info "1")]] req
  else reviews_handler req.

Definition github_server : Server := fake_server github_handler.

(** * Properties *)

(** ** Session builder *)

(** C10. A token passed as the empty string is treated like no token: the
    builder reads GITHUB_TOKEN, exits with the missing-credentials error
    exactly when that variable is unset or empty, and otherwise builds the
    session from the variable's value. *)
Theorem get_github_session_empty_token
    (default_headers : gmap string string) (user_agent : string)
    (environ : gmap string string) :
  get_github_session default_headers user_agent environ (Some "")
  = get_github_session default_headers user_agent environ None
  ∧ (get_github_session default_headers user_agent environ (Some "")
     = Raise (SystemExit 1 MissingToken)
     ↔ environ !! "GITHUB_TOKEN" = None ∨ environ !! "GITHUB_TOKEN" = Some "")
  ∧ (∀ t, environ !! "GITHUB_TOKEN" = Some t → t ≠ "" →
       ∃ session,
         get_github_session default_headers user_agent environ (Some "") = Ok session
         ∧ headers session !! "Authorization" = Some ("Bearer " +:+ t)).
Proof.
  unfold get_github_session; cbn [str_truthy String.eqb negb].
  split; [reflexivity|].
  destruct (environ !! "GITHUB_TOKEN") as [t|] eqn:E; cbn [str_truthy default].
  - destruct (String.eqb_spec t "") as [->|Hne]; cbn [negb].
    + split; [split; auto|]. intros t [= <-] Hne. congruence.
    + split.
      * split; [discriminate|]. intros [?|[= ?]]; congruence.
      * intros t' [= <-] _. eexists; split; [reflexivity|].
        cbn [headers]. rewrite !lookup_insert_ne by done. apply lookup_insert_eq.
  - split; [split; auto|]. intros t [=].
Qed.

(** ** Review fetcher and classifier of pipeline 2 *)

Section PrProperties.

Context `{Server}.
Import PrAnalytics.

Lemma session_get_eq session url params n :
  let req := {| req_headers := headers session; req_url := url; req_params := params |} in
  session_get session url params n = (Ok (serve req (world n)).1, after req n).
Proof. unfold session_get, after. cbn. by destruct (serve _ _). Qed.

Lemma get_reviews_for_pr_eq session pr_api_url n :
  let req := reviews_request session pr_api_url in
  let resp := (serve req (world n)).1 in
  get_reviews_for_pr session (JStr pr_api_url) n
  = (if status_code resp =? 200 then resp_json resp else Ok (JArr []), after req n).
Proof.
  cbn zeta. unfold get_reviews_for_pr, bind, lift. cbn [Py.rstrip].
  rewrite session_get_eq. fold (reviews_request session pr_api_url).
  by destruct (status_code _ =? 200).
Qed.

End PrProperties.

(** one step through a chain of [let*]: case on the computation at its head *)
Ltac res_head H :=
  match type of H with
  | res_bind ?m _ = _ =>
      let E := fresh "E" in
      destruct m eqn:E; cbn [res_bind] in H; try discriminate H
  | (if ?b then _ else _) = _ =>
      let E := fresh "E" in
      destruct b eqn:E; try discriminate H
  end.

Section PrClassifier.

Context `{Server}.
Import PrAnalytics.

Lemma hashed_str v s : Py.hashed v = Ok (Some (inr s)) ↔ v = JStr s.
Proof. destruct v as [|[]| | | |]; cbn; split; intros [=]; by subst. Qed.

(** the set [review_states] builds holds a string exactly when one of the
    reviews has it as its state *)
Lemma review_states_arr rs vs :
  Forall2 (λ r v, Py.get r "state" JNull = Ok v) rs vs →
  Forall (λ v, is_Some (match Py.hashed v with Ok h => Some h | _ => None end)) vs →
  ∃ states, review_states (JArr rs) = Ok states
            ∧ ∀ s, Some (inr s) ∈ states ↔ JStr s ∈ vs.
Proof.
  unfold review_states. cbn [Py.iter res_bind].
  induction 1 as [|r v rs vs Hr _ IH]; intros Hh.
  - eexists; split; [reflexivity|]. intros s. cbn. set_solver.
  - apply Forall_cons in Hh as [[h Hv] Hh]. destruct (IH Hh) as (states & E & Hin).
    destruct (Py.hashed v) as [h'| |] eqn:Ehv; try discriminate. injection Hv as ->.
    cbn [map_res res_bind]. rewrite Hr. cbn [res_bind]. rewrite Ehv. cbn [res_bind].
    destruct (map_res _ rs) as [hs| |]; try discriminate. injection E as <-.
    eexists; split; [reflexivity|]. intros s. cbn [list_to_set].
    rewrite elem_of_union, elem_of_singleton, Hin, elem_of_cons.
    assert (Some (inr s) = h ↔ JStr s = v) as ->; [|done].
    split.
    + intros <-. symmetry. by apply hashed_str.
    + intros <-. cbn in Ehv. congruence.
Qed.

Lemma analyze_item_pr session item pr_url d (n n' : Net) reviews states senza bocciate :
  pr_fields item = Ok (Some (pr_url, d)) →
  get_reviews_for_pr session pr_url n = (Ok reviews, n') →
  review_states reviews = Ok states →
  analyze_item session item senza bocciate n
  = (Ok (if bool_decide (Some (inr "CHANGES_REQUESTED") ∈ states)
         then (senza, bocciate ++ [d]) else (senza ++ [d], bocciate)), n').
Proof.
  unfold pr_fields, analyze_item, bind, lift. intros Hf Hr Hs.
  repeat res_head Hf. injection Hf as -> <-.
  rewrite Hr, Hs. by case_bool_decide.
Qed.

Lemma analyze_item_skip session item (n : Net) senza bocciate :
  pr_fields item = Ok None →
  analyze_item session item senza bocciate n = (Ok (senza, bocciate), n).
Proof.
  unfold pr_fields, analyze_item, bind, lift. intros Hf.
  res_head Hf. res_head Hf; [done|]. by repeat res_head Hf.
Qed.

(** the body of the loop appends the record to its second list if one of
    the reviews fetched has the state "CHANGES_REQUESTED", and to its first
    list otherwise *)
Lemma analyze_item_bucket
    session item pr_url d (n n' : Net) (rs vs : list json) senza bocciate :
  pr_fields item = Ok (Some (pr_url, d)) →
  get_reviews_for_pr session pr_url n = (Ok (JArr rs), n') →
  Forall2 (λ r v, Py.get r "state" JNull = Ok v) rs vs →
  Forall (λ v, is_Some (match Py.hashed v with Ok h => Some h | _ => None end)) vs →
  (JStr "CHANGES_REQUESTED" ∈ vs →
   analyze_item session item senza bocciate n = (Ok (senza, bocciate ++ [d]), n'))
  ∧ (JStr "CHANGES_REQUESTED" ∉ vs →
     analyze_item session item senza bocciate n = (Ok (senza ++ [d], bocciate), n')).
Proof.
  intros Hf Hr Hst Hh.
  destruct (review_states_arr rs vs Hst Hh) as (states & Es & Hin).
  rewrite (analyze_item_pr _ _ _ _ _ _ _ _ senza bocciate Hf Hr Es).
  split; intros Hcr; case_bool_decide as Hd; try done.
  - by apply Hin in Hcr.
  - by apply Hin in Hd.
Qed.

(** the lists the loop starts from are only appended to *)
Lemma analyze_item_acc session item senza bocciate (n : Net) :
  analyze_item session item senza bocciate n
  = bind (analyze_item session item [] [])
      (λ acc, ret (senza ++ acc.1, bocciate ++ acc.2)) n.
Proof.
  unfold analyze_item, bind, lift, ret.
  destruct (Py.get item "pull_request" JNull) as [pr| |]; [|done..].
  destruct (negb (Py.truthy pr)); [by rewrite !app_nil_r|].
  destruct (Py.subscript pr "url") as [pr_url| |]; [|done..].
  destruct (Py.subscript item "number") as [number| |]; [|done..].
  destruct (Py.subscript item "title") as [title| |]; [|done..].
  destruct (Py.get item "html_url" (JStr "")) as [html_url| |]; [|done..].
  destruct (repo_name item) as [repo| |]; [|done..].
  destruct (get_reviews_for_pr session pr_url n) as [[reviews| |] n1]; [|done..].
  destruct (review_states reviews) as [states| |]; [|done..].
  destruct (let* pr0 := Py.get item "pull_request" (JObj []) in
            Py.get pr0 "merged_at" (JStr "")) as [merged| |]; [|done..].
  destruct (bool_decide _); cbn [fst snd app]; by rewrite app_nil_r.
Qed.

Lemma analyze_loop_acc session items :
  ∀ senza bocciate (n : Net),
    analyze_loop session items senza bocciate n
    = bind (analyze_loop session items [] [])
        (λ acc, ret (senza ++ acc.1, bocciate ++ acc.2)) n.
Proof.
  induction items as [|item items IH]; intros senza bocciate n.
  - cbn. unfold bind, ret. cbn. by rewrite !app_nil_r.
  - cbn [analyze_loop]. unfold bind.
    rewrite (analyze_item_acc session item senza bocciate n). unfold bind, ret.
    destruct (analyze_item session item [] [] n) as [[acc| |] n1]; [|done..].
    cbn [fst snd].
    pose proof (IH (senza ++ acc.1) (bocciate ++ acc.2) n1) as IH1.
    pose proof (IH acc.1 acc.2 n1) as IH2.
    unfold bind, ret in IH1, IH2. rewrite IH1, IH2.
    destruct (analyze_loop session items [] [] n1) as [[rest| |] n2]; [|done..].
    cbn [fst snd]. by rewrite !app_assoc.
Qed.

Lemma analyze_loop_app session pre post :
  ∀ senza bocciate (n : Net),
    analyze_loop session (pre ++ post) senza bocciate n
    = bind (analyze_loop session pre senza bocciate)
        (λ acc, analyze_loop session post acc.1 acc.2) n.
Proof.
  induction pre as [|item pre IH]; intros senza bocciate n; [done|].
  cbn [app analyze_loop]. unfold bind.
  destruct (analyze_item session item senza bocciate n) as [[acc| |] n1]; [|done..].
  by rewrite IH.
Qed.

(** C3. [analyze_prs] files the record of a pull request under
    "bocciate_poi_approvate" if and only if one of the reviews fetched for
    it has the state "CHANGES_REQUESTED", and under "senza_bocciature"
    otherwise: wherever the pull request stands among the items, the
    buckets returned are those of the items before it, then its record in
    the one bucket this membership names, then those of the items after
    it. Only membership of that state among the review states counts, so
    neither the order of the reviews nor an approval among them changes
    the bucket. *)
Theorem analyze_prs_changes_requested
    session (pre post : list json) item pr_url d (n n1 n2 n3 : Net)
    (before rest : Results) (rs vs : list json) :
  analyze_prs session pre n = (Ok before, n1) →
  pr_fields item = Ok (Some (pr_url, d)) →
  get_reviews_for_pr session pr_url n1 = (Ok (JArr rs), n2) →
  Forall2 (λ r v, Py.get r "state" JNull = Ok v) rs vs →
  Forall (λ v, is_Some (match Py.hashed v with Ok h => Some h | _ => None end)) vs →
  analyze_prs session post n2 = (Ok rest, n3) →
  (JStr "CHANGES_REQUESTED" ∈ vs →
   analyze_prs session (pre ++ item :: post) n
   = (Ok {| senza_bocciature := senza_bocciature before ++ senza_bocciature rest;
            bocciate_poi_approvate :=
              bocciate_poi_approvate before ++ d :: bocciate_poi_approvate rest;
            totale := totale before + 1 + totale rest |}, n3))
  ∧ (JStr "CHANGES_REQUESTED" ∉ vs →
     analyze_prs session (pre ++ item :: post) n
     = (Ok {| senza_bocciature := senza_bocciature before ++ d :: senza_bocciature rest;
              bocciate_poi_approvate :=
                bocciate_poi_approvate before ++ bocciate_poi_approvate rest;
              totale := totale before + 1 + totale rest |}, n3)).
Proof.
  unfold analyze_prs. intros Hpre Hf Hr Hst Hh Hpost.
  unfold bind at 1, ret in Hpre.
  destruct (analyze_loop session pre [] [] n) as [[acc| |] n1'] eqn:Epre;
    try discriminate Hpre.
  injection Hpre as <- ->.
  unfold bind at 1, ret in Hpost.
  destruct (analyze_loop session post [] [] n2) as [[acc'| |] n3'] eqn:Epost;
    try discriminate Hpost.
  injection Hpost as <- ->.
  cbn [senza_bocciature bocciate_poi_approvate totale].
  assert (∀ l l' : list PrData,
            Py.len (l ++ d :: l') = Py.len l + 1 + Py.len l') as Hlen1.
  { intros l l'. unfold Py.len. rewrite length_app. cbn [length]. lia. }
  assert (∀ l l' : list PrData, Py.len (l ++ l') = Py.len l + Py.len l') as Hlen.
  { intros l l'. unfold Py.len. rewrite length_app. lia. }
  split; intros Hcr.
  - unfold bind at 1. rewrite analyze_loop_app. unfold bind at 1. rewrite Epre.
    cbn [analyze_loop]. unfold bind at 1.
    rewrite (proj1 (analyze_item_bucket session item pr_url d n1 n2 rs vs acc.1 acc.2
                      Hf Hr Hst Hh) Hcr).
    cbn [fst snd]. rewrite analyze_loop_acc. unfold bind at 1. rewrite Epost.
    unfold ret. cbn [fst snd]. rewrite <- !app_assoc. cbn [app].
    rewrite Hlen1, Hlen. do 3 f_equal. lia.
  - unfold bind at 1. rewrite analyze_loop_app. unfold bind at 1. rewrite Epre.
    cbn [analyze_loop]. unfold bind at 1.
    rewrite (proj2 (analyze_item_bucket session item pr_url d n1 n2 rs vs acc.1 acc.2
                      Hf Hr Hst Hh) Hcr).
    cbn [fst snd]. rewrite analyze_loop_acc. unfold bind at 1. rewrite Epost.
    unfold ret. cbn [fst snd]. rewrite <- !app_assoc. cbn [app].
    rewrite Hlen1, Hlen. do 3 f_equal. lia.
Qed.

(** C8. When the reviews request of a pull request is answered with a
    status other than 200, the review fetcher returns the empty list: it
    raises nothing, and the loop of [analyze_prs] files the pull request
    under "senza_bocciature" and goes on with the remaining items. *)
Theorem get_reviews_for_pr_non_200 session (pr_api_url : string) (n : Net) :
  status_code (serve (reviews_request session pr_api_url) (world n)).1 ≠ 200 →
  get_reviews_for_pr session (JStr pr_api_url) n
  = (Ok (JArr []), after (reviews_request session pr_api_url) n)
  ∧ ∀ item d rest senza bocciate,
      pr_fields item = Ok (Some (JStr pr_api_url, d)) →
      analyze_loop session (item :: rest) senza bocciate n
      = analyze_loop session rest (senza ++ [d]) bocciate
          (after (reviews_request session pr_api_url) n).
Proof.
  intros Hst.
  assert (get_reviews_for_pr session (JStr pr_api_url) n
          = (Ok (JArr []), after (reviews_request session pr_api_url) n)) as Hget.
  { rewrite get_reviews_for_pr_eq.
    by destruct (Z.eqb_spec
                   (status_code (serve (reviews_request session pr_api_url) (world n)).1)
                   200). }
  split; [done|].
  intros item d rest senza bocciate Hf. cbn [analyze_loop]. unfold bind at 1.
  by rewrite (analyze_item_pr _ _ _ _ _ _ _ ∅ senza bocciate Hf Hget eq_refl).
Qed.

End PrClassifier.

(** one step through a computation of [M]: case on what its head examines *)
Ltac m_head H :=
  cbv beta iota in H;
  match type of H with
  | match ?x with _ => _ end = _ =>
      let E := fresh "E" in
      destruct x eqn:E; try discriminate H
  | (match ?x with _ => _ end) _ = _ =>
      let E := fresh "E" in
      destruct x eqn:E; try discriminate H
  end.

Section PrTotals.

Context `{Server}.
Import PrAnalytics.

Lemma analyze_item_inv session item senza bocciate (n n' : Net) acc :
  analyze_item session item senza bocciate n = (Ok acc, n') →
  (pr_fields item = Ok None ∧ acc = (senza, bocciate))
  ∨ ∃ pr_url d, pr_fields item = Ok (Some (pr_url, d))
                ∧ (acc = (senza ++ [d], bocciate) ∨ acc = (senza, bocciate ++ [d])).
Proof.
  unfold analyze_item, pr_fields, bind, lift, ret. intros Hrun.
  m_head Hrun. cbn [res_bind]. m_head Hrun.
  { left. by injection Hrun as <- _. }
  right. do 9 (m_head Hrun; cbn [res_bind]).
  do 2 eexists; split; [reflexivity|].
  m_head Hrun; injection Hrun as <- _; auto.
Qed.

Lemma analyze_loop_inv session items :
  ∀ senza bocciate (n n' : Net) acc,
    analyze_loop session items senza bocciate n = (Ok acc, n') →
    ∃ ds, pr_records items = Ok ds ∧ acc.1 ++ acc.2 ≡ₚ (senza ++ bocciate) ++ ds.
Proof.
  induction items as [|item rest IH]; intros senza bocciate n n' acc Hrun.
  - injection Hrun as <- _. exists []. by rewrite app_nil_r.
  - cbn [analyze_loop] in Hrun. unfold bind in Hrun.
    destruct (analyze_item session item senza bocciate n) as [[acc1| |] n1] eqn:Hitem;
      try discriminate.
    destruct (IH _ _ _ _ _ Hrun) as (ds & Hds & Hperm).
    cbn [pr_records]. rewrite Hds.
    apply analyze_item_inv in Hitem as [[-> ->]|(pr_url & d & -> & [-> | ->])];
      cbn [res_bind]; eexists; (split; [reflexivity|]); rewrite Hperm; cbn [fst snd];
      solve_Permutation.
Qed.

Lemma pr_records_length items :
  ∀ ds, pr_records items = Ok ds →
        (length ds ≤ length items)%nat
        ∧ (Exists (λ item, pr_fields item = Ok None) items →
           (length ds < length items)%nat).
Proof.
  induction items as [|item rest IH]; intros ds Hds.
  - injection Hds as <-. split; [done|]. by intros ?%Exists_nil.
  - cbn [pr_records] in Hds. do 2 res_head Hds. injection Hds as <-.
    destruct (IH _ eq_refl) as [Hle Hlt].
    destruct a as [[pr_url d]|]; cbn [length].
    + split; [lia|]. intros [Hskip|Hex]%Exists_cons; [congruence|].
      apply Hlt in Hex. lia.
    + split; lia.
Qed.

(** C9, as amended. When [analyze_prs] returns, its two buckets together
    hold exactly one record for each item whose "pull_request" value is
    truthy (a non-empty object) and none for the other items, "totale" is
    the sum of the two bucket lengths, and it is strictly smaller than the
    number of items as soon as one item was skipped. *)
Theorem analyze_prs_totale session (items : list json) (n n' : Net) r :
  analyze_prs session items n = (Ok r, n') →
  ∃ ds, pr_records items = Ok ds
        ∧ senza_bocciature r ++ bocciate_poi_approvate r ≡ₚ ds
        ∧ totale r = Py.len (senza_bocciature r) + Py.len (bocciate_poi_approvate r)
        ∧ totale r ≤ Py.len items
        ∧ (Exists (λ item, pr_fields item = Ok None) items → totale r < Py.len items).
Proof.
  unfold analyze_prs, bind, ret. intros Hrun.
  destruct (analyze_loop session items [] [] n) as [[acc| |] n1] eqn:Hloop; try discriminate.
  injection Hrun as <- _. cbn [senza_bocciature bocciate_poi_approvate totale].
  destruct (analyze_loop_inv _ _ _ _ _ _ _ Hloop) as (ds & Hds & Hperm).
  cbn [app] in Hperm. exists ds. split; [done|]. split; [done|]. split; [done|].
  destruct (pr_records_length _ _ Hds) as [Hle Hlt].
  apply Permutation_length in Hperm. rewrite length_app in Hperm.
  unfold Py.len. split; [lia|]. intros Hex%Hlt. lia.
Qed.

End PrTotals.

(** ** Pipeline 2 on a server with four reviewed pull requests *)

Lemma get_reviews_for_pr_non_200_witness :
  status_code (reviews_handler (PrAnalytics.reviews_request no_session (pulls_url "5/"))) ≠ 200
  ∧ PrAnalytics.get_reviews_for_pr (H := reviews_server) no_session (JStr (pulls_url "5/"))
      reviews_start
    = (Ok (JArr []),
       {| world := tt : @World reviews_server;
          sent := [PrAnalytics.reviews_request no_session (pulls_url "5")] |})
  ∧ PrAnalytics.analyze_prs (H := reviews_server) no_session
      [pull 5 (pr_info "5/"); pull 3 (pr_info "3")] reviews_start
    = (Ok {| PrAnalytics.senza_bocciature := [pr_record 5];
             PrAnalytics.bocciate_poi_approvate := [pr_record 3];
             PrAnalytics.totale := 2 |},
       {| world := tt : @World reviews_server;
          sent := [PrAnalytics.reviews_request no_session (pulls_url "5");
                   PrAnalytics.reviews_request no_session (pulls_url "3")] |}).
Proof.
  assert (status_code
            (reviews_handler (PrAnalytics.reviews_request no_session (pulls_url "5/"))) ≠ 200)
    as Hst by by vm_compute.
  destruct (get_reviews_for_pr_non_200 (H := reviews_server) no_session (pulls_url "5/")
              reviews_start Hst) as [Hget Hloop].
  split; [done|]. split; [exact Hget|].
  unfold PrAnalytics.analyze_prs, bind at 1.
  rewrite (Hloop (pull 5 (pr_info "5/")) (pr_record 5) [pull 3 (pr_info "3")] [] [] eq_refl).
  reflexivity.
Defined.

Lemma analyze_prs_changes_requested_witness :
  PrAnalytics.analyze_prs (H := reviews_server) no_session
    ([] ++ pull 1 (pr_info "1") :: [pull 3 (pr_info "3")]) reviews_start
  = (Ok {| PrAnalytics.senza_bocciature := [pr_record 1];
           PrAnalytics.bocciate_poi_approvate := [pr_record 3];
           PrAnalytics.totale := 2 |},
     {| world := tt : @World reviews_server;
        sent := [PrAnalytics.reviews_request no_session (pulls_url "1");
                 PrAnalytics.reviews_request no_session (pulls_url "3")] |})
  ∧ PrAnalytics.analyze_prs (H := reviews_server) no_session
      ([pull 3 (pr_info "3")] ++ pull 2 (pr_info "2") :: []) reviews_start
    = (Ok {| PrAnalytics.senza_bocciature := [pr_record 2];
             PrAnalytics.bocciate_poi_approvate := [pr_record 3];
             PrAnalytics.totale := 2 |},
       {| world := tt : @World reviews_server;
          sent := [PrAnalytics.reviews_request no_session (pulls_url "3");
                   PrAnalytics.reviews_request no_session (pulls_url "2")] |})
  ∧ PrAnalytics.analyze_prs (H := reviews_server) no_session
      ([pull 1 (pr_info "1")] ++ pull 3 (pr_info "3") :: [pull 2 (pr_info "2")])
      reviews_start
    = (Ok {| PrAnalytics.senza_bocciature := [pr_record 1; pr_record 2];
             PrAnalytics.bocciate_poi_approvate := [pr_record 3];
             PrAnalytics.totale := 3 |},
       {| world := tt : @World reviews_server;
          sent := [PrAnalytics.reviews_request no_session (pulls_url "1");
                   PrAnalytics.reviews_request no_session (pulls_url "3");
                   PrAnalytics.reviews_request no_session (pulls_url "2")] |})
  ∧ PrAnalytics.analyze_prs (H := reviews_server) no_session
      ([pull 3 (pr_info "3")] ++ pull 4 (pr_info "4") :: [pull 1 (pr_info "1")])
      reviews_start
    = (Ok {| PrAnalytics.senza_bocciature := [pr_record 1];
             PrAnalytics.bocciate_poi_approvate := [pr_record 3; pr_record 4];
             PrAnalytics.totale := 3 |},
       {| world := tt : @World reviews_server;
          sent := [PrAnalytics.reviews_request no_session (pulls_url "3");
                   PrAnalytics.reviews_request no_session (pulls_url "4");
                   PrAnalytics.reviews_request no_session (pulls_url "1")] |}).
Proof.
  pose (none := {| PrAnalytics.senza_bocciature := [];
                   PrAnalytics.bocciate_poi_approvate := [];
                   PrAnalytics.totale := 0 |}).
  pose (approved n := {| PrAnalytics.senza_bocciature := [pr_record n];
                         PrAnalytics.bocciate_poi_approvate := [];
                         PrAnalytics.totale := 1 |}).
  pose (rejected n := {| PrAnalytics.senza_bocciature := [];
                         PrAnalytics.bocciate_poi_approvate := [pr_record n];
                         PrAnalytics.totale := 1 |}).
  split; [|split; [|split]].
  - refine (proj2 (analyze_prs_changes_requested (H := reviews_server) no_session
                     [] [pull 3 (pr_info "3")] (pull 1 (pr_info "1")) (JStr (pulls_url "1"))
                     (pr_record 1) reviews_start reviews_start
                     (after (PrAnalytics.reviews_request no_session (pulls_url "1")) reviews_start)
                     _ none (rejected 3)
                     [review "APPROVED"] [JStr "APPROVED"] _ _ _ _ _ _) _);
      [reflexivity | reflexivity | reflexivity | repeat constructor
      | repeat constructor; by eexists | reflexivity |].
    by intros [=]%list_elem_of_singleton.
  - refine (proj2 (analyze_prs_changes_requested (H := reviews_server) no_session
                     [pull 3 (pr_info "3")] [] (pull 2 (pr_info "2")) (JStr (pulls_url "2"))
                     (pr_record 2) reviews_start
                     (after (PrAnalytics.reviews_request no_session (pulls_url "3")) reviews_start)
                     (after (PrAnalytics.reviews_request no_session (pulls_url "2"))
                        (after (PrAnalytics.reviews_request no_session (pulls_url "3"))
                           reviews_start))
                     _ (rejected 3) none
                     [] [] _ _ _ _ _ _) _);
      [reflexivity | reflexivity | reflexivity | constructor | constructor | reflexivity |].
    by intros ?%elem_of_nil.
  - refine (proj1 (analyze_prs_changes_requested (H := reviews_server) no_session
                     [pull 1 (pr_info "1")] [pull 2 (pr_info "2")] (pull 3 (pr_info "3"))
                     (JStr (pulls_url "3")) (pr_record 3) reviews_start
                     (after (PrAnalytics.reviews_request no_session (pulls_url "1")) reviews_start)
                     (after (PrAnalytics.reviews_request no_session (pulls_url "3"))
                        (after (PrAnalytics.reviews_request no_session (pulls_url "1"))
                           reviews_start))
                     _ (approved 1) (approved 2)
                     [review "CHANGES_REQUESTED"; review "APPROVED"]
                     [JStr "CHANGES_REQUESTED"; JStr "APPROVED"] _ _ _ _ _ _) _);
      [reflexivity | reflexivity | reflexivity | repeat constructor
      | repeat constructor; by eexists | reflexivity |].
    apply list_elem_of_here.
  - refine (proj1 (analyze_prs_changes_requested (H := reviews_server) no_session
                     [pull 3 (pr_info "3")] [pull 1 (pr_info "1")] (pull 4 (pr_info "4"))
                     (JStr (pulls_url "4")) (pr_record 4) reviews_start
                     (after (PrAnalytics.reviews_request no_session (pulls_url "3")) reviews_start)
                     (after (PrAnalytics.reviews_request no_session (pulls_url "4"))
                        (after (PrAnalytics.reviews_request no_session (pulls_url "3"))
                           reviews_start))
                     _ (rejected 3) (approved 1)
                     [review "APPROVED"; review "CHANGES_REQUESTED"]
                     [JStr "APPROVED"; JStr "CHANGES_REQUESTED"] _ _ _ _ _ _) _);
      [reflexivity | reflexivity | reflexivity | repeat constructor
      | repeat constructor; by eexists | reflexivity |].
    apply list_elem_of_further, list_elem_of_here.
Defined.

(** C9 as stated fails: an item that carries a "pull_request" field whose
    value is an empty object, or null, is skipped like an item without the
    field; no reviews are asked for and nothing is counted. *)
Lemma analyze_prs_skips_empty_pull_request :
  Py.has_key (pull 1 (JObj [])) "pull_request" = true
  ∧ Py.has_key (pull 2 JNull) "pull_request" = true
  ∧ PrAnalytics.analyze_prs (H := reviews_server) no_session
      [pull 1 (JObj []); pull 2 JNull] reviews_start
    = (Ok {| PrAnalytics.senza_bocciature := [];
             PrAnalytics.bocciate_poi_approvate := [];
             PrAnalytics.totale := 0 |},
       reviews_start).
Proof. repeat split. Qed.

Lemma analyze_prs_totale_witness :
  let items := [pull 1 (pr_info "1"); issue 2 "closed" []; pull 3 (pr_info "3")] in
  let r := {| PrAnalytics.senza_bocciature := [pr_record 1];
              PrAnalytics.bocciate_poi_approvate := [pr_record 3];
              PrAnalytics.totale := 2 |} in
  ∃ ds, PrAnalytics.pr_records items = Ok ds
        ∧ PrAnalytics.senza_bocciature r ++ PrAnalytics.bocciate_poi_approvate r ≡ₚ ds
        ∧ PrAnalytics.totale r
          = Py.len (PrAnalytics.senza_bocciature r)
            + Py.len (PrAnalytics.bocciate_poi_approvate r)
        ∧ PrAnalytics.totale r ≤ Py.len items
        ∧ (Exists (λ item, PrAnalytics.pr_fields item = Ok None) items →
           PrAnalytics.totale r < Py.len items).
Proof.
  intros items r.
  apply (analyze_prs_totale (H := reviews_server) no_session items reviews_start
           (PrAnalytics.analyze_prs (H := reviews_server) no_session items reviews_start).2 r).
  reflexivity.
Defined.

(** ** Paginated fetcher of pipeline 2 *)

Section PrFetch.

Context `{Server}.
Import PrAnalytics.

(** one turn of the loop on a response that is a page *)
Lemma search_loop_page fuel session query page all_items (n : Net) items :
  page_of (serve (search_request session query page) (world n)).1 items →
  search_loop (S fuel) session query page all_items n
  = (if Py.len items <? per_page then ret (all_items ++ items)
     else search_loop fuel session query (page + 1) (all_items ++ items))
      (after (search_request session query page) n).
Proof.
  intros (Hst & data & Hbody & Hitems).
  cbn [search_loop]. unfold bind at 1. rewrite session_get_eq.
  fold (search_request session query page). rewrite Hst. cbn [Z.eqb Pos.eqb negb].
  unfold bind, lift, resp_json. rewrite Hbody, Hitems.
  destruct items as [|item items]; [|done].
  cbn [Py.truthy negb Py.len length]. by rewrite app_nil_r.
Qed.

(** The pages before the last are full and the last one is short: the
    loop asks for each page once and returns them joined. *)
Lemma search_loop_pages session query full short :
  Forall (λ p, Py.len p = per_page) full →
  Py.len short < per_page →
  ∀ fuel page all_items (n : Net) w',
    serves session query page (world n) (full ++ [short]) w' →
    (length full < fuel)%nat →
    search_loop fuel session query page all_items n
    = (Ok (all_items ++ concat full ++ short),
       {| world := w';
          sent := sent n ++ page_requests session query page (S (length full)) |}).
Proof.
  intros Hfull Hshort. induction Hfull as [|p full Hp _ IH];
    intros fuel page all_items n w' Hserves Hfuel;
    (destruct fuel as [|fuel]; [cbn in Hfuel; lia|]);
    inversion Hserves as [|? ? resp w1 ? ? ? Hserve Hpage Hrest]; subst.
  - inversion Hrest; subst.
    rewrite (search_loop_page _ _ _ _ _ _ short) by by rewrite Hserve.
    apply Z.ltb_lt in Hshort as ->. unfold ret, after. by rewrite Hserve.
  - rewrite (search_loop_page _ _ _ _ _ _ p) by by rewrite Hserve.
    rewrite Hp, Z.ltb_irrefl.
    rewrite (IH fuel (page + 1) (all_items ++ p) _ w').
    + unfold after. cbn [concat length page_requests sent world].
      by rewrite <- !app_assoc.
    + unfold after. cbn [world]. by rewrite Hserve.
    + cbn [length] in Hfuel. lia.
Qed.

(** C2. Against an endpoint that answers the successive page requests with
    pages of 100, 100 and 37 items, the fetcher of pipeline 2 sends exactly
    the three requests for pages 1, 2 and 3 and returns the 237 items in
    the order served; against one whose first page is empty, with status
    200, it sends exactly one request and returns the empty list. *)
Theorem search_merged_prs_pages session (org author from_date to_date : string)
    (fuel : nat) (n : Net) :
  let query := merged_prs_query org author from_date to_date in
  (3 ≤ fuel)%nat →
  (∀ p1 p2 p3 w',
     length p1 = 100%nat → length p2 = 100%nat → length p3 = 37%nat →
     serves session query 1 (world n) [p1; p2; p3] w' →
     search_merged_prs fuel session org author from_date to_date n
     = (Ok (p1 ++ p2 ++ p3),
        {| world := w';
           sent := sent n ++ [search_request session query 1;
                              search_request session query 2;
                              search_request session query 3] |})
     ∧ length (p1 ++ p2 ++ p3) = 237%nat)
  ∧ (∀ w',
       serves session query 1 (world n) [[]] w' →
       search_merged_prs fuel session org author from_date to_date n
       = (Ok [], {| world := w'; sent := sent n ++ [search_request session query 1] |})).
Proof.
  intros query Hfuel. unfold search_merged_prs. fold query. split.
  - intros p1 p2 p3 w' H1 H2 H3 Hserves. split.
    + rewrite (search_loop_pages session query [p1; p2] p3) with (w' := w'); try done.
      * cbn [concat app length page_requests Z.add Pos.add Pos.succ].
        by rewrite app_nil_r, <- app_assoc.
      * repeat constructor; unfold Py.len, per_page; lia.
      * unfold Py.len, per_page; lia.
    + rewrite !length_app. lia.
  - intros w' Hserves.
    rewrite (search_loop_pages session query [] []) with (w' := w'); try done.
    cbn [length]. lia.
Qed.

End PrFetch.

Ltac serves_by_computation :=
  repeat first
    [ apply serves_nil
    | eapply serves_cons;
      [ reflexivity
      | split; [reflexivity | eexists; split; reflexivity]
      | cbn [Z.add Pos.add Pos.succ] ] ].

Lemma search_merged_prs_pages_witness :
  let p1 := issues_from 1 100 in
  let p2 := issues_from 101 100 in
  let p3 := issues_from 201 37 in
  let query := PrAnalytics.merged_prs_query "acme" "alice" "2024-01-01" "2024-01-31" in
  (PrAnalytics.search_merged_prs (H := paged_server [p1; p2; p3]) 3 no_session
     "acme" "alice" "2024-01-01" "2024-01-31" (@start (paged_server [p1; p2; p3]) tt)
   = (Ok (p1 ++ p2 ++ p3),
      {| world := tt : @World (paged_server [p1; p2; p3]);
         sent := [] ++ [search_request no_session query 1;
                        search_request no_session query 2;
                        search_request no_session query 3] |})
   ∧ length (p1 ++ p2 ++ p3) = 237%nat)
  ∧ PrAnalytics.search_merged_prs (H := paged_server []) 3 no_session
      "acme" "alice" "2024-01-01" "2024-01-31" (@start (paged_server []) tt)
    = (Ok [],
       {| world := tt : @World (paged_server []);
          sent := [] ++ [search_request no_session query 1] |}).
Proof.
  intros p1 p2 p3 query. split.
  - apply (search_merged_prs_pages (H := paged_server [p1; p2; p3]) no_session
             "acme" "alice" "2024-01-01" "2024-01-31" 3
             (@start (paged_server [p1; p2; p3]) tt));
      [lia | reflexivity | reflexivity | reflexivity | serves_by_computation].
  - apply (search_merged_prs_pages (H := paged_server []) no_session
             "acme" "alice" "2024-01-01" "2024-01-31" 3 (@start (paged_server []) tt));
      [lia | serves_by_computation].
Defined.

(** ** Paginated fetcher of pipeline 1 *)

Example issues_query_non_bug :
  BugAnalytics.issues_query "acme" "2024-01-01" "2024-01-31" (Some false)
  = "org:acme is:issue created:2024-01-01..2024-01-31".
Proof. reflexivity. Qed.

Example merged_prs_query_non_bug :
  BugAnalytics.merged_prs_query "acme" "2024-01-01" "2024-01-31" (Some false)
  = "org:acme is:pr is:merged merged:2024-01-01..2024-01-31 -label:bug".
Proof. reflexivity. Qed.

(** C1 fails on the code. The server holds 101 items: a full first page of
    100, the first of them labelled "Bug", and a second page of one. The
    non-bug fetch filters the first page down to 99 items before it compares
    the length with the page size, so it stops after one request and never
    sees the second page; the same loop without the filter goes on to page
    2, as does the fetcher of pipeline 2. *)
Theorem search_issues_stops_on_filtered_page :
  let page1 := issue 1 "open" [label "Bug"] :: issues_from 2 99 in
  let page2 := [issue 101 "open" []] in
  let server := paged_server [page1; page2] in
  let q_issues := BugAnalytics.issues_query "acme" "2024-01-01" "2024-01-31" in
  let q_prs := BugAnalytics.merged_prs_query "acme" "2024-01-01" "2024-01-31" in
  Py.len page1 = per_page
  ∧ BugAnalytics.search_issues (H := server) 5 no_session "acme" "2024-01-01" "2024-01-31"
      (Some false) (@start server tt)
    = (Ok (issues_from 2 99),
       {| world := tt : @World server;
          sent := [search_request no_session (q_issues (Some false)) 1] |})
  ∧ BugAnalytics.search_merged_prs (H := server) 5 no_session "acme" "2024-01-01"
      "2024-01-31" (Some false) (@start server tt)
    = (Ok (issues_from 2 99),
       {| world := tt : @World server;
          sent := [search_request no_session (q_prs (Some false)) 1] |})
  ∧ BugAnalytics.search_issues (H := server) 5 no_session "acme" "2024-01-01" "2024-01-31"
      None (@start server tt)
    = (Ok (page1 ++ page2),
       {| world := tt : @World server;
          sent := [search_request no_session (q_issues None) 1;
                   search_request no_session (q_issues None) 2] |})
  ∧ PrAnalytics.search_merged_prs (H := server) 5 no_session "acme" "alice" "2024-01-01"
      "2024-01-31" (@start server tt)
    = (Ok (page1 ++ page2),
       {| world := tt : @World server;
          sent := [search_request no_session
                     (PrAnalytics.merged_prs_query "acme" "alice" "2024-01-01" "2024-01-31") 1;
                   search_request no_session
                     (PrAnalytics.merged_prs_query "acme" "alice" "2024-01-01" "2024-01-31") 2]
       |}).
Proof. repeat split. Qed.

(** ** Bug labels *)

Lemma lower_ascii_letter (a : ascii) :
  (Py.lower_ascii a = "b"%char ↔ a = "b"%char ∨ a = "B"%char)
  ∧ (Py.lower_ascii a = "u"%char ↔ a = "u"%char ∨ a = "U"%char)
  ∧ (Py.lower_ascii a = "g"%char ↔ a = "g"%char ∨ a = "G"%char).
Proof.
  destruct a as [[] [] [] [] [] [] [] []]; vm_compute;
    (repeat split; try (intros [?|?]); try discriminate; auto).
Qed.

Lemma lower_string_bug (name : string) :
  Py.lower_string name = "bug" ↔ name ∈ bug_casings.
Proof.
  unfold bug_casings. rewrite !elem_of_cons, elem_of_nil.
  destruct name as [|a [|b [|c [|d rest]]]]; cbn [Py.lower_string];
    try (split; [discriminate | by intros [?|[?|[?|[?|[?|[?|[?|[?|[]]]]]]]]]]).
  destruct (lower_ascii_letter a) as (Ha & _ & _).
  destruct (lower_ascii_letter b) as (_ & Hb & _).
  destruct (lower_ascii_letter c) as (_ & _ & Hc).
  split.
  - intros [= Ea%Ha Eb%Hb Ec%Hc].
    destruct Ea as [-> | ->], Eb as [-> | ->], Ec as [-> | ->]; tauto.
  - intros Hin.
    assert (Py.lower_ascii a = "b"%char ∧ Py.lower_ascii b = "u"%char
            ∧ Py.lower_ascii c = "g"%char) as (-> & -> & ->); [|done].
    rewrite Ha, Hb, Hc.
    destruct Hin as [E|[E|[E|[E|[E|[E|[E|[E|[]]]]]]]]]; injection E as -> -> ->; tauto.
Qed.

Lemma has_bug_label_loop_names ls names :
  Forall2 (λ l name, Py.get l "name" (JStr "") = Ok (JStr name)) ls names →
  ∃ b, BugAnalytics.has_bug_label_loop ls = Ok b
       ∧ (b = true ↔ Exists (λ name, name ∈ bug_casings) names).
Proof.
  induction 1 as [|l name ls names Hl _ (b & IH & Hb)]; cbn [BugAnalytics.has_bug_label_loop].
  - exists false. split; [done|]. split; [done|]. by intros ?%Exists_nil.
  - rewrite Hl. cbn [res_bind Py.lower].
    destruct (String.eqb_spec (Py.lower_string name) "bug") as [E|E];
      rewrite lower_string_bug in E.
    + exists true. split; [done|]. split; [|done]. intros _. by left.
    + exists b. split; [done|]. rewrite Hb. split; [by right|].
      by intros [?|?]%Exists_cons.
Qed.

Lemma filter_res_true {A} (p : A → res bool) l ys :
  filter_res p l = Ok ys → Forall (λ x, p x = Ok true) ys.
Proof.
  revert ys. induction l as [|x l IH]; intros ys Hf; cbn [filter_res] in Hf.
  - by injection Hf as <-.
  - do 2 res_head Hf. injection Hf as <-.
    destruct a; [constructor|]; auto.
Qed.

Section NonBugFetch.

Context `{Server}.
Import BugAnalytics.

Lemma search_loop_non_bug session query fuel :
  ∀ page all_items (n n' : Net) found,
    Forall (λ item, has_bug_label item = Ok false) all_items →
    search_loop fuel session query (Some false) page all_items n = (Ok found, n') →
    Forall (λ item, has_bug_label item = Ok false) found.
Proof.
  induction fuel as [|fuel IH]; intros page all_items n n' found Hall Hrun;
    [discriminate|].
  cbn [search_loop] in Hrun. unfold bind at 1 in Hrun. rewrite session_get_eq in Hrun.
  unfold bind, lift, ret in Hrun.
  do 4 m_head Hrun. m_head Hrun; [by injection Hrun as <- _|].
  m_head Hrun.
  match goal with
  | Hf : res_bind (Py.iter _) _ = Ok ?kept |- _ =>
      rename Hf into Hfilter; rename kept into items
  end.
  res_head Hfilter. apply filter_res_true in Hfilter.
  assert (Forall (λ item, has_bug_label item = Ok false) (all_items ++ items)) as Hall'.
  { apply Forall_app. split; [done|].
    eapply Forall_impl; [done|].
    intros item Hitem. cbn beta in Hitem.
    by destruct (has_bug_label item) as [[]| |]. }
  m_head Hrun; [by injection Hrun as <- _|]. by eapply IH.
Qed.

End NonBugFetch.

(** C4. [has_bug_label] answers true exactly for an item one of whose labels
    is named "bug" in some casing ("Bug" and "BUG" among them) and false for
    an item none of whose labels is; and every item the non-bug fetch of
    pipeline 1 returns is one it answers false for. *)
Theorem has_bug_label_case_insensitive :
  (∀ item ls names,
     Py.get item "labels" (JArr []) = Ok (JArr ls) →
     Forall2 (λ l name, Py.get l "name" (JStr "") = Ok (JStr name)) ls names →
     ∃ b, BugAnalytics.has_bug_label item = Ok b
          ∧ (b = true ↔ Exists (λ name, name ∈ bug_casings) names))
  ∧ (∀ name, name ∈ bug_casings ↔ Py.lower_string name = Py.lower_string "Bug")
  ∧ (∀ (server : Server) fuel session org from_date to_date (n n' : Net) found,
       BugAnalytics.search_issues fuel session org from_date to_date (Some false) n
       = (Ok found, n') →
       Forall (λ item, BugAnalytics.has_bug_label item = Ok false) found).
Proof.
  split; [|split].
  - intros item ls names Hls Hnames. unfold BugAnalytics.has_bug_label.
    rewrite Hls. cbn [res_bind Py.iter]. by apply has_bug_label_loop_names.
  - intros name. symmetry. apply lower_string_bug.
  - intros server fuel session org from_date to_date n n' found Hrun.
    by eapply search_loop_non_bug.
Qed.

Lemma has_bug_label_case_insensitive_witness :
  let tagged := issue 1 "open" [label "enhancement"; label "BUG"] in
  let plain := issue 2 "open" [label "enhancement"] in
  let server := paged_server [[tagged; plain]] in
  (∃ b, BugAnalytics.has_bug_label tagged = Ok b
        ∧ (b = true ↔ Exists (λ name, name ∈ bug_casings) ["enhancement"; "BUG"]))
  ∧ (∃ b, BugAnalytics.has_bug_label plain = Ok b
          ∧ (b = true ↔ Exists (λ name, name ∈ bug_casings) ["enhancement"]))
  ∧ Forall (λ item, BugAnalytics.has_bug_label item = Ok false) [plain].
Proof.
  intros tagged plain server.
  destruct has_bug_label_case_insensitive as (Hlabel & _ & Hfetch).
  split; [|split].
  - apply (Hlabel tagged [label "enhancement"; label "BUG"]); [reflexivity|].
    by repeat constructor.
  - apply (Hlabel plain [label "enhancement"]); [reflexivity|].
    by repeat constructor.
  - apply (Hfetch server 2%nat no_session "acme" "2024-01-01" "2024-01-31"
             (@start server tt)
             (BugAnalytics.search_issues (H := server) 2 no_session "acme" "2024-01-01"
                "2024-01-31" (Some false) (@start server tt)).2).
    reflexivity.
Defined.

(** ** Classifier of pipeline 1 *)

Lemma map_res_Forall2 {A B} (f : A → res B) l ys :
  map_res f l = Ok ys → Forall2 (λ x y, f x = Ok y) l ys.
Proof.
  revert ys. induction l as [|x l IH]; intros ys Hm; cbn [map_res] in Hm.
  - injection Hm as <-. constructor.
  - do 2 res_head Hm. injection Hm as <-. constructor; auto.
Qed.

Lemma state_is_open_true item :
  BugAnalytics.state_is_open item = Ok true → Py.subscript item "state" = Ok (JStr "open").
Proof.
  unfold BugAnalytics.state_is_open. intros Hst.
  destruct (Py.subscript item "state") as [v| |]; try discriminate.
  destruct v; try discriminate. cbn in Hst. injection Hst as Hst.
  by apply String.eqb_eq in Hst as ->.
Qed.

Lemma format_issue_state item rec :
  BugAnalytics.format_issue item = Ok rec →
  Py.subscript item "state" = Ok (BugAnalytics.state rec).
Proof.
  unfold BugAnalytics.format_issue. intros Hf. repeat res_head Hf.
  by injection Hf as <-.
Qed.

Lemma open_bucket kept recs :
  Forall (λ item, BugAnalytics.state_is_open item = Ok true) kept →
  map_res BugAnalytics.format_issue kept = Ok recs →
  Forall (λ rec, BugAnalytics.state rec = JStr "open") recs.
Proof.
  intros Hkept Hrecs%map_res_Forall2. induction Hrecs as [|item rec kept recs Hf _ IH].
  - constructor.
  - apply Forall_cons in Hkept as [Hopen Hkept]. constructor; [|by apply IH].
    apply state_is_open_true in Hopen. apply format_issue_state in Hf. congruence.
Qed.

Section OpenBuckets.

Context `{Server}.
Import BugAnalytics.

(** C5. Every record in an "aperti" bucket of a result of pipeline 1, bug
    or non-bug, has the state "open": an item whose state is "closed" is in
    neither, whenever it was created. *)
Theorem analyze_issues_aperti_open fuel session (org from_date to_date : string)
    (n n' : Net) (r : Results) :
  analyze_issues fuel session org from_date to_date n = (Ok r, n') →
  Forall (λ rec, state rec = JStr "open") (aperti (bug r))
  ∧ Forall (λ rec, state rec = JStr "open") (aperti (non_bug r))
  ∧ ∀ rec, rec ∈ aperti (bug r) ++ aperti (non_bug r) → state rec ≠ JStr "closed".
Proof.
  unfold analyze_issues, bind, lift, ret. intros Hrun.
  do 14 m_head Hrun. injection Hrun as <- _. cbn [bug non_bug aperti].
  assert (∀ kept recs found,
            filter_res state_is_open found = Ok kept →
            map_res format_issue kept = Ok recs →
            Forall (λ rec, state rec = JStr "open") recs) as Hbucket.
  { intros kept recs found Hk Hr. eapply open_bucket; [|done].
    by eapply filter_res_true. }
  match goal with
  | |- Forall _ ?bug_a ∧ Forall _ ?non_bug_a ∧ _ =>
      assert (Forall (λ rec, state rec = JStr "open") bug_a
              ∧ Forall (λ rec, state rec = JStr "open") non_bug_a) as [Hbug Hnon]
        by (split; (eapply Hbucket; [|eassumption]; eassumption))
  end.
  split; [done|]. split; [done|].
  intros rec [Hin|Hin]%elem_of_app.
  - rewrite Forall_forall in Hbug. by rewrite (Hbug _ Hin).
  - rewrite Forall_forall in Hnon. by rewrite (Hnon _ Hin).
Qed.

End OpenBuckets.

Lemma analyze_issues_aperti_open_witness :
  let server :=
    paged_server [[issue 1 "open" [label "bug"]; issue 2 "closed" [label "bug"];
                   issue 3 "closed" []; issue 4 "open" []]] in
  ∃ r n',
    BugAnalytics.analyze_issues (H := server) 2 no_session "acme" "2024-01-01" "2024-01-31"
      (@start server tt) = (Ok r, n')
    ∧ BugAnalytics.totale_aperti (BugAnalytics.bug r) = 2
    ∧ BugAnalytics.totale_aperti (BugAnalytics.non_bug r) = 1
    ∧ Forall (λ rec, BugAnalytics.state rec = JStr "open")
        (BugAnalytics.aperti (BugAnalytics.bug r))
    ∧ Forall (λ rec, BugAnalytics.state rec = JStr "open")
        (BugAnalytics.aperti (BugAnalytics.non_bug r))
    ∧ ∀ rec, rec ∈ BugAnalytics.aperti (BugAnalytics.bug r)
                   ++ BugAnalytics.aperti (BugAnalytics.non_bug r) →
             BugAnalytics.state rec ≠ JStr "closed".
Proof.
  intros server. do 2 eexists. split; [reflexivity|]. split; [reflexivity|].
  split; [reflexivity|].
  eapply (analyze_issues_aperti_open (H := server) 2 no_session "acme" "2024-01-01"
            "2024-01-31" (@start server tt)).
  reflexivity.
Defined.

(** ** Reshaper *)

Lemma string_app_cons (x : ascii) (a b : string) : String x a +:+ b = String x (a +:+ b).
Proof. reflexivity. Qed.

Lemma string_app_nil_r (a : string) : a +:+ "" = a.
Proof. induction a as [|x a IH]; [done|]. by rewrite string_app_cons, IH. Qed.

Lemma string_app_assoc (a b c : string) : (a +:+ b) +:+ c = a +:+ (b +:+ c).
Proof. induction a as [|x a IH]; [done|]. by rewrite !string_app_cons, IH. Qed.

Lemma join_cons2 sep (p q : string) rest :
  Py.join sep (p :: q :: rest) = p +:+ sep +:+ Py.join sep (q :: rest).
Proof. reflexivity. Qed.

Lemma split_string_nonempty sep s : Py.split_string sep s ≠ [].
Proof.
  destruct s as [|c s]; cbn [Py.split_string]; [done|].
  by destruct (Ascii.eqb c sep), (Py.split_string sep s).
Qed.

Lemma split_string_join sep s :
  Py.join (String sep "") (Py.split_string sep s) = s.
Proof.
  induction s as [|c s IH]; cbn [Py.split_string]; [done|].
  pose proof (split_string_nonempty sep s) as Hne.
  destruct (Py.split_string sep s) as [|h tl]; [done|].
  destruct (Ascii.eqb_spec c sep) as [->|_].
  - rewrite join_cons2, IH. reflexivity.
  - destruct tl as [|h' tl].
    + change (String c h = String c s). f_equal. exact IH.
    + rewrite join_cons2, string_app_cons. f_equal. by rewrite <- IH.
Qed.

Lemma split_string_no_sep sep s :
  Forall (λ t, sep ∉ list_ascii_of_string t) (Py.split_string sep s).
Proof.
  induction s as [|c s IH]; cbn [Py.split_string].
  - repeat constructor. cbn. by intros ?%elem_of_nil.
  - destruct (Ascii.eqb_spec c sep) as [->|Hne].
    + constructor; [|done]. cbn. by intros ?%elem_of_nil.
    + destruct (Py.split_string sep s) as [|h tl].
      * repeat constructor. cbn. by intros [?|?%elem_of_nil]%elem_of_cons.
      * apply Forall_cons in IH as [Hh Htl]. constructor; [|done].
        cbn. by intros [?|?]%elem_of_cons.
Qed.

Lemma join_last sep parts :
  parts ≠ [] →
  Py.join sep parts = Py.last_elem parts
  ∨ ∃ p, Py.join sep parts = p +:+ sep +:+ Py.last_elem parts.
Proof.
  unfold Py.last_elem.
  induction parts as [|p [|q rest] IH]; intros Hne; [done|by left|].
  right. rewrite join_cons2.
  change (List.last (p :: q :: rest) "") with (List.last (q :: rest) "").
  destruct IH as [->|[p' ->]]; [done|by exists p|].
  exists (p +:+ sep +:+ p'). by rewrite !string_app_assoc.
Qed.

Lemma split_last_segment u :
  is_last_segment u (Py.last_elem (Py.split_string "/" u)).
Proof.
  split.
  - destruct (join_last "/" (Py.split_string "/" u) (split_string_nonempty _ _))
      as [E|[p E]]; rewrite split_string_join in E; [by left|right; by exists p].
  - pose proof (split_string_no_sep "/" u) as Hall. unfold Py.last_elem.
    induction Hall as [|t [|t' rest] Ht Hall IH]; cbn; [by intros ?%elem_of_nil|done|].
    apply IH.
Qed.

Lemma repo_name_last_segment item r u :
  BugAnalytics.repo_name item = Ok r →
  Py.get item "repository_url" (JStr "") = Ok (JStr u) →
  is_last_segment u r.
Proof.
  unfold BugAnalytics.repo_name. destruct item as [| | | | |kvs]; try discriminate.
  cbn [Py.get res_bind]. destruct (Py.assoc "repository_url" kvs) as [v|].
  - intros Hr [= ->]. cbn [Py.truthy Py.split res_bind] in Hr.
    destruct (String.eqb_spec u "") as [Hu|_]; cbn [negb] in Hr; injection Hr as <-;
      [subst u|].
    + split; [by left|]. cbn. by intros ?%elem_of_nil.
    + apply split_last_segment.
  - intros [= <-] [= <-]. split; [by left|]. cbn. by intros ?%elem_of_nil.
Qed.

(** C7 as stated fails for the merged-PR-shaped reshaping: a pull request
    that was closed without being merged has a native close timestamp and
    no merge timestamp, and [format_pr] leaves its closing timestamp empty
    where [format_issue] reports the native one. *)
Lemma format_pr_ignores_closed_at :
  Py.get unmerged_pull "closed_at" (JStr "") = Ok (JStr "2024-01-10T09:00:00Z")
  ∧ BugAnalytics.merged_at_of unmerged_pull = Ok JNull
  ∧ (∃ rec, BugAnalytics.format_pr unmerged_pull = Ok rec
            ∧ BugAnalytics.closed_at rec = JNull)
  ∧ (∃ rec, BugAnalytics.format_issue unmerged_pull = Ok rec
            ∧ BugAnalytics.closed_at rec = JStr "2024-01-10T09:00:00Z").
Proof. repeat split; eexists; split; reflexivity. Qed.

(** C7, as amended. In a record either reshaping returns, the repository
    name is the last path segment of the item's repository API URL and the
    merge timestamp is the one of the item's "pull_request". The closing
    timestamp of [format_issue] is the merge timestamp when that is truthy
    and the item's native close timestamp otherwise; the closing timestamp
    of [format_pr] is the merge timestamp in every case. *)
Theorem format_closing_timestamp (item : json) :
  (∀ rec, BugAnalytics.format_issue item = Ok rec →
     (∀ u, Py.get item "repository_url" (JStr "") = Ok (JStr u) →
           is_last_segment u (BugAnalytics.repo rec))
     ∧ BugAnalytics.merged_at_of item = Ok (BugAnalytics.merged_at rec)
     ∧ (Py.truthy (BugAnalytics.merged_at rec) = true →
        BugAnalytics.closed_at rec = BugAnalytics.merged_at rec)
     ∧ (Py.truthy (BugAnalytics.merged_at rec) = false →
        Py.get item "closed_at" (JStr "") = Ok (BugAnalytics.closed_at rec)))
  ∧ (∀ rec, BugAnalytics.format_pr item = Ok rec →
       (∀ u, Py.get item "repository_url" (JStr "") = Ok (JStr u) →
             is_last_segment u (BugAnalytics.repo rec))
       ∧ BugAnalytics.merged_at_of item = Ok (BugAnalytics.merged_at rec)
       ∧ BugAnalytics.closed_at rec = BugAnalytics.merged_at rec).
Proof.
  split; intros rec Hf.
  - unfold BugAnalytics.format_issue in Hf.
    destruct (BugAnalytics.label_names item) as [ls| |]; try discriminate.
    destruct (BugAnalytics.repo_name item) as [r| |] eqn:Hrepo; try discriminate.
    destruct (BugAnalytics.merged_at_of item) as [m| |]; try discriminate.
    cbn [res_bind] in Hf. do 5 res_head Hf.
    destruct (Py.truthy m) eqn:Hm; cbn [res_bind] in Hf.
    + injection Hf as <-. cbn. rewrite Hm.
      split; [by intros u; apply repo_name_last_segment|]. by repeat split.
    + res_head Hf. injection Hf as <-. cbn. rewrite Hm.
      split; [by intros u; apply repo_name_last_segment|]. by repeat split.
  - unfold BugAnalytics.format_pr in Hf.
    destruct (BugAnalytics.label_names item) as [ls| |]; try discriminate.
    destruct (BugAnalytics.repo_name item) as [r| |] eqn:Hrepo; try discriminate.
    destruct (BugAnalytics.merged_at_of item) as [m| |]; try discriminate.
    cbn [res_bind] in Hf. do 5 res_head Hf. injection Hf as <-. cbn.
    split; [by intros u; apply repo_name_last_segment|]. by repeat split.
Qed.

Lemma format_closing_timestamp_witness :
  (∃ rec, BugAnalytics.format_issue merged_pull = Ok rec
          ∧ BugAnalytics.repo rec = "widgets"
          ∧ is_last_segment "https://api.github.com/repos/acme/widgets" (BugAnalytics.repo rec)
          ∧ BugAnalytics.closed_at rec = JStr "2024-01-15T10:00:00Z")
  ∧ (∃ rec, BugAnalytics.format_pr merged_pull = Ok rec
            ∧ BugAnalytics.closed_at rec = BugAnalytics.merged_at rec)
  ∧ (∃ rec, BugAnalytics.format_issue unmerged_pull = Ok rec
            ∧ Py.get unmerged_pull "closed_at" (JStr "") = Ok (BugAnalytics.closed_at rec)).
Proof.
  destruct (format_closing_timestamp merged_pull) as [Hissue Hpr].
  destruct (format_closing_timestamp unmerged_pull) as [Hissue' _].
  split; [|split]; eexists; (split; [reflexivity|]).
  - split; [reflexivity|]. split; [|reflexivity].
    by eapply (Hissue _ eq_refl).
  - by eapply (Hpr _ eq_refl).
  - by eapply (Hissue' _ eq_refl).
Defined.

(** ** Date validation *)

Section DateValidation.

Import Strptime DateFormat.

Lemma digit_decide c : digit c = bool_decide (c ∈ digit_chars).
Proof. by destruct c as [[] [] [] [] [] [] [] []]. Qed.

Lemma digit_elem c : digit c = true ↔ c ∈ digit_chars.
Proof. rewrite digit_decide. apply bool_decide_eq_true. Qed.

Lemma int_spelled s : int s = spelled s.
Proof.
  unfold int, spelled, number. generalize 0.
  induction s as [|c s IH]; intros acc; cbn [int_acc list_ascii_of_string]; [done|].
  rewrite filter_cons, digit_decide.
  destruct (decide (c ∈ digit_chars)) as [Hc|Hc].
  - rewrite bool_decide_eq_true_2 by done. cbn [fold_left]. apply IH.
  - rewrite bool_decide_eq_false_2 by done. apply IH.
Qed.

Lemma date_ok_calendar year month day :
  date_ok year month day = true ↔ calendar_date year month day.
Proof.
  unfold date_ok, calendar_date, days_in_month, month_lengths, is_leap.
  rewrite !andb_true_iff, !Z.leb_le.
  assert (bool_decide (year mod 4 = 0 ∧ (year mod 100 ≠ 0 ∨ year mod 400 = 0))
          = ((year mod 4 =? 0) && (negb (year mod 100 =? 0) || (year mod 400 =? 0)))%bool)
    as ->.
  { destruct (Z.eqb_spec (year mod 4) 0), (Z.eqb_spec (year mod 100) 0),
      (Z.eqb_spec (year mod 400) 0); cbn; case_bool_decide; tauto. }
  split.
  - intros [[[[[Hy1 Hy2] Hm1] Hm2] Hd1] Hd2]. split; [done|]. split; [done|].
    assert (month = 1 ∨ month = 2 ∨ month = 3 ∨ month = 4 ∨ month = 5 ∨ month = 6
            ∨ month = 7 ∨ month = 8 ∨ month = 9 ∨ month = 10 ∨ month = 11
            ∨ month = 12) as Hcases by lia.
    destruct Hcases as [->|[->|[->|[->|[->|[->|[->|[->|[->|[->|[->| ->]]]]]]]]]]];
      eexists; (split; [reflexivity|]); done.
  - intros (Hy & Hm & len & Hlen & Hd).
    assert (month = 1 ∨ month = 2 ∨ month = 3 ∨ month = 4 ∨ month = 5 ∨ month = 6
            ∨ month = 7 ∨ month = 8 ∨ month = 9 ∨ month = 10 ∨ month = 11
            ∨ month = 12) as Hcases by lia.
    destruct Hcases as [->|[->|[->|[->|[->|[->|[->|[->|[->|[->|[->| ->]]]]]]]]]]];
      injection Hlen as <-; cbn; lia.
Qed.

Lemma in_all_ascii c : c ∈ all_ascii.
Proof.
  apply (bool_decide_unpack _).
  by destruct c as [[] [] [] [] [] [] [] []]; vm_compute.
Qed.

Lemma matches_expand a txt : matches a txt → txt ∈ expand_alt a.
Proof.
  unfold matches. revert txt.
  induction a as [|p a IH]; intros txt Hm; cbn [expand_alt].
  - destruct txt; [apply list_elem_of_here|inversion Hm].
  - destruct txt as [|c txt]; [inversion Hm|].
    cbn [list_ascii_of_string] in Hm. apply Forall2_cons in Hm as [Hp Hm].
    apply list_elem_of_In, in_flat_map. exists c. split.
    + apply filter_In. split; [|done]. apply list_elem_of_In, in_all_ascii.
    + apply in_map, list_elem_of_In, IH, Hm.
Qed.

Lemma match_alt_sound a :
  ∀ s txt rest, match_alt a s = Some (txt, rest) → s = txt +:+ rest ∧ matches a txt.
Proof.
  unfold matches.
  induction a as [|p a IH]; intros s txt rest Hm; cbn [match_alt] in Hm.
  - destruct s; injection Hm as <- <-; split; (done || constructor).
  - destruct s as [|c s]; [done|].
    destruct (p c) eqn:Hp; [|done].
    destruct (match_alt a s) as [[txt' rest']|] eqn:Ha; [|done].
    injection Hm as <- <-. destruct (IH _ _ _ Ha) as [-> Hall].
    split; [done|]. cbn [list_ascii_of_string]. by constructor.
Qed.

Lemma match_seq_sound gs :
  ∀ s found rest,
    match_seq gs s = Some (found, rest) →
    s = fold_right String.append rest found
    ∧ Forall2 (λ g txt, ∃ a, a ∈ g ∧ matches a txt) gs found.
Proof.
  induction gs as [|g gs IH]; intros s found rest Hm; cbn [match_seq] in Hm.
  - injection Hm as <- <-. by split; [|constructor].
  - assert (∀ alts, alts ⊆ g →
              (fix try (alts : list (list cls)) : option (list string * string) :=
                 match alts with
                 | [] => None
                 | a :: alts' =>
                     match match_alt a s with
                     | Some (txt, rest) =>
                         match match_seq gs rest with
                         | Some (txts, r) => Some (txt :: txts, r)
                         | None => try alts'
                         end
                     | None => try alts'
                     end
                 end) alts = Some (found, rest) →
              s = fold_right String.append rest found
              ∧ Forall2 (λ g txt, ∃ a, a ∈ g ∧ matches a txt) (g :: gs) found)
      as Htry; [|by apply (Htry g)].
    clear Hm. induction alts as [|a alts IHalts]; intros Hsub Hm; [done|].
    assert (alts ⊆ g) as Hsub' by (intros x Hx; by apply Hsub, list_elem_of_further).
    destruct (match_alt a s) as [[txt r1]|] eqn:Ha; [|by apply IHalts].
    destruct (match_seq gs r1) as [[txts r2]|] eqn:Hs; [|by apply IHalts].
    injection Hm as <- <-.
    destruct (match_alt_sound _ _ _ _ Ha) as [-> Hmatch].
    destruct (IH _ _ _ Hs) as [-> Hall].
    split; [done|]. constructor; [|done]. exists a.
    split; [apply Hsub, list_elem_of_here|done].
Qed.

(** what the groups of the format match *)
Lemma re_m_spellings txt :
  (∃ a, a ∈ re_m ∧ matches a txt) → txt ∈ month_spellings.
Proof.
  intros (a & Ha & Hm%matches_expand).
  assert (Forall (λ t, t ∈ month_spellings) (concat (map expand_alt re_m))) as Hall
    by (apply (bool_decide_unpack _); by vm_compute).
  rewrite Forall_forall in Hall. apply Hall.
  apply list_elem_of_In, in_concat. exists (expand_alt a).
  split; [by apply in_map, list_elem_of_In|by apply list_elem_of_In].
Qed.

Lemma re_d_spellings txt :
  (∃ a, a ∈ re_d ∧ matches a txt) → txt ∈ day_spellings.
Proof.
  intros (a & Ha & Hm%matches_expand).
  assert (Forall (λ t, t ∈ day_spellings) (concat (map expand_alt re_d))) as Hall
    by (apply (bool_decide_unpack _); by vm_compute).
  rewrite Forall_forall in Hall. apply Hall.
  apply list_elem_of_In, in_concat. exists (expand_alt a).
  split; [by apply in_map, list_elem_of_In|by apply list_elem_of_In].
Qed.

Lemma re_dash_hyphen txt : (∃ a, a ∈ re_dash ∧ matches a txt) → txt = "-".
Proof.
  intros (a & ->%list_elem_of_singleton & Hm). unfold matches in Hm.
  destruct txt as [|c [|c' txt]]; cbn in Hm; inversion Hm as [|? ? ? ? Hc Hrest]; subst.
  - unfold lit in Hc. by apply Ascii.eqb_eq in Hc as <-.
  - inversion Hrest.
Qed.

Lemma re_Y_digits txt :
  (∃ a, a ∈ re_Y ∧ matches a txt) →
  ∃ y1 y2 y3 y4, txt = string_of_list_ascii [y1; y2; y3; y4]
                 ∧ Forall (λ c, c ∈ digit_chars) [y1; y2; y3; y4].
Proof.
  intros (a & ->%list_elem_of_singleton & Hm). unfold matches in Hm.
  destruct txt as [|y1 [|y2 [|y3 [|y4 [|y5 txt]]]]]; cbn in Hm;
    repeat match goal with
      | H : Forall2 _ _ _ |- _ => inversion H; clear H; subst
      end.
  exists y1, y2, y3, y4. split; [done|].
  repeat (apply Forall_cons; split; [by apply digit_elem|]). constructor.
Qed.

(** every spelling of a month and a day is matched, whole *)
Lemma tail_regex_complete M D :
  M ∈ month_spellings → D ∈ day_spellings →
  match_seq tail_regex ("-" +:+ M +:+ "-" +:+ D) = Some (["-"; M; "-"; D], "").
Proof.
  assert (Forall (λ M, Forall (λ D,
            match_seq tail_regex ("-" +:+ M +:+ "-" +:+ D) = Some (["-"; M; "-"; D], ""))
            day_spellings) month_spellings) as Hall
    by (apply (bool_decide_unpack _); by vm_compute).
  intros HM HD. rewrite Forall_forall in Hall. specialize (Hall M HM).
  rewrite Forall_forall in Hall. by apply Hall.
Qed.

Lemma year_prefix y1 y2 y3 y4 tail :
  Forall (λ c, c ∈ digit_chars) [y1; y2; y3; y4] →
  match_seq format_regex (string_of_list_ascii [y1; y2; y3; y4] +:+ tail)
  = match match_seq tail_regex tail with
    | Some (txts, r) => Some (string_of_list_ascii [y1; y2; y3; y4] :: txts, r)
    | None => None
    end.
Proof.
  intros Hd. repeat (apply Forall_cons in Hd as [?%digit_elem Hd]).
  change (string_of_list_ascii [y1; y2; y3; y4] +:+ tail)
    with (String y1 (String y2 (String y3 (String y4 tail)))).
  change format_regex with (re_Y :: tail_regex).
  cbn [match_seq re_Y match_alt].
  repeat match goal with H : digit _ = true |- _ => rewrite H; clear H end.
  by destruct (match_seq tail_regex tail) as [[txts r]|].
Qed.

Lemma spelled_digits ds :
  Forall (λ c, c ∈ digit_chars) ds → spelled (string_of_list_ascii ds) = number ds.
Proof.
  intros Hd. unfold spelled. rewrite list_ascii_of_string_of_list_ascii.
  f_equal. induction Hd as [|c ds Hc _ IH]; [done|].
  rewrite filter_cons. destruct (decide (c ∈ digit_chars)); [|done]. by rewrite IH.
Qed.

Lemma validate_date_lenient s : lenient_date s → validate_date s = Ok s.
Proof.
  intros (y1 & y2 & y3 & y4 & M & D & -> & Hy & HM & HD & Hdate).
  unfold validate_date, strptime.
  rewrite (year_prefix _ _ _ _ _ Hy), (tail_regex_complete _ _ HM HD).
  cbn [String.eqb negb]. rewrite !int_spelled, (spelled_digits _ Hy).
  by apply date_ok_calendar in Hdate as ->.
Qed.

Lemma strptime_lenient s r : strptime s = Ok r → lenient_date s.
Proof.
  unfold strptime. intros Hs.
  destruct (match_seq format_regex s) as [[found rest]|] eqn:Hm; [|done].
  destruct (String.eqb_spec rest "") as [->|]; [|done]. cbn [negb] in Hs.
  destruct found as [|Y [|h1 [|M [|h2 [|D [|? ?]]]]]]; try done.
  destruct (date_ok (int Y) (int M) (int D)) eqn:Hdate; [|done].
  apply match_seq_sound in Hm as [-> Hall].
  repeat match goal with
    | H : Forall2 _ _ _ |- _ => inversion H; clear H; subst
    end.
  repeat match goal with
    | H : ∃ a, a ∈ re_dash ∧ _ |- _ => apply re_dash_hyphen in H as ->
    | H : ∃ a, a ∈ re_m ∧ _ |- _ => apply re_m_spellings in H
    | H : ∃ a, a ∈ re_d ∧ _ |- _ => apply re_d_spellings in H
    | H : ∃ a, a ∈ re_Y ∧ _ |- _ => apply re_Y_digits in H as (y1 & y2 & y3 & y4 & -> & Hy)
    end.
  exists y1, y2, y3, y4, M, D.
  split.
  { cbn [fold_right]. by rewrite string_app_nil_r. }
  do 3 (split; [done|]).
  apply date_ok_calendar. by rewrite <- (spelled_digits _ Hy), <- !int_spelled.
Qed.

Lemma month_lengths_le year k len : month_lengths year !! k = Some len → len ≤ 31.
Proof.
  unfold month_lengths. intros Hk.
  do 12 (destruct k as [|k]; [injection Hk as <-; try case_bool_decide; lia|]).
  done.
Qed.

Lemma iso_date_lenient s : iso_date s → lenient_date s.
Proof.
  intros (y1 & y2 & y3 & y4 & m1 & m2 & d1 & d2 & -> & Hd & Hdate).
  do 4 (apply Forall_cons in Hd as [? Hd]).
  apply Forall_cons in Hd as [Hm1 Hd]. apply Forall_cons in Hd as [Hm2 Hd].
  apply Forall_cons in Hd as [Hd1 Hd]. apply Forall_cons in Hd as [Hd2 _].
  exists y1, y2, y3, y4, (string_of_list_ascii [m1; m2]), (string_of_list_ascii [d1; d2]).
  split; [done|].
  split; [by repeat (apply Forall_cons; split; [assumption|])|].
  rewrite !spelled_digits by by repeat (apply Forall_cons; split; [assumption|]).
  destruct Hdate as (Hy & Hm & len & Hlen & Hday).
  assert (Forall (λ c1, Forall (λ c2,
            (1 ≤ number [c1; c2] ≤ 12 → string_of_list_ascii [c1; c2] ∈ month_spellings)
            ∧ (1 ≤ number [c1; c2] ≤ 31 → string_of_list_ascii [c1; c2] ∈ day_spellings))
            digit_chars) digit_chars) as Hall
    by (apply (bool_decide_unpack _); by vm_compute).
  rewrite Forall_forall in Hall.
  pose proof (Hall m1 Hm1) as HM. rewrite Forall_forall in HM.
  pose proof (Hall d1 Hd1) as HD. rewrite Forall_forall in HD.
  pose proof (month_lengths_le _ _ _ Hlen).
  split; [by apply (HM m2 Hm2)|]. split; [apply (HD d2 Hd2); lia|].
  split; [done|]. split; [done|]. by exists len.
Qed.

End DateValidation.

(** the model of [strptime] on strings the library was run on *)
Example strptime_examples :
  Strptime.strptime "2024-01-31" = Ok (2024, 1, 31)
  ∧ Strptime.strptime "2024-1-5" = Ok (2024, 1, 5)
  ∧ Strptime.strptime "2024-12- 5" = Ok (2024, 12, 5)
  ∧ Strptime.strptime "2024-02-29" = Ok (2024, 2, 29)
  ∧ Strptime.strptime "9999-12-31" = Ok (9999, 12, 31)
  ∧ Forall (λ s, Strptime.strptime s = Raise ValueError)
      ["2023-02-29"; "0000-01-01"; "2024-01-01 "; " 2024-01-01"; "2024-011-5";
       "20240101"; "2024-13-01"; "2024-1-3x"; "2024-01-32"; "2024-00-10";
       "2024- 1-05"; "2024-01-0"; "2024-01-00"; "2024-1-1-"; ""].
Proof. repeat split; repeat constructor. Qed.

(** C6 as stated fails in its second half: "2024-1-5" is not in the
    [YYYY-MM-DD] format, its month and day having one digit each, and
    [validate_date] returns it unchanged. *)
Lemma validate_date_accepts_one_digit :
  ¬ DateFormat.iso_date "2024-1-5" ∧ validate_date "2024-1-5" = Ok "2024-1-5".
Proof.
  split; [|reflexivity].
  intros (y1 & y2 & y3 & y4 & m1 & m2 & d1 & d2 & Hs & _). discriminate Hs.
Qed.

(** C6, as amended. [validate_date] returns its argument unchanged for every
    string in the [YYYY-MM-DD] format that denotes a date of the calendar in
    the years 0001 to 9999; more generally it returns its argument unchanged
    exactly for a four-digit year, a month and a day in any spelling
    [strptime] reads (one or two digits, a day also padded with a space),
    hyphens between them, denoting such a date; for every other string it
    raises the parameter error. *)
Theorem validate_date_accepts (s : string) :
  (DateFormat.iso_date s → validate_date s = Ok s)
  ∧ (validate_date s = Ok s ↔ DateFormat.lenient_date s)
  ∧ (¬ DateFormat.lenient_date s →
     validate_date s
     = Raise (BadParameter ("Data non valida: " +:+ s +:+ ". Usa il formato YYYY-MM-DD"))).
Proof.
  split; [|split].
  - intros Hiso. by apply validate_date_lenient, iso_date_lenient.
  - split; [|apply validate_date_lenient].
    unfold validate_date. destruct (Strptime.strptime s) as [r| |] eqn:Hs.
    + intros _. by eapply strptime_lenient.
    + by destruct e.
    + done.
  - intros Hno. unfold validate_date.
    destruct (Strptime.strptime s) as [r|e|] eqn:Hs.
    + destruct Hno. by eapply strptime_lenient.
    + unfold Strptime.strptime in Hs.
      destruct (Strptime.match_seq _ s) as [[found rest]|]; [|by injection Hs as <-].
      destruct (negb _); [by injection Hs as <-|].
      destruct found as [|Y [|h1 [|M [|h2 [|D [|? ?]]]]]]; try by injection Hs as <-.
      destruct (Strptime.date_ok _ _ _); [done|by injection Hs as <-].
    + unfold Strptime.strptime in Hs.
      destruct (Strptime.match_seq _ s) as [[found rest]|]; [|done].
      destruct (negb _); [done|].
      destruct found as [|Y [|h1 [|M [|h2 [|D [|? ?]]]]]]; try done.
      by destruct (Strptime.date_ok _ _ _).
Qed.

Lemma validate_date_accepts_witness :
  validate_date "2024-02-29" = Ok "2024-02-29"
  ∧ validate_date "2024-12- 5" = Ok "2024-12- 5"
  ∧ validate_date "2023-02-29"
    = Raise (BadParameter "Data non valida: 2023-02-29. Usa il formato YYYY-MM-DD").
Proof.
  split; [|split].
  - apply (proj1 (validate_date_accepts "2024-02-29")).
    exists "2"%char, "0"%char, "2"%char, "4"%char, "0"%char, "2"%char, "2"%char, "9"%char.
    split; [reflexivity|]. split; [by apply (bool_decide_unpack _)|].
    by apply date_ok_calendar.
  - apply (proj2 (proj1 (proj2 (validate_date_accepts "2024-12- 5")))).
    exists "2"%char, "0"%char, "2"%char, "4"%char, "12", " 5".
    split; [reflexivity|]. split; [by apply (bool_decide_unpack _)|].
    split; [by apply (bool_decide_unpack _)|]. split; [by apply (bool_decide_unpack _)|].
    by apply date_ok_calendar.
  - apply (proj2 (proj2 (validate_date_accepts "2023-02-29"))).
    intros Hl%validate_date_lenient. discriminate Hl.
Defined.

(** * Further properties *)

(** ** The fetcher of pipeline 2: errors, endless pages, requests sent *)

Section PrFetchMore.

Context `{Server}.
Import PrAnalytics.

Lemma page_requests_snoc session query k :
  ∀ page, page_requests session query page (S k)
          = page_requests session query page k
            ++ [search_request session query (page + Z.of_nat k)].
Proof.
  induction k as [|k IH]; intros page.
  - cbn. by rewrite Z.add_0_r.
  - change (page_requests session query page (S (S k)))
      with (search_request session query page
            :: page_requests session query (page + 1) (S k)).
    rewrite (IH (page + 1)). cbn [page_requests app].
    by replace (page + Z.of_nat (S k)) with (page + 1 + Z.of_nat k) by lia.
Qed.

(** full pages are fetched one after the other, and the loop goes on *)
Lemma search_loop_full_pages session query full :
  Forall (λ p, Py.len p = per_page) full →
  ∀ fuel page all_items (n : Net) w,
    serves session query page (world n) full w →
    search_loop (length full + fuel) session query page all_items n
    = search_loop fuel session query (page + Z.of_nat (length full))
        (all_items ++ concat full)
        {| world := w; sent := sent n ++ page_requests session query page (length full) |}.
Proof.
  induction 1 as [|p full Hp _ IH]; intros fuel page all_items n w Hserves;
    inversion Hserves as [|? ? resp w1 ? ? ? Hserve Hpage Hrest]; subst.
  - cbn [length concat page_requests Nat.add]. rewrite !app_nil_r, Z.add_0_r.
    by destruct n.
  - cbn [length Nat.add].
    rewrite (search_loop_page _ _ _ _ _ _ p) by by rewrite Hserve.
    rewrite Hp, Z.ltb_irrefl.
    rewrite (IH fuel (page + 1) (all_items ++ p) _ w)
      by (unfold after; cbn [world]; by rewrite Hserve).
    unfold after. cbn [concat page_requests sent world].
    replace (page + Z.of_nat (S (length full))) with (page + 1 + Z.of_nat (length full))
      by lia.
    by rewrite <- !app_assoc.
Qed.

(** one turn of the loop on a response that is not a success *)
Lemma search_loop_failure fuel session query page all_items (n : Net) :
  let req := search_request session query page in
  status_code (serve req (world n)).1 ≠ 200 →
  search_loop (S fuel) session query page all_items n
  = (Raise (search_failure (status_code (serve req (world n)).1)), after req n).
Proof.
  intros req Hst. cbn [search_loop]. unfold bind at 1. rewrite session_get_eq.
  fold (search_request session query page). fold req. unfold search_failure.
  destruct (status_code (serve req (world n)).1 =? 403); [done|].
  by destruct (Z.eqb_spec (status_code (serve req (world n)).1) 200).
Qed.

(** X1. A response with a status other than 200 is fatal on whatever page it
    comes: after any number of full pages, the fetcher of pipeline 2 exits
    with the rate-limit error for a 403 and with the search error carrying
    the status otherwise, and the items of the pages before are lost. *)
Theorem search_merged_prs_fatal session (org author from_date to_date : string)
    (fuel : nat) (n : Net) (full : list (list json)) w resp w' :
  let query := merged_prs_query org author from_date to_date in
  Forall (λ p, Py.len p = per_page) full →
  serves session query 1 (world n) full w →
  serve (search_request session query (1 + Z.of_nat (length full))) w = (resp, w') →
  status_code resp ≠ 200 →
  (length full < fuel)%nat →
  search_merged_prs fuel session org author from_date to_date n
  = (Raise (search_failure (status_code resp)),
     {| world := w';
        sent := sent n ++ page_requests session query 1 (S (length full)) |}).
Proof.
  intros query Hfull Hserves Hserve Hst Hfuel. unfold search_merged_prs. fold query.
  replace fuel with (length full + S (fuel - S (length full)))%nat by lia.
  rewrite (search_loop_full_pages _ _ _ Hfull _ _ _ _ _ Hserves).
  rewrite search_loop_failure; cbn [world]; rewrite Hserve; [|done].
  unfold after. cbn [world sent fst snd]. rewrite Hserve. cbn [snd].
  by rewrite <- app_assoc, page_requests_snoc.
Qed.

End PrFetchMore.

Lemma search_merged_prs_fatal_witness :
  let server := scripted_server not_found in
  let query := PrAnalytics.merged_prs_query "acme" "alice" "2024-01-01" "2024-01-31" in
  PrAnalytics.search_merged_prs (H := server) 5 no_session "acme" "alice" "2024-01-01"
    "2024-01-31" (@start server [items_page (issues_from 1 100); rate_limited])
  = (Raise (SystemExit 1 RateLimited),
     {| world := [] : @World server;
        sent := [] ++ [search_request no_session query 1;
                       search_request no_session query 2] |})
  ∧ PrAnalytics.search_merged_prs (H := server) 5 no_session "acme" "alice" "2024-01-01"
      "2024-01-31" (@start server [server_error])
    = (Raise (SystemExit 1 (SearchFailed 502)),
       {| world := [] : @World server;
          sent := [] ++ [search_request no_session query 1] |}).
Proof.
  intros server query. split.
  - apply (search_merged_prs_fatal (H := server) no_session "acme" "alice" "2024-01-01"
             "2024-01-31" 5 (@start server [items_page (issues_from 1 100); rate_limited])
             [issues_from 1 100] [rate_limited] rate_limited []);
      [by repeat constructor | serves_by_computation | reflexivity | done | cbn; lia].
  - apply (search_merged_prs_fatal (H := server) no_session "acme" "alice" "2024-01-01"
             "2024-01-31" 5 (@start server [server_error]) [] [server_error]
             server_error []);
      [constructor | serves_by_computation | reflexivity | done | cbn; lia].
Defined.

Section PrFetchTrace.

Context `{Server}.
Import PrAnalytics.

Lemma search_merged_prs_trace session (org author from_date to_date : string)
    (fuel : nat) (n : Net) :
  ∃ k, (k ≤ fuel)%nat
       ∧ sent (search_merged_prs fuel session org author from_date to_date n).2
         = sent n ++ page_requests session
                       (merged_prs_query org author from_date to_date) 1 k.
Proof.
  unfold search_merged_prs. generalize (merged_prs_query org author from_date to_date) as query.
  intros query. generalize 1 as page. generalize (@nil json) as all_items. revert n.
  induction fuel as [|fuel IH]; intros n all_items page.
  - exists 0%nat. split; [done|]. cbn. by rewrite app_nil_r.
  - cbn [search_loop]. unfold bind at 1. rewrite session_get_eq.
    fold (search_request session query page).
    set (req := search_request session query page).
    assert (sent (after req n) = sent n ++ page_requests session query page 1) as Hone
      by done.
    destruct (status_code (serve req (world n)).1 =? 403);
      [exists 1%nat; split; [lia|done]|].
    destruct (negb (status_code (serve req (world n)).1 =? 200));
      [exists 1%nat; split; [lia|done]|].
    unfold bind, lift, ret.
    destruct (resp_json (serve req (world n)).1) as [data| |];
      try (exists 1%nat; split; [lia|done]).
    destruct (Py.get data "items" (JArr [])) as [items| |];
      try (exists 1%nat; split; [lia|done]).
    destruct (negb (Py.truthy items)); [exists 1%nat; split; [lia|done]|].
    destruct (Py.iter items) as [l| |]; try (exists 1%nat; split; [lia|done]).
    destruct (Py.len l <? per_page); [exists 1%nat; split; [lia|done]|].
    destruct (IH (after req n) (all_items ++ l) (page + 1)) as (k & Hk & Hsent).
    exists (S k). split; [lia|]. rewrite Hsent. cbn [after sent page_requests].
    by rewrite <- app_assoc.
Qed.

(** X2. Whatever the server answers and however the fetch ends, the
    requests the fetcher of pipeline 2 has sent are the search requests for
    the pages 1, 2, ..., k of its one query, each once and in this order,
    with at most one request for each unit of fuel. *)
Theorem search_merged_prs_requests session (org author from_date to_date : string)
    (fuel : nat) (n : Net) :
  ∃ k, (k ≤ fuel)%nat
       ∧ sent (search_merged_prs fuel session org author from_date to_date n).2
         = sent n ++ page_requests session
                       (merged_prs_query org author from_date to_date) 1 k.
Proof. apply search_merged_prs_trace. Qed.

(** X3. Against a server that answers every page request with a full page of
    a hundred items the loop does not stop: whatever the fuel, the fetcher of
    pipeline 2 uses all of it, one request a unit, and has no result. *)
Theorem search_merged_prs_endless session (org author from_date to_date : string)
    (n : Net) :
  (∀ req w, ∃ items, page_of (serve req w).1 items ∧ Py.len items = per_page) →
  ∀ fuel,
    (search_merged_prs fuel session org author from_date to_date n).1 = OutOfFuel
    ∧ length (sent (search_merged_prs fuel session org author from_date to_date n).2)
      = (length (sent n) + fuel)%nat.
Proof.
  intros Hfull fuel. unfold search_merged_prs.
  generalize (merged_prs_query org author from_date to_date) as query.
  intros query. generalize 1 as page. generalize (@nil json) as all_items. revert n.
  induction fuel as [|fuel IH]; intros n all_items page.
  - cbn. split; [done|lia].
  - destruct (Hfull (search_request session query page) (world n)) as (items & Hpage & Hlen).
    rewrite (search_loop_page _ _ _ _ _ _ items Hpage). rewrite Hlen, Z.ltb_irrefl.
    destruct (IH (after (search_request session query page) n) (all_items ++ items)
                (page + 1)) as [Hout Hsent].
    split; [done|]. rewrite Hsent. cbn [after sent]. rewrite length_app. cbn. lia.
Qed.

End PrFetchTrace.

Lemma search_merged_prs_endless_witness :
  (PrAnalytics.search_merged_prs (H := endless_server) 7 no_session "acme" "alice"
     "2024-01-01" "2024-01-31" (@start endless_server tt)).1 = OutOfFuel
  ∧ length (sent (PrAnalytics.search_merged_prs (H := endless_server) 7 no_session "acme"
                    "alice" "2024-01-01" "2024-01-31" (@start endless_server tt)).2)
    = (length (sent (@start endless_server tt)) + 7)%nat.
Proof.
  apply (search_merged_prs_endless (H := endless_server) no_session "acme" "alice"
           "2024-01-01" "2024-01-31" (@start endless_server tt)).
  intros req w. exists (issues_from 1 100). split; [|reflexivity].
  split; [reflexivity|]. eexists. split; reflexivity.
Defined.

(** ** The fetchers of pipeline 1: pages kept, errors *)

Section BugFetchMore.

Context `{Server}.
Import BugAnalytics.

(** one turn of the loop on a response that is a page *)
Lemma bug_search_loop_page fuel session query is_bug page all_items (n : Net) items kept :
  page_of (serve (search_request session query page) (world n)).1 items →
  kept_items is_bug items = Ok kept →
  search_loop (S fuel) session query is_bug page all_items n
  = (if Py.len kept <? per_page then ret (all_items ++ kept)
     else search_loop fuel session query is_bug (page + 1) (all_items ++ kept))
      (after (search_request session query page) n).
Proof.
  intros (Hst & data & Hbody & Hitems) Hkept.
  cbn [search_loop]. unfold bind at 1. rewrite session_get_eq.
  fold (search_request session query page). rewrite Hst. cbn [Z.eqb Pos.eqb negb].
  unfold bind, lift, resp_json. rewrite Hbody, Hitems.
  destruct items as [|item items].
  - cbn [Py.truthy negb].
    assert (kept = []) as -> by (by destruct is_bug as [[]|]; injection Hkept as <-).
    by rewrite app_nil_r.
  - cbn [Py.truthy negb Py.iter res_bind].
    assert (match is_bug with
            | Some false =>
                filter_res (λ item, let* b := has_bug_label item in Ok (negb b))
                  (item :: items)
            | _ => Ok (item :: items)
            end = Ok kept) as -> by (by destruct is_bug as [[]|]).
    done.
Qed.

Lemma bug_search_loop_failure fuel session query is_bug page all_items (n : Net) :
  let req := search_request session query page in
  status_code (serve req (world n)).1 ≠ 200 →
  search_loop (S fuel) session query is_bug page all_items n
  = (Raise (search_failure (status_code (serve req (world n)).1)), after req n).
Proof.
  intros req Hst. cbn [search_loop]. unfold bind at 1. rewrite session_get_eq.
  fold (search_request session query page). fold req. unfold search_failure.
  destruct (status_code (serve req (world n)).1 =? 403); [done|].
  by destruct (Z.eqb_spec (status_code (serve req (world n)).1) 200).
Qed.

(** pages of which a hundred items are kept are fetched one after the other *)
Lemma bug_search_loop_full_pages session query is_bug full full_kept :
  Forall2 (λ p k, kept_items is_bug p = Ok k ∧ Py.len k = per_page) full full_kept →
  ∀ fuel page all_items (n : Net) w,
    serves session query page (world n) full w →
    search_loop (length full + fuel) session query is_bug page all_items n
    = search_loop fuel session query is_bug (page + Z.of_nat (length full))
        (all_items ++ concat full_kept)
        {| world := w; sent := sent n ++ page_requests session query page (length full) |}.
Proof.
  induction 1 as [|p k full full_kept [Hk Hlen] _ IH]; intros fuel page all_items n w Hserves;
    inversion Hserves as [|? ? resp w1 ? ? ? Hserve Hpage Hrest]; subst.
  - cbn [length concat page_requests Nat.add]. rewrite !app_nil_r, Z.add_0_r.
    by destruct n.
  - cbn [length Nat.add].
    rewrite (bug_search_loop_page _ _ _ _ _ _ _ p k) by (by rewrite ?Hserve).
    rewrite Hlen, Z.ltb_irrefl.
    rewrite (IH fuel (page + 1) (all_items ++ k) _ w)
      by (unfold after; cbn [world]; by rewrite Hserve).
    unfold after. cbn [concat page_requests sent world].
    replace (page + Z.of_nat (S (length full))) with (page + 1 + Z.of_nat (length full))
      by lia.
    by rewrite <- !app_assoc.
Qed.

Lemma bug_search_loop_pages session query is_bug full full_kept last last_kept
    fuel (n : Net) w' :
  Forall2 (λ p k, kept_items is_bug p = Ok k ∧ Py.len k = per_page) full full_kept →
  kept_items is_bug last = Ok last_kept →
  Py.len last_kept < per_page →
  (length full < fuel)%nat →
  serves session query 1 (world n) (full ++ [last]) w' →
  search_loop fuel session query is_bug 1 [] n
  = (Ok (concat full_kept ++ last_kept),
     {| world := w'; sent := sent n ++ page_requests session query 1 (S (length full)) |}).
Proof.
  intros Hfull Hlast Hshort Hfuel Hserves.
  assert (∃ w, serves session query 1 (world n) full w
               ∧ serves session query (1 + Z.of_nat (length full)) w [last] w')
    as (w & Hpre & Hpost).
  { clear -Hserves. revert Hserves. generalize 1 as page. generalize (world n) as w0.
    induction full as [|p full IH]; intros w0 page Hserves.
    - exists w0. split; [constructor|]. cbn. by rewrite Z.add_0_r.
    - inversion Hserves as [|? ? resp w1 ? ? ? Hserve Hpage Hrest]; subst.
      destruct (IH _ _ Hrest) as (w & Hpre & Hpost). exists w. split.
      + by econstructor.
      + cbn [length]. by replace (page + Z.of_nat (S (length full)))
          with (page + 1 + Z.of_nat (length full)) by lia. }
  replace fuel with (length full + S (fuel - S (length full)))%nat by lia.
  rewrite (bug_search_loop_full_pages _ _ _ _ _ Hfull _ _ _ _ _ Hpre).
  inversion Hpost as [|? ? resp w1 ? ? ? Hserve Hpage Hrest]; subst.
  inversion Hrest; subst.
  rewrite (bug_search_loop_page _ _ _ _ _ _ _ last last_kept)
    by (cbn [world]; by rewrite ?Hserve).
  apply Z.ltb_lt in Hshort as ->. unfold ret, after. cbn [world sent app].
  rewrite Hserve. cbn [snd]. by rewrite <- app_assoc, page_requests_snoc.
Qed.

(** X4. The fetchers of pipeline 1 go on for as long as a hundred items of
    a page are kept and stop at the first page of which fewer are kept; they
    return the kept items of these pages in order, after one request a page.
    All items of a page are kept unless the fetch is the non-bug one, which
    keeps those without a bug label: its stopping is decided on what is left
    of a page after the filter. *)
Theorem bug_fetch_pages session (org from_date to_date : string) (is_bug : option bool)
    full full_kept last last_kept fuel (n : Net) :
  Forall2 (λ p k, kept_items is_bug p = Ok k ∧ Py.len k = per_page) full full_kept →
  kept_items is_bug last = Ok last_kept →
  Py.len last_kept < per_page →
  (length full < fuel)%nat →
  (∀ w', serves session (issues_query org from_date to_date is_bug) 1 (world n)
           (full ++ [last]) w' →
         search_issues fuel session org from_date to_date is_bug n
         = (Ok (concat full_kept ++ last_kept),
            {| world := w';
               sent := sent n ++ page_requests session
                                   (issues_query org from_date to_date is_bug) 1
                                   (S (length full)) |}))
  ∧ (∀ w', serves session (merged_prs_query org from_date to_date is_bug) 1 (world n)
             (full ++ [last]) w' →
           search_merged_prs fuel session org from_date to_date is_bug n
           = (Ok (concat full_kept ++ last_kept),
              {| world := w';
                 sent := sent n ++ page_requests session
                                     (merged_prs_query org from_date to_date is_bug) 1
                                     (S (length full)) |}))
  ∧ (is_bug ≠ Some false → full_kept = full ∧ last_kept = last).
Proof.
  intros Hfull Hlast Hshort Hfuel. split; [|split].
  - intros w' Hserves. by eapply bug_search_loop_pages.
  - intros w' Hserves. by eapply bug_search_loop_pages.
  - intros Hbug. split.
    + clear -Hfull Hbug. induction Hfull as [|p k full full_kept [Hk _] _ IH]; [done|].
      f_equal; [|done].
      destruct is_bug as [[]|]; [|by destruct Hbug|]; by injection Hk as <-.
    + destruct is_bug as [[]|]; [|by destruct Hbug|]; by injection Hlast as <-.
Qed.

(** X5. In the fetchers of pipeline 1 too a response with a status other
    than 200 is fatal on whatever page it comes: the rate-limit exit for a
    403, the search-error exit with the status otherwise, and nothing of the
    pages fetched before is returned. *)
Theorem bug_fetch_fatal session (org from_date to_date : string) (is_bug : option bool)
    full full_kept fuel (n : Net) :
  Forall2 (λ p k, kept_items is_bug p = Ok k ∧ Py.len k = per_page) full full_kept →
  (length full < fuel)%nat →
  (∀ w resp w',
     serves session (issues_query org from_date to_date is_bug) 1 (world n) full w →
     serve (search_request session (issues_query org from_date to_date is_bug)
              (1 + Z.of_nat (length full))) w = (resp, w') →
     status_code resp ≠ 200 →
     search_issues fuel session org from_date to_date is_bug n
     = (Raise (search_failure (status_code resp)),
        {| world := w';
           sent := sent n ++ page_requests session
                               (issues_query org from_date to_date is_bug) 1
                               (S (length full)) |}))
  ∧ (∀ w resp w',
       serves session (merged_prs_query org from_date to_date is_bug) 1 (world n) full w →
       serve (search_request session (merged_prs_query org from_date to_date is_bug)
                (1 + Z.of_nat (length full))) w = (resp, w') →
       status_code resp ≠ 200 →
       search_merged_prs fuel session org from_date to_date is_bug n
       = (Raise (search_failure (status_code resp)),
          {| world := w';
             sent := sent n ++ page_requests session
                                 (merged_prs_query org from_date to_date is_bug) 1
                                 (S (length full)) |})).
Proof.
  intros Hfull Hfuel.
  assert (∀ query w resp w',
            serves session query 1 (world n) full w →
            serve (search_request session query (1 + Z.of_nat (length full))) w = (resp, w') →
            status_code resp ≠ 200 →
            search_loop fuel session query is_bug 1 [] n
            = (Raise (search_failure (status_code resp)),
               {| world := w';
                  sent := sent n ++ page_requests session query 1 (S (length full)) |}))
    as Hloop.
  { intros query w resp w' Hserves Hserve Hst.
    replace fuel with (length full + S (fuel - S (length full)))%nat by lia.
    rewrite (bug_search_loop_full_pages _ _ _ _ _ Hfull _ _ _ _ _ Hserves).
    rewrite bug_search_loop_failure; cbn [world]; rewrite Hserve; [|done].
    unfold after. cbn [world sent fst snd]. rewrite Hserve. cbn [snd].
    by rewrite <- app_assoc, page_requests_snoc. }
  split; intros w resp w' Hserves Hserve Hst; by eapply Hloop.
Qed.

End BugFetchMore.

Lemma bug_fetch_pages_witness :
  let page1 := issue 1 "open" [label "Bug"] :: issues_from 2 100 in
  let page2 := [issue 102 "open" [label "bug"]; issue 103 "open" []] in
  let server := paged_server [page1; page2] in
  BugAnalytics.search_issues (H := server) 4 no_session "acme" "2024-01-01" "2024-01-31"
    (Some false) (@start server tt)
  = (Ok (concat [issues_from 2 100] ++ [issue 103 "open" []]),
     {| world := tt : @World server;
        sent := [] ++ page_requests no_session
                        (BugAnalytics.issues_query "acme" "2024-01-01" "2024-01-31"
                           (Some false)) 1 2 |}).
Proof.
  intros page1 page2 server.
  apply (proj1 (bug_fetch_pages (H := server) no_session "acme" "2024-01-01" "2024-01-31"
                  (Some false) [page1] [issues_from 2 100] page2 [issue 103 "open" []]
                  4 (@start server tt)
                  ltac:(constructor; [split; reflexivity|constructor])
                  ltac:(reflexivity) ltac:(reflexivity) ltac:(cbn; lia))).
  serves_by_computation.
Defined.

Lemma bug_fetch_fatal_witness :
  let server := scripted_server not_found in
  BugAnalytics.search_merged_prs (H := server) 4 no_session "acme" "2024-01-01"
    "2024-01-31" (Some true)
    (@start server [items_page (issues_from 1 100); rate_limited])
  = (Raise (SystemExit 1 RateLimited),
     {| world := [] : @World server;
        sent := [] ++ page_requests no_session
                        (BugAnalytics.merged_prs_query "acme" "2024-01-01" "2024-01-31"
                           (Some true)) 1 2 |}).
Proof.
  intros server.
  apply (proj2 (bug_fetch_fatal (H := server) no_session "acme" "2024-01-01" "2024-01-31"
                  (Some true) [issues_from 1 100] [issues_from 1 100] 4
                  (@start server [items_page (issues_from 1 100); rate_limited])
                  ltac:(constructor; [split; reflexivity|constructor])
                  ltac:(cbn; lia))
           [rate_limited] rate_limited []);
    [serves_by_computation | reflexivity | done].
Defined.

(** ** The classifier of pipeline 2: order, requests, failures *)

Section PrLoopMore.

Context `{Server}.
Import PrAnalytics.

Lemma get_reviews_for_pr_ok_inv session pr_url (n n' : Net) reviews :
  get_reviews_for_pr session pr_url n = (Ok reviews, n') →
  ∃ u, pr_url = JStr u ∧ n' = after (reviews_request session u) n.
Proof.
  destruct pr_url as [| | |u| |]; try done.
  rewrite get_reviews_for_pr_eq. intros [= _ <-]. by exists u.
Qed.

Lemma analyze_item_inv_net session item senza bocciate (n n' : Net) acc :
  analyze_item session item senza bocciate n = (Ok acc, n') →
  (pr_fields item = Ok None ∧ acc = (senza, bocciate) ∧ n' = n)
  ∨ ∃ u d, pr_fields item = Ok (Some (JStr u, d))
           ∧ n' = after (reviews_request session u) n
           ∧ (acc = (senza ++ [d], bocciate) ∨ acc = (senza, bocciate ++ [d])).
Proof.
  unfold analyze_item, pr_fields, bind, lift, ret. intros Hrun.
  m_head Hrun. cbn [res_bind]. m_head Hrun.
  { left. by injection Hrun as <- <-. }
  right. do 7 (m_head Hrun; cbn [res_bind]).
  match goal with
  | Hget : get_reviews_for_pr _ _ _ = (Ok _, _) |- _ =>
      destruct (get_reviews_for_pr_ok_inv _ _ _ _ _ Hget) as (u & -> & ->)
  end.
  do 2 (m_head Hrun; cbn [res_bind]).
  exists u. eexists. split; [reflexivity|].
  m_head Hrun; injection Hrun as <- <-; auto.
Qed.

Lemma analyze_loop_trace session items :
  ∀ senza bocciate (n n' : Net) acc,
    analyze_loop session items senza bocciate n = (Ok acc, n') →
    ∃ ds s' b' urls,
      pr_records items = Ok ds
      ∧ acc = (senza ++ s', bocciate ++ b')
      ∧ s' `sublist_of` ds ∧ b' `sublist_of` ds
      ∧ length urls = length ds
      ∧ Forall (λ u, ∃ item d, item ∈ items ∧ pr_fields item = Ok (Some (JStr u, d))) urls
      ∧ sent n' = sent n ++ map (reviews_request session) urls.
Proof.
  induction items as [|item rest IH]; intros senza bocciate n n' acc Hrun.
  - injection Hrun as <- <-. exists [], [], [], []. rewrite !app_nil_r.
    by repeat split.
  - cbn [analyze_loop] in Hrun. unfold bind in Hrun.
    destruct (analyze_item session item senza bocciate n) as [[acc1| |] n1] eqn:Hitem;
      try discriminate.
    destruct (IH _ _ _ _ _ Hrun) as (ds & s' & b' & urls & Hds & -> & Hs & Hb & Hlen & Hurls & Hsent).
    assert (Forall (λ u, ∃ item0 d, item0 ∈ item :: rest
                                    ∧ pr_fields item0 = Ok (Some (JStr u, d))) urls)
      as Hurls'.
    { eapply Forall_impl; [done|]. intros u (item0 & d & Hin & Hf).
      exists item0, d. split; [by right|done]. }
    cbn [pr_records]. rewrite Hds.
    apply analyze_item_inv_net in Hitem
        as [(Hf & -> & ->)|(u & d & Hf & -> & [-> | ->])]; rewrite Hf;
      cbn [res_bind fst snd].
    + by exists ds, s', b', urls.
    + exists (d :: ds), (d :: s'), b', (u :: urls). rewrite <- !app_assoc.
      split; [done|]. split; [done|]. split; [by constructor|]. split; [by constructor|].
      split; [cbn; lia|]. split.
      * constructor; [|done]. exists item, d. split; [by left|done].
      * rewrite Hsent. cbn [after sent map]. by rewrite <- app_assoc.
    + exists (d :: ds), s', (d :: b'), (u :: urls). rewrite <- !app_assoc.
      split; [done|]. split; [done|]. split; [by constructor|]. split; [by constructor|].
      split; [cbn; lia|]. split.
      * constructor; [|done]. exists item, d. split; [by left|done].
      * rewrite Hsent. cbn [after sent map]. by rewrite <- app_assoc.
Qed.

(** X6. Each bucket [analyze_prs] returns lists its records in the order of
    the items they come from: it is a subsequence of the records of the
    items that are not skipped. *)
Theorem analyze_prs_order session (items : list json) (n n' : Net) r :
  analyze_prs session items n = (Ok r, n') →
  ∃ ds, pr_records items = Ok ds
        ∧ senza_bocciature r `sublist_of` ds
        ∧ bocciate_poi_approvate r `sublist_of` ds.
Proof.
  unfold analyze_prs, bind, ret. intros Hrun.
  destruct (analyze_loop session items [] [] n) as [[acc| |] n1] eqn:Hloop; try discriminate.
  injection Hrun as <- _.
  destruct (analyze_loop_trace _ _ _ _ _ _ _ Hloop)
    as (ds & s' & b' & urls & Hds & -> & Hs & Hb & _).
  by exists ds.
Qed.

(** what the loop reads from each item, and the requests it sends: one
    for each item that is not skipped, in the order of the items *)
Lemma analyze_loop_fields session items :
  ∀ senza bocciate (n n' : Net) acc,
    analyze_loop session items senza bocciate n = (Ok acc, n') →
    ∃ fields : list (option (string * PrData)),
      Forall2 (λ item f, pr_fields item
                         = Ok (match f with
                               | Some (u, d) => Some (JStr u, d)
                               | None => None
                               end)) items fields
      ∧ sent n' = sent n ++ map (reviews_request session) (omap id fields).*1
      ∧ pr_records items = Ok (omap id fields).*2.
Proof.
  induction items as [|item rest IH]; intros senza bocciate n n' acc Hrun.
  - injection Hrun as <- <-. exists []. cbn. by rewrite app_nil_r.
  - cbn [analyze_loop] in Hrun. unfold bind in Hrun.
    destruct (analyze_item session item senza bocciate n) as [[acc1| |] n1] eqn:Hitem;
      try discriminate.
    destruct (IH _ _ _ _ _ Hrun) as (fields & Hfields & Hsent & Hds).
    cbn [pr_records]. rewrite Hds.
    apply analyze_item_inv_net in Hitem as [(Hf & _ & ->)|(u & d & Hf & -> & _)];
      rewrite Hf; cbn [res_bind].
    + exists (None :: fields). split; [by constructor|]. by split.
    + exists (Some (u, d) :: fields). split; [by constructor|]. split; [|done].
      rewrite Hsent. cbn [after sent omap id fmap list_fmap map fst].
      by rewrite <- app_assoc.
Qed.

(** X7. [analyze_prs] sends exactly one request for each item it does not
    skip, in the order of the items, and no other: going through the items
    one by one, an item that is skipped adds nothing to the session and an
    item that is not adds the reviews request of its pull request URL; the
    requests are as many as the "totale" it reports. *)
Theorem analyze_prs_requests session (items : list json) (n n' : Net) r :
  analyze_prs session items n = (Ok r, n') →
  ∃ fields : list (option (string * PrData)),
    Forall2 (λ item f, pr_fields item
                       = Ok (match f with
                             | Some (u, d) => Some (JStr u, d)
                             | None => None
                             end)) items fields
    ∧ sent n' = sent n ++ map (reviews_request session) (omap id fields).*1
    ∧ Py.len (omap id fields) = totale r.
Proof.
  unfold analyze_prs, bind, ret. intros Hrun.
  destruct (analyze_loop session items [] [] n) as [[acc| |] n1] eqn:Hloop; try discriminate.
  injection Hrun as <- <-.
  destruct (analyze_loop_inv _ _ _ _ _ _ _ Hloop) as (ds & Hds & Hperm).
  destruct (analyze_loop_fields _ _ _ _ _ _ _ Hloop) as (fields & Hfields & Hsent & Hds').
  exists fields. split; [done|]. split; [done|].
  cbn [totale app] in *. rewrite Hds in Hds'. injection Hds' as ->.
  apply Permutation_length in Hperm. rewrite length_app, length_fmap in Hperm.
  unfold Py.len. lia.
Qed.

End PrLoopMore.

Section PrLoopFailure.

Context `{Server}.
Import PrAnalytics.

Lemma analyze_item_raise session item senza bocciate (n : Net) e :
  pr_fields item = Raise e →
  analyze_item session item senza bocciate n = (Raise e, n).
Proof.
  unfold pr_fields, analyze_item, bind, lift. intros Hf.
  destruct item as [| | | | |kvs]; try by injection Hf as <-.
  cbn [Py.get res_bind] in *.
  destruct (Py.assoc "pull_request" kvs) as [pr_info|] eqn:Hpr; [|done].
  destruct (negb (Py.truthy pr_info)); [done|].
  destruct pr_info as [| | | | |pkvs]; try by injection Hf as <-.
  cbn [Py.subscript Py.get res_bind] in *.
  destruct (Py.assoc "url" pkvs); [|by injection Hf as <-]. cbn [res_bind] in *.
  destruct (Py.assoc "number" kvs); [|by injection Hf as <-]. cbn [res_bind] in *.
  destruct (Py.assoc "title" kvs); [|by injection Hf as <-]. cbn [res_bind] in *.
  by destruct (repo_name (JObj kvs)) as [r| |]; [|injection Hf as <-|].
Qed.

(** X8. [analyze_prs] is all or nothing. An item that is not skipped and
    lacks what a record needs (its "number" or "title", the "url" of its
    "pull_request", a string as repository URL) raises, and the exception
    ends the analysis: the items before it were processed, no reviews are
    asked for it or for the items after it, and no bucket is returned. *)
Theorem analyze_prs_aborts session (pre post : list json) (item : json) (n n1 : Net)
    acc e :
  analyze_loop session pre [] [] n = (Ok acc, n1) →
  pr_fields item = Raise e →
  analyze_prs session (pre ++ item :: post) n = (Raise e, n1).
Proof.
  intros Hpre Hf. unfold analyze_prs. unfold bind at 1.
  rewrite analyze_loop_app. unfold bind at 1. rewrite Hpre.
  cbn [analyze_loop]. unfold bind at 1. by rewrite (analyze_item_raise _ _ _ _ _ _ Hf).
Qed.

End PrLoopFailure.

Lemma analyze_prs_order_witness :
  let items := [pull 3 (pr_info "3"); issue 2 "closed" []; pull 1 (pr_info "1");
                pull 4 (pr_info "4"); pull 2 (pr_info "2")] in
  ∃ ds, PrAnalytics.pr_records items = Ok ds
        ∧ [pr_record 1; pr_record 2] `sublist_of` ds
        ∧ [pr_record 3; pr_record 4] `sublist_of` ds.
Proof.
  intros items.
  apply (analyze_prs_order (H := reviews_server) no_session items reviews_start
           (PrAnalytics.analyze_prs (H := reviews_server) no_session items reviews_start).2
           {| PrAnalytics.senza_bocciature := [pr_record 1; pr_record 2];
              PrAnalytics.bocciate_poi_approvate := [pr_record 3; pr_record 4];
              PrAnalytics.totale := 4 |}).
  reflexivity.
Defined.

Lemma analyze_prs_requests_witness :
  let items := [pull 3 (pr_info "3"); issue 2 "closed" []; pull 1 (pr_info "1/")] in
  ∃ fields : list (option (string * PrAnalytics.PrData)),
    Forall2 (λ item f, PrAnalytics.pr_fields item
                       = Ok (match f with
                             | Some (u, d) => Some (JStr u, d)
                             | None => None
                             end)) items fields
    ∧ [PrAnalytics.reviews_request no_session (pulls_url "3");
       PrAnalytics.reviews_request no_session (pulls_url "1")]
      = sent reviews_start
        ++ map (PrAnalytics.reviews_request no_session) (omap id fields).*1
    ∧ Py.len (omap id fields) = 2.
Proof.
  intros items.
  apply (analyze_prs_requests (H := reviews_server) no_session items reviews_start
           {| world := tt : @World reviews_server;
              sent := [PrAnalytics.reviews_request no_session (pulls_url "3");
                       PrAnalytics.reviews_request no_session (pulls_url "1")] |}
           {| PrAnalytics.senza_bocciature := [pr_record 1];
              PrAnalytics.bocciate_poi_approvate := [pr_record 3];
              PrAnalytics.totale := 2 |}).
  reflexivity.
Defined.

Lemma analyze_prs_aborts_witness :
  let untitled := JObj [("number", JNum 2); ("pull_request", pr_info "2")] in
  PrAnalytics.analyze_prs (H := reviews_server) no_session
    ([pull 1 (pr_info "1")] ++ untitled :: [pull 3 (pr_info "3")]) reviews_start
  = (Raise (KeyError "title"),
     {| world := tt : @World reviews_server;
        sent := [PrAnalytics.reviews_request no_session (pulls_url "1")] |}).
Proof.
  intros untitled.
  apply (analyze_prs_aborts (H := reviews_server) no_session [pull 1 (pr_info "1")]
           [pull 3 (pr_info "3")] untitled reviews_start _ ([pr_record 1], []));
    reflexivity.
Defined.

(** ** The classifier of pipeline 1: counts and labels *)

Lemma map_res_length {A B} (f : A → res B) l ys :
  map_res f l = Ok ys → length ys = length l.
Proof. intros Hm%map_res_Forall2. symmetry. by eapply Forall2_length. Qed.

Lemma filter_res_Forall {A} (P : A → Prop) (p : A → res bool) l ys :
  filter_res p l = Ok ys → Forall P l → Forall P ys.
Proof.
  revert ys. induction l as [|x l IH]; intros ys Hf Hall; cbn [filter_res] in Hf.
  - by injection Hf as <-.
  - apply Forall_cons in Hall as [Hx Hall]. do 2 res_head Hf. injection Hf as <-.
    destruct a; [constructor|]; auto.
Qed.

Lemma has_bug_label_loop_false ls :
  BugAnalytics.has_bug_label_loop ls = Ok false →
  Forall (λ l, ∃ name, Py.get l "name" (JStr "") = Ok (JStr name) ∧ name ∉ bug_casings) ls.
Proof.
  induction ls as [|l ls IH]; intros Hloop; [constructor|].
  cbn [BugAnalytics.has_bug_label_loop] in Hloop.
  destruct (Py.get l "name" (JStr "")) as [v| |] eqn:Hv; try discriminate.
  destruct v as [| | |name| |]; try discriminate. cbn [res_bind Py.lower] in Hloop.
  destruct (String.eqb_spec (Py.lower_string name) "bug") as [E|E]; [discriminate|].
  rewrite lower_string_bug in E. constructor; [by exists name|by apply IH].
Qed.

Lemma no_bug_label_names item ls :
  BugAnalytics.has_bug_label item = Ok false →
  BugAnalytics.label_names item = Ok ls →
  Forall (λ l, ∃ name, l = JStr name ∧ name ∉ bug_casings) ls.
Proof.
  unfold BugAnalytics.has_bug_label, BugAnalytics.label_names. intros Hbug Hnames.
  destruct (Py.get item "labels" (JArr [])) as [v| |]; try discriminate.
  cbn [res_bind] in *. destruct (Py.iter v) as [labels| |]; try discriminate.
  cbn [res_bind] in *. apply has_bug_label_loop_false in Hbug.
  apply map_res_Forall2 in Hnames.
  induction Hnames as [|l x labels ls Hl _ IH]; [constructor|].
  apply Forall_cons in Hbug as [(name & Hget & Hname) Hbug].
  constructor; [|by apply IH]. exists name. split; [|done].
  destruct l as [| | | | |kvs]; try discriminate. cbn in Hl, Hget.
  destruct (Py.assoc "name" kvs); [|discriminate]. congruence.
Qed.

Lemma format_issue_labels item rec :
  BugAnalytics.format_issue item = Ok rec →
  BugAnalytics.label_names item = Ok (BugAnalytics.labels rec).
Proof.
  unfold BugAnalytics.format_issue. intros Hf. repeat res_head Hf.
  by injection Hf as <-.
Qed.

Lemma format_pr_labels item rec :
  BugAnalytics.format_pr item = Ok rec →
  BugAnalytics.label_names item = Ok (BugAnalytics.labels rec).
Proof.
  unfold BugAnalytics.format_pr. intros Hf. repeat res_head Hf.
  by injection Hf as <-.
Qed.

Section IssueBuckets.

Context `{Server}.
Import BugAnalytics.

Lemma analyze_issues_counts fuel session (org from_date to_date : string)
    (n n' : Net) (r : Results) :
  analyze_issues fuel session org from_date to_date n = (Ok r, n') →
  totale_aperti (bug r) = Py.len (aperti (bug r))
  ∧ totale_risolti (bug r) = Py.len (risolti (bug r))
  ∧ totale_aperti (non_bug r) = Py.len (aperti (non_bug r))
  ∧ totale_risolti (non_bug r) = Py.len (risolti (non_bug r))
  ∧ periodo r = (from_date, to_date).
Proof.
  unfold analyze_issues, bind, lift, ret. intros Hrun.
  do 14 m_head Hrun. injection Hrun as <- _.
  cbn [bug non_bug aperti risolti totale_aperti totale_risolti periodo]. unfold Py.len.
  repeat match goal with
    | Hm : map_res _ _ = Ok _ |- _ => apply map_res_length in Hm as ->
    end.
  done.
Qed.

(** X9. In a result of [analyze_issues] every reported count is the length
    of the list it stands beside: "totale_aperti" of "aperti" and
    "totale_risolti" of "risolti", for bugs and for non-bugs; and "periodo"
    holds the two dates the analysis was asked for. *)
Theorem analyze_issues_totals fuel session (org from_date to_date : string)
    (n n' : Net) (r : Results) :
  analyze_issues fuel session org from_date to_date n = (Ok r, n') →
  totale_aperti (bug r) = Py.len (aperti (bug r))
  ∧ totale_risolti (bug r) = Py.len (risolti (bug r))
  ∧ totale_aperti (non_bug r) = Py.len (aperti (non_bug r))
  ∧ totale_risolti (non_bug r) = Py.len (risolti (non_bug r))
  ∧ periodo r = (from_date, to_date).
Proof. apply analyze_issues_counts. Qed.

(** X10. No record in a non-bug bucket of a result of [analyze_issues],
    open or resolved, carries a label named "bug" in any casing: every one
    of its labels is a string, and none of the eight spellings. *)
Theorem analyze_issues_non_bug_labels fuel session (org from_date to_date : string)
    (n n' : Net) (r : Results) :
  analyze_issues fuel session org from_date to_date n = (Ok r, n') →
  Forall (λ rec, Forall (λ l, ∃ name, l = JStr name ∧ name ∉ bug_casings) (labels rec))
    (aperti (non_bug r) ++ risolti (non_bug r)).
Proof.
  unfold analyze_issues, bind, lift, ret. intros Hrun.
  do 14 m_head Hrun. injection Hrun as <- _. cbn [non_bug aperti risolti].
  assert (∀ found recs (format : json → res IssueRecord),
            (∀ item rec, format item = Ok rec → label_names item = Ok (labels rec)) →
            Forall (λ item, has_bug_label item = Ok false) found →
            map_res format found = Ok recs →
            Forall (λ rec,
                      Forall (λ l, ∃ name, l = JStr name ∧ name ∉ bug_casings) (labels rec))
              recs) as Hbucket.
  { intros found recs format Hlabels Hfound Hrecs%map_res_Forall2.
    induction Hrecs as [|item rec found recs Hf _ IH]; [constructor|].
    apply Forall_cons in Hfound as [Hitem Hfound]. constructor; [|by apply IH].
    eapply no_bug_label_names; [done|]. by apply Hlabels. }
  repeat match goal with
    | Hs : search_issues _ _ _ _ _ (Some false) _ = (Ok _, _) |- _ =>
        apply search_loop_non_bug in Hs; [|constructor]
    | Hs : search_merged_prs _ _ _ _ _ (Some false) _ = (Ok _, _) |- _ =>
        apply search_loop_non_bug in Hs; [|constructor]
    end.
  apply Forall_app. split.
  - eapply (Hbucket _ _ format_issue); [apply format_issue_labels| |eassumption].
    eapply filter_res_Forall; eassumption.
  - eapply (Hbucket _ _ format_pr); [apply format_pr_labels| |eassumption]. eassumption.
Qed.

End IssueBuckets.

Lemma analyze_issues_totals_witness :
  let server :=
    paged_server [[issue 1 "open" [label "bug"]; issue 2 "closed" [label "bug"];
                   issue 3 "closed" []; issue 4 "open" []]] in
  ∃ r n',
    BugAnalytics.analyze_issues (H := server) 2 no_session "acme" "2024-01-01" "2024-01-31"
      (@start server tt) = (Ok r, n')
    ∧ BugAnalytics.totale_risolti (BugAnalytics.bug r) = 4
    ∧ BugAnalytics.totale_aperti (BugAnalytics.bug r)
      = Py.len (BugAnalytics.aperti (BugAnalytics.bug r))
    ∧ BugAnalytics.totale_risolti (BugAnalytics.bug r)
      = Py.len (BugAnalytics.risolti (BugAnalytics.bug r))
    ∧ BugAnalytics.totale_aperti (BugAnalytics.non_bug r)
      = Py.len (BugAnalytics.aperti (BugAnalytics.non_bug r))
    ∧ BugAnalytics.totale_risolti (BugAnalytics.non_bug r)
      = Py.len (BugAnalytics.risolti (BugAnalytics.non_bug r))
    ∧ BugAnalytics.periodo r = ("2024-01-01", "2024-01-31").
Proof.
  intros server. do 2 eexists. split; [reflexivity|]. split; [reflexivity|].
  eapply (analyze_issues_totals (H := server) 2 no_session "acme" "2024-01-01"
            "2024-01-31" (@start server tt)).
  reflexivity.
Defined.

Lemma analyze_issues_non_bug_labels_witness :
  let server :=
    paged_server [[issue 1 "open" [label "bug"]; issue 2 "closed" [label "BUG"];
                   issue 3 "closed" [label "docs"]; issue 4 "open" [label "debug"]]] in
  ∃ r n',
    BugAnalytics.analyze_issues (H := server) 2 no_session "acme" "2024-01-01" "2024-01-31"
      (@start server tt) = (Ok r, n')
    ∧ BugAnalytics.totale_aperti (BugAnalytics.non_bug r) = 1
    ∧ BugAnalytics.totale_risolti (BugAnalytics.non_bug r) = 2
    ∧ Forall (λ rec, Forall (λ l, ∃ name, l = JStr name ∧ name ∉ bug_casings)
                       (BugAnalytics.labels rec))
        (BugAnalytics.aperti (BugAnalytics.non_bug r)
         ++ BugAnalytics.risolti (BugAnalytics.non_bug r)).
Proof.
  intros server. do 2 eexists. split; [reflexivity|]. split; [reflexivity|].
  split; [reflexivity|].
  eapply (analyze_issues_non_bug_labels (H := server) 2 no_session "acme" "2024-01-01"
            "2024-01-31" (@start server tt)).
  reflexivity.
Defined.

(** ** Session builder, bug labels and review URLs: edges *)

(** X11. A non-empty token passed explicitly wins over the environment: the
    session carries it as bearer token whatever GITHUB_TOKEN is, sets the
    three fixed headers, and keeps every other header of a fresh session. *)
Theorem get_github_session_explicit_token
    (default_headers : gmap string string) (user_agent : string)
    (environ : gmap string string) (token : string) :
  token ≠ "" →
  ∃ session,
    get_github_session default_headers user_agent environ (Some token) = Ok session
    ∧ headers session !! "Authorization" = Some ("Bearer " +:+ token)
    ∧ headers session !! "Accept" = Some "application/vnd.github+json"
    ∧ headers session !! "X-GitHub-Api-Version" = Some "2022-11-28"
    ∧ headers session !! "User-Agent" = Some user_agent
    ∧ ∀ k, k ∉ ["Authorization"; "Accept"; "X-GitHub-Api-Version"; "User-Agent"] →
           headers session !! k = default_headers !! k.
Proof.
  intros Hne.
  assert (str_truthy (Some token) = true) as Ht
    by (cbn [str_truthy]; by apply String.eqb_neq in Hne as ->).
  unfold get_github_session. rewrite Ht. cbn [negb]. rewrite Ht. cbn [negb default].
  eexists. split; [reflexivity|]. cbn [headers].
  split; [by rewrite !lookup_insert_ne, lookup_insert_eq by done|].
  split; [by rewrite !lookup_insert_ne, lookup_insert_eq by done|].
  split; [by rewrite !lookup_insert_ne, lookup_insert_eq by done|].
  split; [by rewrite lookup_insert_eq|].
  intros k Hk. rewrite !not_elem_of_cons in Hk. destruct Hk as (? & ? & ? & ? & _).
  by rewrite !lookup_insert_ne by done.
Qed.

Lemma get_github_session_explicit_token_witness :
  ∃ session,
    get_github_session {[ "Connection" := "keep-alive" ]} "bug-analytics-script"
      {[ "GITHUB_TOKEN" := "from-env" ]} (Some "from-flag") = Ok session
    ∧ headers session !! "Authorization" = Some ("Bearer " +:+ "from-flag")
    ∧ headers session !! "Accept" = Some "application/vnd.github+json"
    ∧ headers session !! "X-GitHub-Api-Version" = Some "2022-11-28"
    ∧ headers session !! "User-Agent" = Some "bug-analytics-script"
    ∧ ∀ k, k ∉ ["Authorization"; "Accept"; "X-GitHub-Api-Version"; "User-Agent"] →
           headers session !! k
           = ({[ "Connection" := "keep-alive" ]} : gmap string string) !! k.
Proof.
  by apply (get_github_session_explicit_token {[ "Connection" := "keep-alive" ]}
              "bug-analytics-script" {[ "GITHUB_TOKEN" := "from-env" ]} "from-flag").
Defined.

Lemma has_bug_label_loop_app pre names rest :
  Forall2 (λ l name, Py.get l "name" (JStr "") = Ok (JStr name)) pre names →
  Forall (λ name, name ∉ bug_casings) names →
  BugAnalytics.has_bug_label_loop (pre ++ rest) = BugAnalytics.has_bug_label_loop rest.
Proof.
  induction 1 as [|l name pre names Hl _ IH]; intros Hno; [done|].
  apply Forall_cons in Hno as [Hname Hno].
  cbn [app BugAnalytics.has_bug_label_loop]. rewrite Hl. cbn [res_bind Py.lower].
  destruct (String.eqb_spec (Py.lower_string name) "bug") as [E|_]; [|by apply IH].
  by apply lower_string_bug in E.
Qed.

(** X12. [has_bug_label] is decided by the first label that is named "bug"
    or has no string as name, and looks at no label after it: a bug label
    gives true whatever follows, and a label whose name is not a string (or
    that is not an object) raises, so that an item with such a label before
    any bug label cannot be classified. *)
Theorem has_bug_label_first_decides (item : json) (pre post : list json)
    (names : list string) (l : json) :
  Py.get item "labels" (JArr []) = Ok (JArr (pre ++ l :: post)) →
  Forall2 (λ l name, Py.get l "name" (JStr "") = Ok (JStr name)) pre names →
  Forall (λ name, name ∉ bug_casings) names →
  (∀ name, Py.get l "name" (JStr "") = Ok (JStr name) → name ∈ bug_casings →
           BugAnalytics.has_bug_label item = Ok true)
  ∧ (∀ v, Py.get l "name" (JStr "") = Ok v → (∀ name, v ≠ JStr name) →
          BugAnalytics.has_bug_label item = Raise AttributeError)
  ∧ (∀ e, Py.get l "name" (JStr "") = Raise e →
          e = AttributeError ∧ BugAnalytics.has_bug_label item = Raise AttributeError).
Proof.
  intros Hlabels Hpre Hno. unfold BugAnalytics.has_bug_label.
  rewrite Hlabels. cbn [res_bind Py.iter].
  rewrite (has_bug_label_loop_app _ _ _ Hpre Hno).
  cbn [BugAnalytics.has_bug_label_loop]. split; [|split].
  - intros name -> Hname%lower_string_bug. cbn [res_bind Py.lower].
    by apply String.eqb_eq in Hname as ->.
  - intros v -> Hv. cbn [res_bind]. destruct v; try done. by destruct (Hv s).
  - intros e He. rewrite He. cbn [res_bind].
    destruct l; cbn in He; try discriminate; by injection He as <-.
Qed.

Lemma has_bug_label_first_decides_witness :
  BugAnalytics.has_bug_label
    (issue 1 "open" [label "docs"; label "BUG"; JObj [("name", JNull)]; JStr "x"]) = Ok true
  ∧ BugAnalytics.has_bug_label
      (issue 2 "open" [label "docs"; JObj [("name", JNull)]; label "bug"])
    = Raise AttributeError.
Proof.
  split.
  - apply (proj1 (has_bug_label_first_decides
                    (issue 1 "open" [label "docs"; label "BUG"; JObj [("name", JNull)];
                                     JStr "x"])
                    [label "docs"] [JObj [("name", JNull)]; JStr "x"] ["docs"] (label "BUG")
                    eq_refl ltac:(by repeat constructor)
                    ltac:(by apply (bool_decide_unpack _))) "BUG" eq_refl).
    by apply (bool_decide_unpack _).
  - by apply (proj1 (proj2 (has_bug_label_first_decides
                              (issue 2 "open" [label "docs"; JObj [("name", JNull)];
                                               label "bug"])
                              [label "docs"] [label "bug"] ["docs"] (JObj [("name", JNull)])
                              eq_refl ltac:(by repeat constructor)
                              ltac:(by apply (bool_decide_unpack _)))) JNull eq_refl).
Defined.

Lemma rstrip_string_slash u :
  Py.rstrip_string "/" (u +:+ "/") = Py.rstrip_string "/" u.
Proof.
  induction u as [|a u IH]; [done|].
  rewrite string_app_cons. cbn [Py.rstrip_string]. by rewrite IH.
Qed.

Lemma string_app_nil_l (s : string) : "" +:+ s = s.
Proof. reflexivity. Qed.

Lemma rstrip_string_no_slash u :
  ∀ p, Py.rstrip_string "/" u ≠ p +:+ "/".
Proof.
  induction u as [|a u IH]; intros p.
  - destruct p; rewrite ?string_app_nil_l, ?string_app_cons; discriminate.
  - cbn [Py.rstrip_string]. destruct (Py.rstrip_string "/" u) as [|b r] eqn:E.
    + destruct (Ascii.eqb_spec a "/") as [->|Hne].
      * destruct p; rewrite ?string_app_nil_l, ?string_app_cons; discriminate.
      * destruct p as [|c p]; rewrite ?string_app_nil_l, ?string_app_cons.
        -- intros [= ->]. by destruct Hne.
        -- intros Heq. injection Heq as _ Hp. destruct p; discriminate Hp.
    + destruct p as [|c p]; rewrite ?string_app_nil_l, ?string_app_cons.
      * intros Heq. injection Heq as _ Hr. discriminate Hr.
      * intros Heq. injection Heq as _ Hr. by apply (IH p).
Qed.

(** what [rstrip] removes is the slashes the string ends in *)
Lemma rstrip_string_tail u :
  ∃ slashes, u = Py.rstrip_string "/" u +:+ slashes
             ∧ Forall (λ c, c = "/"%char) (list_ascii_of_string slashes).
Proof.
  induction u as [|a u (slashes & Hu & Hall)].
  - by exists "".
  - cbn [Py.rstrip_string]. destruct (Py.rstrip_string "/" u) as [|b r].
    + rewrite string_app_nil_l in Hu. subst u.
      destruct (Ascii.eqb_spec a "/") as [->|_].
      * exists (String "/" slashes). split; [done|]. by constructor.
      * exists slashes. by rewrite string_app_cons, string_app_nil_l.
    + exists slashes. split; [|done]. rewrite string_app_cons. by f_equal.
Qed.

Section ReviewUrl.

Context `{Server}.
Import PrAnalytics.

(** X13. [get_reviews_for_pr] sends one request, with the headers of the
    session and no parameters, to the pull request URL without the slashes
    it ends in, followed by "/reviews", and returns the body of a response
    with status 200 and the empty list for any other status. So a URL and
    the same URL with a slash added give the same request and outcome, and
    the URL asked never has a slash before "/reviews". A URL that is not a
    string raises before anything is sent. *)
Theorem get_reviews_for_pr_trailing_slash session (pr_api_url : string) (n : Net) :
  (∃ stem slashes,
     pr_api_url = stem +:+ slashes
     ∧ Forall (λ c, c = "/"%char) (list_ascii_of_string slashes)
     ∧ (∀ p, stem ≠ p +:+ "/")
     ∧ let req := {| req_headers := headers session;
                     req_url := stem +:+ "/reviews";
                     req_params := [] |} in
       let resp := (serve req (world n)).1 in
       get_reviews_for_pr session (JStr pr_api_url) n
       = (if status_code resp =? 200 then resp_json resp else Ok (JArr []),
          {| world := (serve req (world n)).2; sent := sent n ++ [req] |}))
  ∧ get_reviews_for_pr session (JStr (pr_api_url +:+ "/")) n
    = get_reviews_for_pr session (JStr pr_api_url) n
  ∧ ∀ v, (∀ u, v ≠ JStr u) → get_reviews_for_pr session v n = (Raise AttributeError, n).
Proof.
  split; [|split].
  - destruct (rstrip_string_tail pr_api_url) as (slashes & Hu & Hall).
    exists (Py.rstrip_string "/" pr_api_url), slashes.
    split; [done|]. split; [done|]. split; [apply rstrip_string_no_slash|].
    apply get_reviews_for_pr_eq.
  - rewrite !get_reviews_for_pr_eq. unfold reviews_request.
    by rewrite rstrip_string_slash.
  - intros v Hv. destruct v; try done. by destruct (Hv s).
Qed.

End ReviewUrl.

Lemma get_reviews_for_pr_trailing_slash_witness :
  (∃ stem slashes,
     pulls_url "3//" = stem +:+ slashes
     ∧ Forall (λ c, c = "/"%char) (list_ascii_of_string slashes)
     ∧ stem +:+ "/reviews" = pulls_url "3/reviews")
  ∧ PrAnalytics.get_reviews_for_pr (H := reviews_server) no_session
      (JStr (pulls_url "3//")) reviews_start
    = PrAnalytics.get_reviews_for_pr (H := reviews_server) no_session
        (JStr (pulls_url "3/")) reviews_start.
Proof.
  split.
  - destruct (proj1 (get_reviews_for_pr_trailing_slash (H := reviews_server) no_session
                       (pulls_url "3//") reviews_start))
      as (stem & slashes & Hu & Hall & _ & Hget).
    exists stem, slashes. split; [done|]. split; [done|].
    assert (PrAnalytics.get_reviews_for_pr (H := reviews_server) no_session
              (JStr (pulls_url "3//")) reviews_start
            = (Ok (JArr [review "CHANGES_REQUESTED"; review "APPROVED"]),
               {| world := tt : @World reviews_server;
                  sent := [PrAnalytics.reviews_request no_session (pulls_url "3")] |}))
      as Hrun by reflexivity.
    rewrite Hrun in Hget. apply (f_equal (λ run, map req_url (sent run.2))) in Hget.
    cbn [snd sent app map req_url reviews_start start] in Hget.
    injection Hget as Hurl. by rewrite <- Hurl.
  - exact (proj1 (proj2 (get_reviews_for_pr_trailing_slash (H := reviews_server) no_session
                           (pulls_url "3/") reviews_start))).
Defined.


(** ** CSV exports *)

Lemma strings_of_cases (l : list json) :
  (∃ ss, strings_of l = Ok ss ∧ Forall (λ v, ∃ s, v = JStr s) l)
  ∨ (strings_of l = Raise TypeError ∧ ¬ Forall (λ v, ∃ s, v = JStr s) l).
Proof.
  induction l as [|v l IH]; [left; by exists []|].
  destruct v as [| | |s| |];
    try (right; split; [done|]; by intros [[? [=]] _]%Forall_cons).
  cbn [strings_of]. destruct IH as [(ss & -> & Hall)|[-> Hno]].
  - left. exists (s :: ss). split; [done|]. constructor; [by exists s|done].
  - right. split; [done|]. by intros [_ ?]%Forall_cons.
Qed.

Section BugCsv.

Import BugAnalytics BugReport.

Lemma csv_row_cases tipo stato issue :
  (∃ row, csv_row tipo stato issue = Ok row ∧ string_labels issue)
  ∨ (csv_row tipo stato issue = Raise TypeError ∧ ¬ string_labels issue).
Proof.
  unfold csv_row, join_values, string_labels.
  destruct (strings_of_cases (labels issue)) as [(ss & -> & Hall)|[-> Hno]].
  - left. by eexists.
  - by right.
Qed.

Lemma row_of_cells tagged row :
  row_of tagged row →
  length row = 9%nat ∧ row !! 0%nat = Some (JStr tagged.1.1)
  ∧ row !! 1%nat = Some (JStr tagged.1.2) ∧ string_labels tagged.2.
Proof.
  unfold row_of. intros Hrow.
  destruct (csv_row_cases tagged.1.1 tagged.1.2 tagged.2) as [(row' & Hr & Hs)|[Hr _]];
    [|congruence].
  split; [|split; [|split; [|done]]];
    unfold csv_row in Hrow; res_head Hrow; by injection Hrow as <-.
Qed.

Lemma write_rows_exported tipo stato issues :
  ∀ done written,
    exported done (Ok tt, written) →
    exported (done ++ map (pair (tipo, stato)) issues) (write_rows tipo stato issues written).
Proof.
  induction issues as [|issue issues IH]; intros done written Hst.
  - by rewrite app_nil_r.
  - cbn [write_rows map].
    destruct Hst as (rows & Hw & [(_ & Hrows)|([=] & _)]). cbn [snd] in Hw.
    destruct (csv_row_cases tipo stato issue) as [(row & Hrow & Hissue)|[Hrow Hno]];
      rewrite Hrow.
    + replace (done ++ (tipo, stato, issue) :: map (pair (tipo, stato)) issues)
        with ((done ++ [(tipo, stato, issue)]) ++ map (pair (tipo, stato)) issues)
        by by rewrite <- app_assoc.
      apply IH. exists (rows ++ [row]). cbn [fst snd]. rewrite Hw.
      split; [done|]. left. split; [done|].
      apply Forall2_app; [done|]. by repeat constructor.
    + exists rows. cbn [fst snd]. split; [done|]. right. split; [done|].
      by exists done, (tipo, stato, issue), (map (pair (tipo, stato)) issues).
Qed.

Lemma and_then_exported tipo stato issues done st :
  exported done st →
  exported (done ++ map (pair (tipo, stato)) issues)
    (and_then (write_rows tipo stato issues) st).
Proof.
  intros Hst. destruct st as [[[]|e|] written].
  - by apply write_rows_exported.
  - destruct Hst as (rows & Hw & [([=] & _)|(He & pre & stopped & post & -> & Hpre & Hno)]).
    exists rows. cbn [and_then fst snd] in *. split; [done|]. right. split; [done|].
    exists pre, stopped, (post ++ map (pair (tipo, stato)) issues).
    by rewrite <- app_assoc.
  - by destruct Hst as (rows & _ & [([=] & _)|([=] & _)]).
Qed.

Lemma export_csv_exported results : exported (records results) (export_csv results).
Proof.
  unfold export_csv, records. rewrite !app_assoc.
  do 3 apply and_then_exported.
  apply (write_rows_exported _ _ _ [] [csv_header]).
  exists []. cbn. split; [done|]. left. by split; [|constructor].
Qed.

(** X14. The CSV export of pipeline 1 writes the header and then one row of
    nine cells for each record, in the order bug open, bug resolved, non-bug
    open, non-bug resolved, its first two cells telling the bucket. It
    succeeds exactly when every label of every record is a string; otherwise
    it raises a [TypeError] at the first record with another label, leaving
    the rows of the records before it. For a result of [analyze_issues] the
    number of rows of a successful export is one more than the sum of the
    four counts of the result. *)
Theorem export_csv_rows (results : Results) :
  exported (records results) (export_csv results)
  ∧ (∀ rows, (export_csv results).2 = csv_header :: rows →
             (length rows ≤ length (records results))%nat
             ∧ Forall (λ row, length row = 9%nat) rows)
  ∧ ((export_csv results).1 = Ok tt
     ↔ Forall (λ tagged, string_labels tagged.2) (records results))
  ∧ ∀ (server : Server) fuel session org from_date to_date (n n' : Net),
      analyze_issues fuel session org from_date to_date n = (Ok results, n') →
      (export_csv results).1 = Ok tt →
      Py.len (export_csv results).2
      = 1 + totale_aperti (bug results) + totale_risolti (bug results)
        + totale_aperti (non_bug results) + totale_risolti (non_bug results).
Proof.
  pose proof (export_csv_exported results) as Hexp. split; [done|].
  destruct Hexp as (rows & Hw & Hcases).
  assert (∀ done rows', Forall2 row_of done rows' →
            Forall (λ row, length row = 9%nat) rows'
            ∧ Forall (λ tagged, string_labels tagged.2) done) as Hcells.
  { intros done rows' Hall. induction Hall as [|t row done rows' Hrow%row_of_cells _ [? ?]];
      [by split|]. destruct Hrow as (? & _ & _ & ?). by split; constructor. }
  destruct Hcases as [(Hok & Hrows)|(Herr & pre & stopped & post & Hdone & Hpre & Hno)].
  - destruct (Hcells _ _ Hrows) as [Hnine Hstr].
    pose proof (Forall2_length _ _ _ Hrows) as Hlen.
    split; [intros rows' Hw'; rewrite Hw in Hw'; injection Hw' as <-; split; [lia|done]|].
    split; [done|].
    intros server fuel session org from_date to_date n n' Hrun _.
    destruct (analyze_issues_counts _ _ _ _ _ _ _ _ Hrun) as (-> & -> & -> & -> & _).
    rewrite Hw. unfold Py.len. cbn [length]. rewrite <- Hlen. unfold records.
    rewrite !length_app, !length_map. lia.
  - destruct (Hcells _ _ Hpre) as [Hnine _].
    pose proof (Forall2_length _ _ _ Hpre) as Hlen.
    split.
    { intros rows' Hw'. rewrite Hw in Hw'. injection Hw' as <-. split; [|done].
      rewrite Hdone, length_app. lia. }
    split.
    { rewrite Herr. split; [done|]. rewrite Hdone.
      by intros [_ [? _]%Forall_cons]%Forall_app. }
    intros server fuel session org from_date to_date n n' _. by rewrite Herr.
Qed.

End BugCsv.

Lemma export_csv_rows_witness :
  let unlabelled :=
    {| BugAnalytics.number := JNum 1; BugAnalytics.title := JStr "t";
       BugAnalytics.url := JStr ""; BugAnalytics.repo := "widgets";
       BugAnalytics.state := JStr "open"; BugAnalytics.created_at := JStr "";
       BugAnalytics.closed_at := JStr ""; BugAnalytics.merged_at := JStr "";
       BugAnalytics.labels := [JStr "docs"; JStr "ui"] |} in
  let odd :=
    {| BugAnalytics.number := JNum 2; BugAnalytics.title := JStr "t";
       BugAnalytics.url := JStr ""; BugAnalytics.repo := "widgets";
       BugAnalytics.state := JStr "open"; BugAnalytics.created_at := JStr "";
       BugAnalytics.closed_at := JStr ""; BugAnalytics.merged_at := JStr "";
       BugAnalytics.labels := [JNull] |} in
  let results :=
    {| BugAnalytics.bug :=
         {| BugAnalytics.aperti := [unlabelled]; BugAnalytics.risolti := [odd; unlabelled];
            BugAnalytics.totale_aperti := 1; BugAnalytics.totale_risolti := 2 |};
       BugAnalytics.non_bug :=
         {| BugAnalytics.aperti := [unlabelled]; BugAnalytics.risolti := [];
            BugAnalytics.totale_aperti := 1; BugAnalytics.totale_risolti := 0 |};
       BugAnalytics.periodo := ("2024-01-01", "2024-01-31") |} in
  BugReport.export_csv results
  = (Raise TypeError,
     [BugReport.csv_header;
      [JStr "Bug"; JStr "Aperto"; JNum 1; JStr "t"; JStr "widgets"; JStr ""; JStr "";
       JStr ""; JStr "docs, ui"]])
  ∧ ¬ Forall (λ tagged, BugReport.string_labels tagged.2) (BugReport.records results).
Proof.
  intros unlabelled odd results. split; [reflexivity|].
  intros Hall%(proj1 (proj2 (proj2 (export_csv_rows results)))). discriminate Hall.
Defined.

(** X15. The CSV export of pipeline 2 never fails on a record: it writes
    the header and then one row of six cells for each record, those of
    "senza_bocciature" before those of "bocciate_poi_approvate", the first
    cell telling the bucket; for a result of [analyze_prs] the number of
    rows is one more than "totale". *)
Theorem pr_export_csv_rows `{Server} session (items : list json) (n n' : Net)
    (r : PrAnalytics.Results) :
  PrAnalytics.analyze_prs session items n = (Ok r, n') →
  head (PrReport.export_csv r) = Some PrReport.csv_header
  ∧ Py.len (PrReport.export_csv r) = 1 + PrAnalytics.totale r
  ∧ Forall (λ row, length row = 6%nat) (PrReport.export_csv r)
  ∧ ∀ i row, PrReport.export_csv r !! S i = Some row →
             row !! 0%nat
             = Some (JStr (if bool_decide (i < length (PrAnalytics.senza_bocciature r))%nat
                           then "Approvata senza bocciature"
                           else "Bocciata e poi approvata")).
Proof.
  unfold PrAnalytics.analyze_prs, bind, ret. intros Hrun.
  destruct (PrAnalytics.analyze_loop session items [] [] n) as [[acc| |] n1];
    try discriminate.
  injection Hrun as <- _. cbn [PrAnalytics.senza_bocciature
    PrAnalytics.bocciate_poi_approvate PrAnalytics.totale].
  unfold PrReport.export_csv. cbn [PrAnalytics.senza_bocciature
    PrAnalytics.bocciate_poi_approvate].
  split; [done|]. split; [|split].
  - unfold Py.len. cbn [length]. rewrite length_app, !length_map. lia.
  - constructor; [done|]. apply Forall_app. split; by apply Forall_map, Forall_true.
  - intros i row Hrow. rewrite lookup_cons in Hrow.
    case_bool_decide as Hi.
    + rewrite lookup_app_l in Hrow by by rewrite length_map.
      apply list_lookup_fmap_Some in Hrow as (pr & -> & _). done.
    + rewrite lookup_app_r in Hrow by (rewrite length_map; lia).
      apply list_lookup_fmap_Some in Hrow as (pr & -> & _). done.
Qed.

Lemma pr_export_csv_rows_witness :
  let items := [pull 3 (pr_info "3"); issue 2 "closed" []; pull 1 (pr_info "1")] in
  let r := {| PrAnalytics.senza_bocciature := [pr_record 1];
              PrAnalytics.bocciate_poi_approvate := [pr_record 3];
              PrAnalytics.totale := 2 |} in
  head (PrReport.export_csv r) = Some PrReport.csv_header
  ∧ Py.len (PrReport.export_csv r) = 1 + PrAnalytics.totale r
  ∧ Forall (λ row, length row = 6%nat) (PrReport.export_csv r)
  ∧ ∀ i row, PrReport.export_csv r !! S i = Some row →
             row !! 0%nat
             = Some (JStr (if bool_decide (i < length (PrAnalytics.senza_bocciature r))%nat
                           then "Approvata senza bocciature"
                           else "Bocciata e poi approvata")).
Proof.
  intros items r.
  apply (pr_export_csv_rows (H := reviews_server) no_session items reviews_start
           (PrAnalytics.analyze_prs (H := reviews_server) no_session items reviews_start).2 r).
  reflexivity.
Defined.

(** ** The command of pipeline 2 *)

Section PrMain.

Context `{Server}.
Import PrAnalytics PrReport.

Lemma analyze_item_net session item senza bocciate (n : Net) :
  (analyze_item session item senza bocciate n).2 = n
  ∨ ∃ u, (analyze_item session item senza bocciate n).2
         = after (reviews_request session u) n.
Proof.
  unfold analyze_item, bind, lift, ret.
  destruct (Py.get item "pull_request" JNull) as [pr| |]; [|by left..].
  destruct (negb (Py.truthy pr)); [by left|].
  destruct (Py.subscript pr "url") as [pr_url| |]; [|by left..].
  destruct (Py.subscript item "number") as [number| |]; [|by left..].
  destruct (Py.subscript item "title") as [title| |]; [|by left..].
  destruct (Py.get item "html_url" (JStr "")) as [html_url| |]; [|by left..].
  destruct (repo_name item) as [repo| |]; [|by left..].
  destruct pr_url as [| | |u| |]; try by left.
  right. exists u. rewrite get_reviews_for_pr_eq.
  destruct (if status_code (serve (reviews_request session u) (world n)).1 =? 200
            then resp_json (serve (reviews_request session u) (world n)).1
            else Ok (JArr [])) as [reviews| |]; [|done..].
  destruct (review_states reviews) as [states| |]; [|done..].
  destruct (let* pr0 := Py.get item "pull_request" (JObj []) in
            Py.get pr0 "merged_at" (JStr "")) as [merged| |]; [|done..].
  by destruct (bool_decide _).
Qed.

Lemma analyze_loop_net session items :
  ∀ senza bocciate (n : Net),
    ∃ urls, sent (analyze_loop session items senza bocciate n).2
            = sent n ++ map (reviews_request session) urls.
Proof.
  induction items as [|item items IH]; intros senza bocciate n.
  - exists []. cbn. by rewrite app_nil_r.
  - cbn [analyze_loop]. unfold bind.
    pose proof (analyze_item_net session item senza bocciate n) as Hitem.
    destruct (analyze_item session item senza bocciate n) as [[acc| |] n1];
      cbn [snd] in Hitem.
    + destruct (IH acc.1 acc.2 n1) as (urls & ->).
      destruct Hitem as [->|[u ->]]; [by exists urls|].
      exists (u :: urls). cbn [after sent map]. by rewrite <- app_assoc.
    + destruct Hitem as [->|[u ->]]; [exists []|exists [u]]; cbn;
        by rewrite ?app_nil_r.
    + destruct Hitem as [->|[u ->]]; [exists []|exists [u]]; cbn;
        by rewrite ?app_nil_r.
Qed.

(** X16. The command of pipeline 2 sends nothing without credentials and
    nothing without them attached. When the token option is absent or empty
    and GITHUB_TOKEN is unset or empty, [main] ends in the missing-token
    exit with the session log unchanged. Otherwise, however the run ends,
    every request it has sent, for a search page or for the reviews of a
    pull request, carries the token as bearer authorization. *)
Theorem main_requests_authorized fuel (default_headers environ : gmap string string)
    (org author : string) (from_date to_date token : option string)
    (output : OutputFormat) (export : option string) (no_details : bool) (n : Net) :
  let resolved := if str_truthy token then token else environ !! "GITHUB_TOKEN" in
  let run :=
    main fuel default_headers environ org author from_date to_date token output export
      no_details n in
  (str_truthy resolved = false → run = (Raise (SystemExit 1 MissingToken), n))
  ∧ (∀ t, resolved = Some t → t ≠ "" →
          ∃ new, sent run.2 = sent n ++ new
                 ∧ Forall (λ req, req_headers req !! "Authorization"
                                  = Some ("Bearer " +:+ t)) new).
Proof.
  intros resolved run. subst run. unfold main, bind, lift, get_github_session.
  assert ((if negb (str_truthy token) then environ !! "GITHUB_TOKEN" else token)
          = resolved) as ->.
  { subst resolved. by destruct (str_truthy token). }
  split.
  - intros Hres. by rewrite Hres.
  - intros t Hres Ht.
    assert (str_truthy resolved = true) as Htrue.
    { rewrite Hres. cbn. apply String.eqb_neq in Ht. by rewrite Ht. }
    rewrite Htrue, Hres. cbn [negb default].
    set (session := {| headers := _ |}).
    assert (headers session !! "Authorization" = Some ("Bearer " +:+ t)) as Hauth.
    { subst session. cbn [headers]. rewrite !lookup_insert_ne by done.
      apply lookup_insert_eq. }
    assert (∀ query page k, Forall (λ req, req_headers req !! "Authorization"
                                           = Some ("Bearer " +:+ t))
                              (page_requests session query page k)) as Hpages.
    { intros query page k. revert page.
      induction k as [|k IH]; intros page; constructor; [done|apply IH]. }
    destruct (search_merged_prs_trace session org author (shown from_date)
                (shown to_date) fuel n) as (k & _ & Hsearch).
    destruct (search_merged_prs fuel session org author (shown from_date)
                (shown to_date) n) as [[[|item items]| |] n1]; cbn [snd] in Hsearch;
      try (eexists; split; [exact Hsearch|apply Hpages]).
    unfold analyze_prs, bind.
    destruct (analyze_loop_net session (item :: items) [] [] n1) as (urls & Hloop).
    assert (∃ new, sent n1 ++ map (reviews_request session) urls = sent n ++ new
                   ∧ Forall (λ req, req_headers req !! "Authorization"
                                    = Some ("Bearer " +:+ t)) new) as Hnew.
    { eexists. rewrite Hsearch, <- app_assoc. split; [done|].
      apply Forall_app. split; [apply Hpages|]. by apply Forall_map, Forall_true. }
    rewrite <- Hloop in Hnew.
    destruct (analyze_loop session (item :: items) [] [] n1) as [[acc| |] n2];
      cbn [snd] in *; try done.
    unfold ret. destruct output; repeat (match goal with
      | |- context [if ?b then _ else _] => destruct b
      end); exact Hnew.
Qed.

(** X17. When the search finds nothing the command of pipeline 2 only says
    so: whatever the output format and the export option, it analyses
    nothing, asks for no reviews and writes no file. *)
Theorem main_nothing_found fuel (default_headers environ : gmap string string)
    (org author : string) (from_date to_date token : option string)
    (output : OutputFormat) (export : option string) (no_details : bool)
    (n n1 : Net) session :
  get_github_session default_headers "pr-review-stats-script" environ token = Ok session →
  search_merged_prs fuel session org author (shown from_date) (shown to_date) n
  = (Ok [], n1) →
  main fuel default_headers environ org author from_date to_date token output export
    no_details n
  = (Ok [NoPrFound], n1)
  ∧ files [NoPrFound] = []
  ∧ ∃ k, sent n1
         = sent n ++ page_requests session
                       (merged_prs_query org author (shown from_date) (shown to_date)) 1 k.
Proof.
  intros Hsession Hsearch. unfold main, bind, lift. rewrite Hsession, Hsearch.
  split; [done|]. split; [done|].
  destruct (search_merged_prs_trace session org author (shown from_date) (shown to_date)
              fuel n) as (k & _ & Hk).
  rewrite Hsearch in Hk. by exists k.
Qed.


End PrMain.

Lemma main_requests_authorized_witness :
  PrReport.main (H := github_server) 3 ∅ {[ "GITHUB_TOKEN" := "" ]} "acme" "alice"
    (Some "2024-01-01") (Some "2024-01-31") (Some "") PrReport.Csv (Some "out.csv") false
    (@start github_server tt)
  = (Raise (SystemExit 1 MissingToken), @start github_server tt)
  ∧ ∃ new,
      sent (PrReport.main (H := github_server) 3 ∅ {[ "GITHUB_TOKEN" := "from-env" ]} "acme"
              "alice" (Some "2024-01-01") (Some "2024-01-31") (Some "") PrReport.Csv
              (Some "out.csv") false (@start github_server tt)).2
      = sent (@start github_server tt) ++ new
      ∧ Forall (λ req, req_headers req !! "Authorization"
                       = Some ("Bearer " +:+ "from-env")) new.
Proof.
  split.
  - by apply (proj1 (main_requests_authorized (H := github_server) 3 ∅
                       {[ "GITHUB_TOKEN" := "" ]} "acme" "alice" (Some "2024-01-01")
                       (Some "2024-01-31") (Some "") PrReport.Csv (Some "out.csv") false
                       (@start github_server tt))).
  - by apply (proj2 (main_requests_authorized (H := github_server) 3 ∅
                       {[ "GITHUB_TOKEN" := "from-env" ]} "acme" "alice"
                       (Some "2024-01-01") (Some "2024-01-31") (Some "") PrReport.Csv
                       (Some "out.csv") false (@start github_server tt))).
Defined.

Lemma main_nothing_found_witness :
  let server := paged_server [] in
  let session :=
    {| headers :=
         <["User-Agent" := "pr-review-stats-script"]>
         (<["X-GitHub-Api-Version" := "2022-11-28"]>
         (<["Accept" := "application/vnd.github+json"]>
         (<["Authorization" := "Bearer t"]> ∅))) |} in
  let n1 :=
    {| world := tt : @World server;
       sent := [search_request session
                  (PrAnalytics.merged_prs_query "acme" "alice" "2024-01-01" "2024-01-31")
                  1] |} in
  PrReport.main (H := server) 3 ∅ ∅ "acme" "alice" (Some "2024-01-01") (Some "2024-01-31")
    (Some "t") PrReport.Csv (Some "out.csv") false (@start server tt)
  = (Ok [PrReport.NoPrFound], n1)
  ∧ PrReport.files [PrReport.NoPrFound] = []
  ∧ ∃ k, sent n1
         = sent (@start server tt)
           ++ page_requests session
                (PrAnalytics.merged_prs_query "acme" "alice" (PrReport.shown (Some "2024-01-01"))
                   (PrReport.shown (Some "2024-01-31"))) 1 k.
Proof.
  intros server session n1.
  by apply (main_nothing_found (H := server) 3 ∅ ∅ "acme" "alice" (Some "2024-01-01")
              (Some "2024-01-31") (Some "t") PrReport.Csv (Some "out.csv") false
              (@start server tt) n1 session).
Defined.


Lemma validate_date_outcomes s :
  validate_date s = Ok s
  ∨ validate_date s
    = Raise (BadParameter ("Data non valida: " +:+ s +:+ ". Usa il formato YYYY-MM-DD")).
Proof.
  unfold validate_date, Strptime.strptime.
  destruct (Strptime.match_seq _ s) as [[found rest]|]; [|by right].
  destruct (negb _); [by right|].
  destruct found as [|Y [|h1 [|M [|h2 [|D [|? ?]]]]]]; try by right.
  destruct (Strptime.date_ok _ _ _); [by left|by right].
Qed.

(** X19. The callback of the date options validates only a value that is
    not empty: the empty string is let through as no date at all, and the
    query is then built with the text "None" in place of the date; every
    other value is returned unchanged when [validate_date] accepts it and
    is refused with the parameter error otherwise. *)
Theorem date_callback_empty (value : string) :
  (PrReport.date_callback value = Ok None ↔ value = "")
  ∧ (PrReport.date_callback value = Ok (Some value) ↔ DateFormat.lenient_date value)
  ∧ (PrReport.date_callback value = Ok None
     ∨ PrReport.date_callback value = Ok (Some value)
     ∨ PrReport.date_callback value
       = Raise (BadParameter
                  ("Data non valida: " +:+ value +:+ ". Usa il formato YYYY-MM-DD")))
  ∧ ∀ org author to_date,
      PrAnalytics.merged_prs_query org author (PrReport.shown None)
        (PrReport.shown (Some to_date))
      = "org:" +:+ org +:+ " is:pr is:merged author:" +:+ author
        +:+ " merged:None.." +:+ to_date.
Proof.
  unfold PrReport.date_callback.
  destruct (String.eqb_spec value "") as [->|Hne]; cbn [negb].
  - split; [done|]. split; [|split; [by left|done]].
    split; [done|]. intros Hl%validate_date_lenient. discriminate Hl.
  - destruct (validate_date_outcomes value) as [Hv|Hv]; rewrite Hv; cbn [res_bind].
    + split; [done|]. split; [|split; [by auto|done]].
      split; [|done]. intros _. unfold validate_date in Hv.
      destruct (Strptime.strptime value) as [r|e|] eqn:Hs; [by eapply strptime_lenient| |done].
      by destruct e.
    + split; [done|]. split; [|split; [by auto|done]].
      split; [done|]. intros Hl%validate_date_lenient. congruence.
Qed.

Section IssueRequests.

Context `{Server}.
Import BugAnalytics.

Lemma bug_search_loop_trace session (query : string) (is_bug : option bool) (fuel : nat) :
  ∀ (n : Net) all_items page,
    ∃ k, (k ≤ fuel)%nat
         ∧ sent (search_loop fuel session query is_bug page all_items n).2
           = sent n ++ page_requests session query page k
         ∧ ((∃ l, (search_loop fuel session query is_bug page all_items n).1 = Ok l) →
            (0 < k)%nat).
Proof.
  induction fuel as [|fuel IH]; intros n all_items page.
  - exists 0%nat. split; [done|]. split; [cbn; by rewrite app_nil_r|]. by intros [l Hl].
  - cbn [search_loop]. unfold bind at 1. rewrite session_get_eq.
    fold (search_request session query page).
    set (req := search_request session query page).
    assert (sent (after req n) = sent n ++ page_requests session query page 1) as Hone
      by done.
    destruct (status_code (serve req (world n)).1 =? 403);
      [exists 1%nat; split; [lia|split; [done|lia]]|].
    destruct (negb (status_code (serve req (world n)).1 =? 200));
      [exists 1%nat; split; [lia|split; [done|lia]]|].
    unfold bind, lift, ret.
    destruct (resp_json (serve req (world n)).1) as [data| |];
      try (exists 1%nat; split; [lia|split; [done|lia]]).
    destruct (Py.get data "items" (JArr [])) as [items| |];
      try (exists 1%nat; split; [lia|split; [done|lia]]).
    destruct (negb (Py.truthy items)); [exists 1%nat; split; [lia|split; [done|lia]]|].
    destruct (match is_bug with
              | Some false =>
                  let* l := Py.iter items in
                  filter_res (fun item => let* b := has_bug_label item in Ok (negb b)) l
              | _ => Py.iter items
              end) as [l| |]; try (exists 1%nat; split; [lia|split; [done|lia]]).
    destruct (Py.len l <? per_page); [exists 1%nat; split; [lia|split; [done|lia]]|].
    destruct (IH (after req n) (all_items ++ l) (page + 1)) as (k & Hk & Hsent & _).
    exists (S k). split; [lia|]. split; [|lia]. rewrite Hsent.
    cbn [after sent page_requests]. by rewrite <- app_assoc.
Qed.

(** X20. The requests of [analyze_issues] come in four runs, in this order:
    the pages 1, 2, ... of the open-bug query, of the open non-bug query, of
    the merged-bug query and of the merged non-bug query, and nothing else,
    however the analysis ends. A fetch starts only when the one before it
    has returned: when one of the four fetches raises, the analysis ends
    with that exception in the session as the failed fetch left it, and the
    runs of the fetches after it are empty. An analysis that returns has
    asked at least the first page of each of the four queries. *)
Theorem analyze_issues_requests fuel session (org from_date to_date : string) (n : Net) :
  let q1 := issues_query org from_date to_date (Some true) in
  let q2 := issues_query org from_date to_date (Some false) in
  let q3 := merged_prs_query org from_date to_date (Some true) in
  let q4 := merged_prs_query org from_date to_date (Some false) in
  let run1 := search_issues fuel session org from_date to_date (Some true) n in
  let run2 := search_issues fuel session org from_date to_date (Some false) run1.2 in
  let run3 := search_merged_prs fuel session org from_date to_date (Some true) run2.2 in
  let run4 := search_merged_prs fuel session org from_date to_date (Some false) run3.2 in
  let run := analyze_issues fuel session org from_date to_date n in
  ∃ k1 k2 k3 k4 : nat,
    sent run.2
    = sent n ++ page_requests session q1 1 k1 ++ page_requests session q2 1 k2
      ++ page_requests session q3 1 k3 ++ page_requests session q4 1 k4
    ∧ (k1 ≤ fuel ∧ k2 ≤ fuel ∧ k3 ≤ fuel ∧ k4 ≤ fuel)%nat
    ∧ (∀ e, run1.1 = Raise e →
            run = (Raise e, run1.2) ∧ k2 = 0%nat ∧ k3 = 0%nat ∧ k4 = 0%nat)
    ∧ (∀ l1 e, run1.1 = Ok l1 → run2.1 = Raise e →
               run = (Raise e, run2.2) ∧ k3 = 0%nat ∧ k4 = 0%nat)
    ∧ (∀ l1 l2 e, run1.1 = Ok l1 → run2.1 = Ok l2 → run3.1 = Raise e →
                  run = (Raise e, run3.2) ∧ k4 = 0%nat)
    ∧ (∀ l1 l2 l3 e, run1.1 = Ok l1 → run2.1 = Ok l2 → run3.1 = Ok l3 →
                     run4.1 = Raise e → run = (Raise e, run4.2))
    ∧ ((∃ r, run.1 = Ok r) → (0 < k1 ∧ 0 < k2 ∧ 0 < k3 ∧ 0 < k4)%nat).
Proof.
  cbv zeta. unfold search_issues, search_merged_prs.
  set (q1 := issues_query org from_date to_date (Some true)).
  set (q2 := issues_query org from_date to_date (Some false)).
  set (q3 := merged_prs_query org from_date to_date (Some true)).
  set (q4 := merged_prs_query org from_date to_date (Some false)).
  destruct (analyze_issues fuel session org from_date to_date n) as [out n'] eqn:Hrun.
  unfold analyze_issues, search_issues, search_merged_prs in Hrun.
  fold q1 q2 q3 q4 in Hrun. cbn [fst snd].
  unfold bind at 1 in Hrun.
  destruct (bug_search_loop_trace session q1 (Some true) fuel n [] 1)
    as (k1 & Hk1 & Hs1 & Hpos1).
  destruct (search_loop fuel session q1 (Some true) 1 [] n) as [[l1| |] n1];
    cbn [fst snd] in *; cbv beta iota in Hrun;
    try (injection Hrun as <- <-; exists k1, 0%nat, 0%nat, 0%nat; rewrite Hs1;
         cbn [page_requests]; rewrite !app_nil_r;
         split; [done|]; split; [lia|]; split; [by intros ? [= <-]|];
         do 3 (split; [by intros; simplify_eq|]); by intros [r Hr]).
  assert (0 < k1)%nat as Hk1pos by (apply Hpos1; by eexists).
  unfold bind at 1 in Hrun.
  destruct (bug_search_loop_trace session q2 (Some false) fuel n1 [] 1)
    as (k2 & Hk2 & Hs2 & Hpos2).
  destruct (search_loop fuel session q2 (Some false) 1 [] n1) as [[l2| |] n2];
    cbn [fst snd] in *; cbv beta iota in Hrun;
    try (injection Hrun as <- <-; exists k1, k2, 0%nat, 0%nat; rewrite Hs2, Hs1;
         cbn [page_requests]; rewrite !app_nil_r, <- !app_assoc;
         split; [done|]; split; [lia|]; split; [by intros; simplify_eq|];
         split; [by intros ? ? _ [= <-]|];
         do 2 (split; [by intros; simplify_eq|]); by intros [r Hr]).
  assert (0 < k2)%nat as Hk2pos by (apply Hpos2; by eexists).
  unfold bind at 1 in Hrun.
  destruct (bug_search_loop_trace session q3 (Some true) fuel n2 [] 1)
    as (k3 & Hk3 & Hs3 & Hpos3).
  destruct (search_loop fuel session q3 (Some true) 1 [] n2) as [[l3| |] n3];
    cbn [fst snd] in *; cbv beta iota in Hrun;
    try (injection Hrun as <- <-; exists k1, k2, k3, 0%nat; rewrite Hs3, Hs2, Hs1;
         cbn [page_requests]; rewrite !app_nil_r, <- !app_assoc;
         split; [done|]; split; [lia|]; do 2 (split; [by intros; simplify_eq|]);
         split; [by intros ? ? ? _ _ [= <-]|];
         split; [by intros; simplify_eq|]; by intros [r Hr]).
  assert (0 < k3)%nat as Hk3pos by (apply Hpos3; by eexists).
  unfold bind at 1 in Hrun.
  destruct (bug_search_loop_trace session q4 (Some false) fuel n3 [] 1)
    as (k4 & Hk4 & Hs4 & Hpos4).
  destruct (search_loop fuel session q4 (Some false) 1 [] n3) as [[l4| |] n4];
    cbn [fst snd] in *; cbv beta iota in Hrun;
    try (injection Hrun as <- <-; exists k1, k2, k3, k4; rewrite Hs4, Hs3, Hs2, Hs1;
         rewrite <- !app_assoc;
         split; [done|]; split; [lia|]; do 3 (split; [by intros; simplify_eq|]);
         split; [by intros ? ? ? ? _ _ _ [= <-]|]; by intros [r Hr]).
  assert (0 < k4)%nat as Hk4pos by (apply Hpos4; by eexists).
  exists k1, k2, k3, k4.
  assert (n' = n4) as ->.
  { unfold bind, lift, ret in Hrun.
    destruct (filter_res state_is_open l1); [|by injection Hrun..].
    destruct (filter_res state_is_open l2); [|by injection Hrun..].
    destruct (map_res format_issue _); [|by injection Hrun..].
    destruct (map_res format_pr l3); [|by injection Hrun..].
    destruct (map_res format_issue _); [|by injection Hrun..].
    destruct (map_res format_pr l4); by injection Hrun. }
  rewrite Hs4, Hs3, Hs2, Hs1, <- !app_assoc.
  split; [done|]. split; [lia|]. do 4 (split; [by intros; simplify_eq|]).
  intros _. lia.
Qed.

End IssueRequests.

Lemma analyze_issues_requests_witness :
  let server := scripted_server rate_limited in
  let script := [items_page [issue 1 "open" [label "bug"]]; rate_limited] in
  let query := BugAnalytics.issues_query "acme" "2024-01-01" "2024-01-31" in
  BugAnalytics.analyze_issues (H := server) 3 no_session "acme" "2024-01-01" "2024-01-31"
    (@start server script)
  = (Raise (SystemExit 1 RateLimited),
     {| world := [] : @World server;
        sent := [search_request no_session (query (Some true)) 1;
                 search_request no_session (query (Some false)) 1] |}).
Proof.
  intros server script query.
  destruct (analyze_issues_requests (H := server) 3 no_session "acme" "2024-01-01"
              "2024-01-31" (@start server script))
    as (k1 & k2 & k3 & k4 & _ & _ & _ & Hsecond & _).
  exact (proj1 (Hsecond [issue 1 "open" [label "bug"]] (SystemExit 1 RateLimited)
                  eq_refl eq_refl)).
Defined.
